(** * Terraform AWS provider: IoT Analytics channel / datastore and
      Greengrass group / logger-definition resources

    A shallow embedding of the resource handlers of

    - the IoT Analytics channel resource (and its sibling
      [aws/resource_aws_iotanalytics_datastore.go], the same text with
      [Channel] replaced by [Datastore]),
    - [aws/resource_aws_greengrass_group.go],
    - [aws/resource_aws_greengrass_logger_definition.go],

    followed by the properties proved about them.  Go values of type
    [interface{}] become an inductive [value]; [map[string]interface{}]
    becomes a [gmap string value]; a failed type assertion or a nil
    dereference is a [Panic]; the handlers run in a small state monad
    over the resource data, the remote service and the log of the calls
    and sleeps they perform. *)

From Stdlib Require Import ZArith String List Lia.
From stdpp Require Import base option gmap strings list.

Local Open Scope string_scope.
Local Open Scope list_scope.
Local Open Scope Z_scope.

(** ** The parts of the Go runtime the handlers rely on *)

Set Warnings "-register-all".

Module Go.

(** Why a goroutine panics in the code modelled here. *)
Inductive panic_kind :=
| TypeAssertion       (* x.(T) on a value that is not a T *)
| NilDereference      (* field access or * through a nil pointer *)
| IndexOutOfRange.    (* l[i] with i >= len(l) *)

(** A pure computation that returns or panics. *)
Inductive go (A : Type) :=
| Ok (a : A)
| Panic (k : panic_kind).
Arguments Ok {A} a.
Arguments Panic {A} k.

Definition bind {A B} (m : go A) (f : A -> go B) : go B :=
  match m with
  | Ok a => f a
  | Panic k => Panic k
  end.

(** [interface{}] as the handlers meet it.  [VSet l] is a
    [*schema.Set] whose [List()] is [l]; [VStringPtr] is a [*string]
    stored as such. *)
Inductive value :=
| VNil
| VString (s : string)
| VStringPtr (p : option string)
| VInt (n : Z)
| VInt64 (n : Z)
| VBool (b : bool)
| VList (l : list value)
| VSet (l : list value)
| VMap (m : gmap string value).

(** Type assertions [v.(T)]. *)
Definition as_string (v : value) : go string :=
  match v with VString s => Ok s | _ => Panic TypeAssertion end.
Definition as_int (v : value) : go Z :=
  match v with VInt n => Ok n | _ => Panic TypeAssertion end.
Definition as_bool (v : value) : go bool :=
  match v with VBool b => Ok b | _ => Panic TypeAssertion end.
Definition as_list (v : value) : go (list value) :=
  match v with VList l => Ok l | _ => Panic TypeAssertion end.
Definition as_set (v : value) : go (list value) :=
  match v with VSet l => Ok l | _ => Panic TypeAssertion end.
Definition as_map (v : value) : go (gmap string value) :=
  match v with VMap m => Ok m | _ => Panic TypeAssertion end.

(** [m[k]] without the comma-ok form: the zero value of
    [interface{}] when the key is absent. *)
Definition index (m : gmap string value) (k : string) : value :=
  default VNil (m !! k).

(** [l[i]]. *)
Definition at_index (l : list value) (i : nat) : go value :=
  match l !! i with
  | Some v => Ok v
  | None => Panic IndexOutOfRange
  end.

(** [*p] and [p.f]. *)
Definition deref {A} (p : option A) : go A :=
  match p with
  | Some a => Ok a
  | None => Panic NilDereference
  end.

(** [int64] arithmetic wraps around. *)
Definition int64 (z : Z) : Z := (z + 2 ^ 63) mod 2 ^ 64 - 2 ^ 63.

(** Package [time]: a [Duration] is an [int64] count of nanoseconds. *)
Definition Duration (n : Z) : Z := int64 n.
Definition Second : Z := 1000000000.
Definition mul (a b : Z) : Z := int64 (a * b).

(** Package [os]: the process environment, and [Getenv], which
    returns the empty string for a variable that is not set. *)
Definition Getenv (environ : gmap string string) (key : string) : string :=
  default "" (environ !! key).

(** Package [aws] of the SDK: pointer helpers. *)
Definition String (s : string) : option string := Some s.
Definition Int64 (n : Z) : option Z := Some n.
Definition Bool (b : bool) : option bool := Some b.
Definition StringValue (p : option string) : string := default "" p.
Definition Int64Value (p : option Z) : Z := default 0 p.
Definition BoolValue (p : option bool) : bool := default false p.

End Go.

Import Go.

Declare Scope go_scope.
Delimit Scope go_scope with go.
Notation "x <- m ;; k" := (Go.bind m (fun x => k))
  (at level 100, m at next level, right associativity) : go_scope.

(** ** Handlers as state transformers

    A handler receives the resource data [d] by pointer and a client
    of the remote service.  Its state is the resource data, the remote
    world, and the log of what it has done to that world: the calls it
    issued and the sleeps it took, oldest first. *)

Module Machine.

(** [*schema.ResourceData]: the identity, the attribute bag, and the
    resource's schema as far as [Set] uses it.  [d.Set(key, v)] does
    not store [v] as it is handed over: the SDK converts it to the type
    the schema gives [key] (a [*string] to its string, a list to a
    [*schema.Set] where the schema says so, zero values where a field
    is absent), or refuses it and returns an error that no handler here
    looks at.  That conversion is the SDK's and the schema's, not the
    handlers': [rd_schema key v attrs] is the attribute bag that
    [d.Set(key, v)] leaves behind when the bag was [attrs], and the
    handlers are verified for every such function. *)
Record ResourceData := {
  rd_id : string;
  rd_attrs : gmap string value;
  rd_schema : string -> value -> gmap string value -> gmap string value
}.

(** The remote world moves on while the goroutine sleeps. *)
Class Clock (W : Type) := elapse : Z -> W -> W.

Inductive Event (C : Type) :=
| EvCall (c : C)
| EvSleep (d : Z).
Arguments EvCall {C} c.
Arguments EvSleep {C} d.

Record State (W C : Type) := {
  st_d : ResourceData;
  st_world : W;
  st_log : list (Event C)
}.
Arguments st_d {W C} s.
Arguments st_world {W C} s.
Arguments st_log {W C} s.

Inductive Res (W C A : Type) :=
| Ret (a : A) (s : State W C)
| Crash (k : panic_kind) (s : State W C).
Arguments Ret {W C A} a s.
Arguments Crash {W C A} k s.

Definition M (W C A : Type) : Type := State W C -> Res W C A.

Definition final {W C A} (r : Res W C A) : State W C :=
  match r with
  | Ret _ s => s
  | Crash _ s => s
  end.

Definition ret {W C A} (a : A) : M W C A := fun s => Ret a s.

Definition bind {W C A B} (m : M W C A) (f : A -> M W C B) : M W C B :=
  fun s =>
    match m s with
    | Ret a s' => f a s'
    | Crash k s' => Crash k s'
    end.

(** A pure computation run inside a handler. *)
Definition lift {W C A} (g : go A) : M W C A :=
  fun s =>
    match g with
    | Ok a => Ret a s
    | Panic k => Crash k s
    end.

(** [d.Get(key)], [d.Id()], [d.SetId(id)]. *)
Definition Get {W C} (key : string) : M W C value :=
  fun s => Ret (index (rd_attrs (st_d s)) key) s.

Definition Id {W C} : M W C string :=
  fun s => Ret (rd_id (st_d s)) s.

Definition SetId {W C} (id : string) : M W C unit :=
  fun s =>
    Ret tt {| st_d := {| rd_id := id;
                         rd_attrs := rd_attrs (st_d s);
                         rd_schema := rd_schema (st_d s) |};
              st_world := st_world s;
              st_log := st_log s |}.

(** [d.Set(key, v)]: the attribute bag becomes what the schema makes of
    the write; the error [d.Set] may return is dropped, as every call
    site drops it.  The identity is not touched. *)
Definition Set_ {W C} (key : string) (v : value) : M W C unit :=
  fun s =>
    Ret tt {| st_d := {| rd_id := rd_id (st_d s);
                         rd_attrs := rd_schema (st_d s) key v (rd_attrs (st_d s));
                         rd_schema := rd_schema (st_d s) |};
              st_world := st_world s;
              st_log := st_log s |}.

(** A method of the service client: logged under [c], then run
    against the remote world. *)
Definition invoke {W C A} (c : C) (f : W -> A * W) : M W C A :=
  fun s =>
    let '(a, w) := f (st_world s) in
    Ret a {| st_d := st_d s; st_world := w; st_log := st_log s ++ [EvCall c] |}.

(** [time.Sleep(d)]: returns at once when [d] is zero or negative. *)
Definition Sleep {W C} `{Clock W} (d : Z) : M W C unit :=
  fun s =>
    Ret tt {| st_d := st_d s;
              st_world := if 0 <? d then elapse d (st_world s) else st_world s;
              st_log := st_log s ++ [EvSleep d] |}.

End Machine.

Import Machine.

Declare Scope handler_scope.
Delimit Scope handler_scope with handler.
Notation "x <- m ;; k" := (Machine.bind m (fun x => k))
  (at level 100, m at next level, right associativity) : handler_scope.
Notation "m ;;; k" := (Machine.bind m (fun _ => k))
  (at level 100, right associativity) : handler_scope.

(** ** IoT Analytics: request and response shapes

    The SDK structs, restricted to the fields the handlers read or
    write.  The datastore structs have the same fields under the names
    [CustomerManagedDatastoreS3Storage], [DatastoreStorage], ...; one
    set of records serves both files. *)

Module IotAnalytics.

Record CustomerManagedChannelS3Storage := {
  Bucket : option string;
  KeyPrefix : option string;
  RoleArn : option string
}.

Record ServiceManagedChannelS3Storage := { }.

Record ChannelStorage := {
  CustomerManagedS3 : option CustomerManagedChannelS3Storage;
  ServiceManagedS3 : option ServiceManagedChannelS3Storage
}.

Record RetentionPeriod := {
  NumberOfDays : option Z;
  Unlimited : option bool
}.

(** [validation.IntAtLeast(min)] of the plugin SDK, as used by
    [generateRetentionPeriodSchema] for ["number_of_days"]: the value
    is accepted when it is not below [min]. *)
Definition IntAtLeast (min : Z) (v : Z) : bool := min <=? v.

Definition number_of_days_ValidateFunc : Z -> bool := IntAtLeast 1.

(** *** Attribute codec: configuration to request *)

Definition parseCustomerManagedS3 (rawCustomerManagedS3 : gmap string value)
  : go CustomerManagedChannelS3Storage :=
  (bucket <- as_string (index rawCustomerManagedS3 "bucket") ;;
   roleArn <- as_string (index rawCustomerManagedS3 "role_arn") ;;
   let customerManagedS3 :=
     {| Bucket := Go.String bucket; KeyPrefix := None; RoleArn := Go.String roleArn |} in
   match rawCustomerManagedS3 !! "key_prefix" with
   | Some v =>
       s <- as_string v ;;
       if (1 <=? String.length s)%nat
       then Ok {| Bucket := Bucket customerManagedS3;
                  KeyPrefix := Go.String s;
                  RoleArn := RoleArn customerManagedS3 |}
       else Ok customerManagedS3
   | None => Ok customerManagedS3
   end)%go.

Definition parseServiceManagedS3 (rawServiceManagedS3 : gmap string value)
  : ServiceManagedChannelS3Storage :=
  Build_ServiceManagedChannelS3Storage.

Definition parseStorage (rawChannelStorage : gmap string value) : go ChannelStorage :=
  (list1 <- as_list (index rawChannelStorage "customer_managed_s3") ;;
   customerManagedS3 <-
     (if (0 <? length list1)%nat
      then v <- at_index list1 0 ;;
           rawCustomerManagedS3 <- as_map v ;;
           c <- parseCustomerManagedS3 rawCustomerManagedS3 ;;
           Ok (Some c)
      else Ok None) ;;
   list2 <- as_list (index rawChannelStorage "service_managed_s3") ;;
   serviceManagedS3 <-
     (if (0 <? length list2)%nat
      then v <- at_index list2 0 ;;
           rawServiceManagedS3 <- as_map v ;;
           Ok (Some (parseServiceManagedS3 rawServiceManagedS3))
      else Ok None) ;;
   Ok {| CustomerManagedS3 := customerManagedS3;
         ServiceManagedS3 := serviceManagedS3 |})%go.

Definition parseRetentionPeriod (rawRetentionPeriod : gmap string value)
  : go RetentionPeriod :=
  (numberOfDays <-
     match rawRetentionPeriod !! "number_of_days" with
     | Some v =>
         n <- as_int v ;;
         if 1 <? int64 n then Ok (Go.Int64 (int64 n)) else Ok None
     | None => Ok None
     end ;;
   unlimited <-
     match rawRetentionPeriod !! "unlimited" with
     | Some v => b <- as_bool v ;; Ok (Go.Bool b)
     | None => Ok None
     end ;;
   Ok {| NumberOfDays := numberOfDays; Unlimited := unlimited |})%go.

(** *** Attribute codec: response to configuration

    A Go map that may be [nil] is an [option (gmap string value)]. *)

Definition flattenCustomerManagedS3 (customerManagedS3 : option CustomerManagedChannelS3Storage)
  : option (gmap string value) :=
  match customerManagedS3 with
  | None => None
  | Some c =>
      let rawCustomerManagedS3 : gmap string value := ∅ in
      let rawCustomerManagedS3 :=
        <["bucket" := VString (StringValue (Bucket c))]> rawCustomerManagedS3 in
      let rawCustomerManagedS3 :=
        <["role_arn" := VString (StringValue (RoleArn c))]> rawCustomerManagedS3 in
      let rawCustomerManagedS3 :=
        match KeyPrefix c with
        | Some _ => <["key_prefix" := VString (StringValue (KeyPrefix c))]> rawCustomerManagedS3
        | None => rawCustomerManagedS3
        end in
      Some rawCustomerManagedS3
  end.

Definition flattenServiceManagedS3 (serviceManagedS3 : option ServiceManagedChannelS3Storage)
  : option (gmap string value) :=
  match serviceManagedS3 with
  | None => None
  | Some _ => Some ∅
  end.

Definition wrapMapInList (mapping : option (gmap string value)) : list value :=
  match mapping with
  | None => []
  | Some m => [VMap m]
  end.

Definition flattenStorage (channelStorage : option ChannelStorage)
  : go (option (gmap string value)) :=
  (cs <- deref channelStorage ;;
   let customerManagedS3 := flattenCustomerManagedS3 (CustomerManagedS3 cs) in
   let serviceManagedS3 := flattenServiceManagedS3 (ServiceManagedS3 cs) in
   match customerManagedS3, serviceManagedS3 with
   | None, None => Ok None
   | _, _ =>
       let rawStorage : gmap string value := ∅ in
       let rawStorage :=
         <["customer_managed_s3" := VList (wrapMapInList customerManagedS3)]> rawStorage in
       let rawStorage :=
         <["service_managed_s3" := VList (wrapMapInList serviceManagedS3)]> rawStorage in
       Ok (Some rawStorage)
   end)%go.

Definition flattenRetentionPeriod (retentionPeriod : option RetentionPeriod)
  : go (gmap string value) :=
  (rp <- deref retentionPeriod ;;
   let rawRetentionPeriod : gmap string value := ∅ in
   let rawRetentionPeriod :=
     match NumberOfDays rp with
     | Some _ => <["number_of_days" := VInt64 (Int64Value (NumberOfDays rp))]> rawRetentionPeriod
     | None => rawRetentionPeriod
     end in
   let rawRetentionPeriod :=
     match Unlimited rp with
     | Some _ => <["unlimited" := VBool (BoolValue (Unlimited rp))]> rawRetentionPeriod
     | None => rawRetentionPeriod
     end in
   Ok rawRetentionPeriod)%go.

(** *** Requests and responses of the service client *)

Module CreateChannelInput.
Record t := {
  ChannelName : option string;
  ChannelStorage : option ChannelStorage;
  RetentionPeriod : option RetentionPeriod
}.
End CreateChannelInput.

Module UpdateChannelInput.
Record t := {
  ChannelName : option string;
  ChannelStorage : option ChannelStorage;
  RetentionPeriod : option RetentionPeriod
}.
End UpdateChannelInput.

Module DescribeChannelInput.
Record t := { ChannelName : option string }.
End DescribeChannelInput.

Module DeleteChannelInput.
Record t := { ChannelName : option string }.
End DeleteChannelInput.

Module Channel.
Record t := {
  Name : option string;
  Storage : option ChannelStorage;
  RetentionPeriod : option RetentionPeriod
}.
End Channel.

Module DescribeChannelOutput.
Record t := { Channel : option Channel.t }.
End DescribeChannelOutput.

(** The two resources that share these handlers. *)
Inductive Kind := OfChannel | OfDatastore.

(** [conn]: the IoT Analytics client.  [Create conn OfChannel p] is
    [conn.CreateChannel(p)], [Create conn OfDatastore p] is
    [conn.CreateDatastore(p)], and so on.  A method returns its error
    ([None] for [nil]) and, where the handler reads it, its output. *)
Record iotanalyticsconn (W E : Type) := {
  Create : Kind -> CreateChannelInput.t -> W -> option E * W;
  Describe : Kind -> DescribeChannelInput.t -> W
             -> (option DescribeChannelOutput.t * option E) * W;
  Update : Kind -> UpdateChannelInput.t -> W -> option E * W;
  Delete : Kind -> DeleteChannelInput.t -> W -> option E * W
}.
Arguments Create {W E} i k p w.
Arguments Describe {W E} i k p w.
Arguments Update {W E} i k p w.
Arguments Delete {W E} i k p w.

(** What the log records of a call: the method and its request. *)
Inductive Call :=
| CallCreate (k : Kind) (p : CreateChannelInput.t)
| CallDescribe (k : Kind) (p : DescribeChannelInput.t)
| CallUpdate (k : Kind) (p : UpdateChannelInput.t)
| CallDelete (k : Kind) (p : DeleteChannelInput.t).

(** *** The retry loop

    [retrySecondsList := [6]int{1, 2, 5, 8, 10, 0}] and the loop

    [for _, sleepSeconds := range retrySecondsList {
       err = nil; _, err = op(); if err == nil { break };
       time.Sleep(time.Duration(sleepSeconds) * time.Second) }]

    that create and update contain, over the call [op] made in it.
    [err] is the variable declared before the loop. *)

Definition retrySecondsList : list Z := [1; 2; 5; 8; 10; 0].

Fixpoint retry {W C E} `{Clock W} (op : M W C (option E))
    (retrySeconds : list Z) (err : option E) : M W C (option E) :=
  match retrySeconds with
  | [] => ret err
  | sleepSeconds :: rest =>
      (err <- op ;;
       match err with
       | None => ret None
       | Some e =>
           Sleep (Go.mul (Duration sleepSeconds) Second) ;;;
           retry op rest (Some e)
       end)%handler
  end.

(** *** Lifecycle handlers *)

Section Handlers.
Context {W E : Type} `{Clock W}.
Variable conn : iotanalyticsconn W E.
Variable kind : Kind.

Definition resourceAwsIotAnalyticsRead : M W Call (option E) :=
  (id <- Id ;;
   let params := {| DescribeChannelInput.ChannelName := Go.String id |} in
   r <- invoke (CallDescribe kind params) (Describe conn kind params) ;;
   let '(out, err) := r in
   match err with
   | Some e => ret (Some e)
   | None =>
       o <- lift (deref out) ;;
       channel <- lift (deref (DescribeChannelOutput.Channel o)) ;;
       Set_ "name" (VStringPtr (Channel.Name channel)) ;;;
       storage <- lift (flattenStorage (Channel.Storage channel)) ;;
       Set_ "storage" (VList (wrapMapInList storage)) ;;;
       retentionPeriod <- lift (flattenRetentionPeriod (Channel.RetentionPeriod channel)) ;;
       Set_ "retention_period" (VList (wrapMapInList (Some retentionPeriod))) ;;;
       ret None
   end)%handler.

(** The part of create and update that reads ["storage"] and
    ["retention_period"] into the request. *)
Definition storageAndRetention
  : M W Call (option ChannelStorage * option RetentionPeriod) :=
  (v <- Get "storage" ;;
   channelStorageSet <- lift (as_set v) ;;
   channelStorage <-
     (if (1 <=? length channelStorageSet)%nat
      then lift (x <- at_index channelStorageSet 0 ;;
                 rawChannelStorage <- as_map x ;;
                 st <- parseStorage rawChannelStorage ;;
                 Ok (Some st))%go
      else ret None) ;;
   v <- Get "retention_period" ;;
   retentionPeriodSet <- lift (as_set v) ;;
   retentionPeriod <-
     (if (1 <=? length retentionPeriodSet)%nat
      then lift (x <- at_index retentionPeriodSet 0 ;;
                 rawRetentionPeriod <- as_map x ;;
                 rp <- parseRetentionPeriod rawRetentionPeriod ;;
                 Ok (Some rp))%go
      else ret None) ;;
   ret (channelStorage, retentionPeriod))%handler.

Definition resourceAwsIotAnalyticsCreate : M W Call (option E) :=
  (v <- Get "name" ;;
   name <- lift (as_string v) ;;
   sr <- storageAndRetention ;;
   let params :=
     {| CreateChannelInput.ChannelName := Go.String name;
        CreateChannelInput.ChannelStorage := fst sr;
        CreateChannelInput.RetentionPeriod := snd sr |} in
   err <- retry (invoke (CallCreate kind params) (Create conn kind params))
                retrySecondsList None ;;
   match err with
   | Some e => ret (Some e)
   | None =>
       v <- Get "name" ;;
       name <- lift (as_string v) ;;
       SetId name ;;;
       resourceAwsIotAnalyticsRead
   end)%handler.

Definition resourceAwsIotAnalyticsUpdate : M W Call (option E) :=
  (v <- Get "name" ;;
   name <- lift (as_string v) ;;
   sr <- storageAndRetention ;;
   let params :=
     {| UpdateChannelInput.ChannelName := Go.String name;
        UpdateChannelInput.ChannelStorage := fst sr;
        UpdateChannelInput.RetentionPeriod := snd sr |} in
   err <- retry (invoke (CallUpdate kind params) (Update conn kind params))
                retrySecondsList None ;;
   match err with
   | Some e => ret (Some e)
   | None => resourceAwsIotAnalyticsRead
   end)%handler.

Definition resourceAwsIotAnalyticsDelete : M W Call (option E) :=
  (id <- Id ;;
   let params := {| DeleteChannelInput.ChannelName := Go.String id |} in
   invoke (CallDelete kind params) (Delete conn kind params))%handler.

End Handlers.

(** The handlers under the names the two files give them. *)
Definition resourceAwsIotAnalyticsChannelCreate {W E} `{Clock W}
  (conn : iotanalyticsconn W E) := resourceAwsIotAnalyticsCreate conn OfChannel.
Definition resourceAwsIotAnalyticsChannelRead {W E} `{Clock W}
  (conn : iotanalyticsconn W E) := resourceAwsIotAnalyticsRead conn OfChannel.
Definition resourceAwsIotAnalyticsChannelUpdate {W E} `{Clock W}
  (conn : iotanalyticsconn W E) := resourceAwsIotAnalyticsUpdate conn OfChannel.
Definition resourceAwsIotAnalyticsChannelDelete {W E} `{Clock W}
  (conn : iotanalyticsconn W E) := resourceAwsIotAnalyticsDelete conn OfChannel.
Definition resourceAwsIotAnalyticsDatastoreRead {W E} `{Clock W}
  (conn : iotanalyticsconn W E) := resourceAwsIotAnalyticsRead conn OfDatastore.
Definition resourceAwsIotAnalyticsDatastoreUpdate {W E} `{Clock W}
  (conn : iotanalyticsconn W E) := resourceAwsIotAnalyticsUpdate conn OfDatastore.
Definition resourceAwsIotAnalyticsDatastoreDelete {W E} `{Clock W}
  (conn : iotanalyticsconn W E) := resourceAwsIotAnalyticsDelete conn OfDatastore.

End IotAnalytics.

(** ** Greengrass: version creation for groups and logger definitions *)

Module Greengrass.

Module CreateGroupVersionInput.
Record t := {
  AmznClientToken : option string;
  GroupId : option string;
  ConnectorDefinitionVersionArn : option string;
  CoreDefinitionVersionArn : option string;
  DeviceDefinitionVersionArn : option string;
  FunctionDefinitionVersionArn : option string;
  LoggerDefinitionVersionArn : option string;
  ResourceDefinitionVersionArn : option string;
  SubscriptionDefinitionVersionArn : option string
}.
End CreateGroupVersionInput.

Module Logger.
Record t := {
  Component : option string;
  Id : option string;
  Level : option string;
  Space : option Z;
  Type_ : option string
}.
End Logger.

Module CreateLoggerDefinitionVersionInput.
Record t := {
  AmznClientToken : option string;
  LoggerDefinitionId : option string;
  Loggers : list Logger.t
}.
End CreateLoggerDefinitionVersionInput.

(** [conn]: the Greengrass client, by the two methods used here. *)
Record greengrassconn (W E : Type) := {
  CreateGroupVersion : CreateGroupVersionInput.t -> W -> option E * W;
  CreateLoggerDefinitionVersion :
    CreateLoggerDefinitionVersionInput.t -> W -> option E * W
}.
Arguments CreateGroupVersion {W E} g p w.
Arguments CreateLoggerDefinitionVersion {W E} g p w.

Inductive Call :=
| CallCreateGroupVersion (p : CreateGroupVersionInput.t)
| CallCreateLoggerDefinitionVersion (p : CreateLoggerDefinitionVersionInput.t).

(** [if v := os.Getenv("AMZN_CLIENT_TOKEN"); v != "" {
       params.AmznClientToken = aws.String(v) }],
    as the value the field ends up with. *)
Definition clientToken (environ : gmap string string) : option string :=
  let v := Getenv environ "AMZN_CLIENT_TOKEN" in
  if String.eqb v "" then None else Go.String v.

(** [if v, ok := raw[key]; ok { params.F = aws.String(v.(string)) }],
    as the value the field ends up with. *)
Definition arnField (raw : gmap string value) (key : string) : go (option string) :=
  match raw !! key with
  | Some v => (s <- as_string v ;; Ok (Go.String s))%go
  | None => Ok None
  end.

(** The body of the loop over ["logger"] in
    [createLoggerDefinitionVersion]. *)
Definition castLogger (loggerToCast : value) : go Logger.t :=
  (rawLogger <- as_map loggerToCast ;;
   component <- as_string (index rawLogger "component") ;;
   id <- as_string (index rawLogger "id") ;;
   level <- as_string (index rawLogger "level") ;;
   type <- as_string (index rawLogger "type") ;;
   space <-
     match rawLogger !! "space" with
     | Some space => (n <- as_int space ;; Ok (Go.Int64 (int64 n)))
     | None => Ok None
     end ;;
   Ok {| Logger.Component := Go.String component;
         Logger.Id := Go.String id;
         Logger.Level := Go.String level;
         Logger.Space := space;
         Logger.Type_ := Go.String type |})%go.

Fixpoint castLoggers (l : list value) (loggers : list Logger.t) : go (list Logger.t) :=
  match l with
  | [] => Ok loggers
  | loggerToCast :: rest =>
      (logger <- castLogger loggerToCast ;;
       castLoggers rest (loggers ++ [logger]))%go
  end.

Section Handlers.
Context {W E : Type}.
Variable environ : gmap string string.
Variable conn : greengrassconn W E.

Definition createGroupVersion : M W Call (option E) :=
  (x <- Get "group_version" ;;
   v <- lift (as_set x) ;;
   if (length v =? 0)%nat then ret None else
   raw <- lift (x <- at_index v 0 ;; as_map x)%go ;;
   id <- Id ;;
   connector <- lift (arnField raw "connector_definition_version_arn") ;;
   core <- lift (arnField raw "core_definition_version_arn") ;;
   device <- lift (arnField raw "device_definition_version_arn") ;;
   function <- lift (arnField raw "function_definition_version_arn") ;;
   logger <- lift (arnField raw "logger_definition_version_arn") ;;
   resource <- lift (arnField raw "resource_definition_version_arn") ;;
   subscription <- lift (arnField raw "subscription_definition_version_arn") ;;
   let params :=
     {| CreateGroupVersionInput.AmznClientToken := clientToken environ;
        CreateGroupVersionInput.GroupId := Go.String id;
        CreateGroupVersionInput.ConnectorDefinitionVersionArn := connector;
        CreateGroupVersionInput.CoreDefinitionVersionArn := core;
        CreateGroupVersionInput.DeviceDefinitionVersionArn := device;
        CreateGroupVersionInput.FunctionDefinitionVersionArn := function;
        CreateGroupVersionInput.LoggerDefinitionVersionArn := logger;
        CreateGroupVersionInput.ResourceDefinitionVersionArn := resource;
        CreateGroupVersionInput.SubscriptionDefinitionVersionArn := subscription |} in
   err <- invoke (CallCreateGroupVersion params) (CreateGroupVersion conn params) ;;
   match err with
   | Some e => ret (Some e)
   | None => ret None
   end)%handler.

Definition createLoggerDefinitionVersion : M W Call (option E) :=
  (x <- Get "logger_definition_version" ;;
   v <- lift (as_set x) ;;
   if (length v =? 0)%nat then ret None else
   rawData <- lift (x <- at_index v 0 ;; as_map x)%go ;;
   id <- Id ;;
   loggers <- lift (l <- as_set (index rawData "logger") ;; castLoggers l [])%go ;;
   let params :=
     {| CreateLoggerDefinitionVersionInput.AmznClientToken := clientToken environ;
        CreateLoggerDefinitionVersionInput.LoggerDefinitionId := Go.String id;
        CreateLoggerDefinitionVersionInput.Loggers := loggers |} in
   err <- invoke (CallCreateLoggerDefinitionVersion params)
                 (CreateLoggerDefinitionVersion conn params) ;;
   match err with
   | Some e => ret (Some e)
   | None => ret None
   end)%handler.

End Handlers.

End Greengrass.

(** ** Observing a run *)

Module Observe.

(** What a handler returned, if it returned. *)
Definition returned {W C A} (r : Res W C A) : option A :=
  match r with
  | Ret a _ => Some a
  | Crash _ _ => None
  end.

(** The events a handler added to the log of the state [s] it was
    started in. *)
Definition emitted {W C A} (s : State W C) (r : Res W C A) : list (Event C) :=
  drop (length (st_log s)) (st_log (final r)).

(** Number of calls in a log. *)
Fixpoint calls {C} (l : list (Event C)) : nat :=
  match l with
  | [] => 0
  | EvCall _ :: t => S (calls t)
  | EvSleep _ :: t => calls t
  end.

(** The durations slept, in order. *)
Fixpoint sleeps {C} (l : list (Event C)) : list Z :=
  match l with
  | [] => []
  | EvCall _ :: t => sleeps t
  | EvSleep d :: t => d :: sleeps t
  end.

Definition total_sleep {C} (l : list (Event C)) : Z :=
  fold_right Z.add 0 (sleeps l).

(** The time slept before each call since the call before it (or since
    the start of the log, counting [acc] on top), paired with the time
    slept after the last call. *)
Fixpoint waits {C} (acc : Z) (l : list (Event C)) : list Z * Z :=
  match l with
  | [] => ([], acc)
  | EvSleep d :: t => waits (acc + d) t
  | EvCall _ :: t => let '(ws, after) := waits 0 t in (acc :: ws, after)
  end.

Definition seconds (n : Z) : Z := n * Second.

Definition failed {E} (err : option E) : bool :=
  match err with
  | Some _ => true
  | None => false
  end.

Definition succeeded {E} (err : option E) : bool := negb (failed err).

(** The world after [time.Sleep(d)]. *)
Definition slept {W} `{Clock W} (d : Z) (w : W) : W :=
  if 0 <? d then elapse d w else w.

(** The outcomes of the attempts of an operation [f] under a schedule,
    in order: the operation is tried; after a failure the world sleeps
    for the scheduled time and the operation is tried again, as long as
    the schedule lasts; nothing follows a success. *)
Fixpoint attempts {W E} `{Clock W} (f : W -> option E * W)
    (retrySeconds : list Z) (w : W) : list (option E) :=
  match retrySeconds with
  | [] => []
  | sleepSeconds :: rest =>
      match f w with
      | (None, _) => [None]
      | (Some e, w') =>
          Some e :: attempts f rest (slept (Go.mul (Duration sleepSeconds) Second) w')
      end
  end.

(** The log the retry loop leaves when its attempts fail ([true]) or
    succeed ([false]) in the given pattern. *)
Fixpoint trace {C} (c : C) (retrySeconds : list Z) (pattern : list bool)
  : list (Event C) :=
  match retrySeconds, pattern with
  | sleepSeconds :: rest, true :: pattern' =>
      EvCall c :: EvSleep (Go.mul (Duration sleepSeconds) Second)
        :: trace c rest pattern'
  | _ :: _, false :: _ => [EvCall c]
  | _, _ => []
  end.

(** A run that left the state as it was, or issued exactly one call,
    one that satisfies [Q], and changed nothing but the remote world. *)
Definition at_most_one_call {W C A} (Q : C -> Prop) (s : State W C)
    (r : Res W C A) : Prop :=
  final r = s \/
  exists c w',
    Q c /\
    final r = {| st_d := st_d s; st_world := w'; st_log := st_log s ++ [EvCall c] |}.

End Observe.

Import Observe.
Import IotAnalytics.

(** ** Test doubles

    Small remote worlds on which the handlers can be run. *)

Module Doubles.

(** A world that is nothing but its clock, in nanoseconds. *)
#[export] Instance clock_world : Clock Z := fun d now => now + d.

(** An operation that fails until the clock has reached [ready], as a
    role does that takes a while to become visible. *)
Definition ready_at (ready : Z) (now : Z) : option string * Z :=
  (if now <? ready then Some "Unable to assume role" else None, now).

(** An operation that always fails, with the time of the attempt as
    its error. *)
Definition never_ready (now : Z) : option Z * Z := (Some now, now).

(** The same, with an error that says nothing. *)
Definition never_ready_mute (now : Z) : option unit * Z := (Some tt, now).

(** A schema double: a string pointer is stored as its string, a nil
    one leaves the attribute unset, anything else is stored as
    given. *)
Definition plain_schema (key : string) (v : value) (attrs : gmap string value)
    : gmap string value :=
  match v with
  | VStringPtr (Some x) => <[key := VString x]> attrs
  | VStringPtr None => delete key attrs
  | _ => <[key := v]> attrs
  end.

Definition fresh {C} (attrs : gmap string value) : State Z C :=
  {| st_d := {| rd_id := ""; rd_attrs := attrs; rd_schema := plain_schema |};
     st_world := 0; st_log := [] |}.

(** An IoT Analytics service whose create and update calls go through
    once the clock has reached [ready], and whose describe call
    reports a resource kept in service-managed storage for good. *)
Definition described (p : DescribeChannelInput.t) : DescribeChannelOutput.t :=
  {| DescribeChannelOutput.Channel :=
       Some {| Channel.Name := DescribeChannelInput.ChannelName p;
               Channel.Storage :=
                 Some {| CustomerManagedS3 := None;
                         ServiceManagedS3 := Some Build_ServiceManagedChannelS3Storage |};
               Channel.RetentionPeriod :=
                 Some {| NumberOfDays := None; Unlimited := Some true |} |} |}.

Definition iot_service (ready : Z) : iotanalyticsconn Z string :=
  {| Create := fun _ _ => ready_at ready;
     Describe := fun _ p now => ((Some (described p), None), now);
     Update := fun _ _ => ready_at ready;
     Delete := fun _ _ now => (None, now) |}.

(** A Greengrass service that accepts every version. *)
Definition greengrass_service : Greengrass.greengrassconn Z string :=
  {| Greengrass.CreateGroupVersion := fun _ now => (None, now);
     Greengrass.CreateLoggerDefinitionVersion := fun _ now => (None, now) |}.

(** Configurations. *)
Definition telemetry_config : gmap string value :=
  <["name" := VString "telemetry"]>
    (<["storage" := VSet []]> (<["retention_period" := VSet []]> ∅)).

Definition no_version_config : gmap string value :=
  <["group_version" := VSet []]> (<["logger_definition_version" := VSet []]> ∅).

Definition version_config : gmap string value :=
  <["group_version" :=
      VSet [VMap (<["core_definition_version_arn" := VString "arn:core:1"]> ∅)]]>
    (<["logger_definition_version" :=
         VSet [VMap (<["logger" := VSet []]> ∅)]]> ∅).

(** An environment with a client token, and the requests that
    [version_config] then leads to for a resource without an id. *)
Definition token_environ : gmap string string :=
  <["AMZN_CLIENT_TOKEN" := "token-1"]> ∅.

Definition group_version_request : Greengrass.CreateGroupVersionInput.t :=
  {| Greengrass.CreateGroupVersionInput.AmznClientToken := Some "token-1";
     Greengrass.CreateGroupVersionInput.GroupId := Some "";
     Greengrass.CreateGroupVersionInput.ConnectorDefinitionVersionArn := None;
     Greengrass.CreateGroupVersionInput.CoreDefinitionVersionArn := Some "arn:core:1";
     Greengrass.CreateGroupVersionInput.DeviceDefinitionVersionArn := None;
     Greengrass.CreateGroupVersionInput.FunctionDefinitionVersionArn := None;
     Greengrass.CreateGroupVersionInput.LoggerDefinitionVersionArn := None;
     Greengrass.CreateGroupVersionInput.ResourceDefinitionVersionArn := None;
     Greengrass.CreateGroupVersionInput.SubscriptionDefinitionVersionArn := None |}.

Definition logger_version_request : Greengrass.CreateLoggerDefinitionVersionInput.t :=
  {| Greengrass.CreateLoggerDefinitionVersionInput.AmznClientToken := Some "token-1";
     Greengrass.CreateLoggerDefinitionVersionInput.LoggerDefinitionId := Some "";
     Greengrass.CreateLoggerDefinitionVersionInput.Loggers := [] |}.

(** Customer-managed storages, with a key prefix and with an empty
    one. *)
Definition raw_prefix_storage : CustomerManagedChannelS3Storage :=
  {| Bucket := Some "b"; KeyPrefix := Some "raw/"; RoleArn := Some "r" |}.

Definition empty_prefix_storage : CustomerManagedChannelS3Storage :=
  {| Bucket := Some "b"; KeyPrefix := Some ""; RoleArn := Some "r" |}.

(** The create request that [telemetry_config] leads to. *)
Definition telemetry_request : CreateChannelInput.t :=
  {| CreateChannelInput.ChannelName := Some "telemetry";
     CreateChannelInput.ChannelStorage := None;
     CreateChannelInput.RetentionPeriod := None |}.

Definition telemetry : State Z Call := fresh telemetry_config.

End Doubles.

Import Doubles.

(** ** Greengrass: the lifecycle handlers around version creation

    The handlers of [resource_aws_greengrass_group.go] and
    [resource_aws_greengrass_logger_definition.go] other than
    [createGroupVersion] and [createLoggerDefinitionVersion], which
    they call. *)

Module GreengrassLifecycle.

Module CreateGroupInput.
Record t := { Name : option string }.
End CreateGroupInput.

Module CreateGroupOutput.
Record t := { Id : option string }.
End CreateGroupOutput.

Module GetGroupInput.
Record t := { GroupId : option string }.
End GetGroupInput.

Module GetGroupOutput.
Record t := {
  Arn : option string;
  Id : option string;
  LatestVersion : option string;
  Name : option string
}.
End GetGroupOutput.

Module GetGroupVersionInput.
Record t := {
  GroupId : option string;
  GroupVersionId : option string
}.
End GetGroupVersionInput.

Module GroupVersion.
Record t := {
  ConnectorDefinitionVersionArn : option string;
  CoreDefinitionVersionArn : option string;
  DeviceDefinitionVersionArn : option string;
  FunctionDefinitionVersionArn : option string;
  LoggerDefinitionVersionArn : option string;
  ResourceDefinitionVersionArn : option string;
  SubscriptionDefinitionVersionArn : option string
}.
End GroupVersion.

Module GetGroupVersionOutput.
Record t := { Definition_ : option GroupVersion.t }.
End GetGroupVersionOutput.

Module UpdateGroupInput.
Record t := {
  Name : option string;
  GroupId : option string
}.
End UpdateGroupInput.

Module DeleteGroupInput.
Record t := { GroupId : option string }.
End DeleteGroupInput.

Module CreateLoggerDefinitionInput.
Record t := { Name : option string }.
End CreateLoggerDefinitionInput.

Module CreateLoggerDefinitionOutput.
Record t := { Id : option string }.
End CreateLoggerDefinitionOutput.

Module GetLoggerDefinitionInput.
Record t := { LoggerDefinitionId : option string }.
End GetLoggerDefinitionInput.

Module GetLoggerDefinitionOutput.
Record t := {
  Arn : option string;
  LatestVersion : option string;
  Name : option string
}.
End GetLoggerDefinitionOutput.

Module GetLoggerDefinitionVersionInput.
Record t := {
  LoggerDefinitionId : option string;
  LoggerDefinitionVersionId : option string
}.
End GetLoggerDefinitionVersionInput.

(** [Loggers] is a slice of pointers: an element may be nil. *)
Module LoggerDefinitionVersion.
Record t := { Loggers : list (option Greengrass.Logger.t) }.
End LoggerDefinitionVersion.

Module GetLoggerDefinitionVersionOutput.
Record t := {
  Arn : option string;
  Definition_ : option LoggerDefinitionVersion.t
}.
End GetLoggerDefinitionVersionOutput.

Module UpdateLoggerDefinitionInput.
Record t := {
  Name : option string;
  LoggerDefinitionId : option string
}.
End UpdateLoggerDefinitionInput.

Module DeleteLoggerDefinitionInput.
Record t := { LoggerDefinitionId : option string }.
End DeleteLoggerDefinitionInput.

(** [conn]: the Greengrass client with all the methods the two files
    use; [versions] holds the two version-creation methods.  A method
    whose output the handlers read returns it beside the error. *)
Record client (W E : Type) := {
  versions : Greengrass.greengrassconn W E;
  CreateGroup : CreateGroupInput.t -> W
                -> (option CreateGroupOutput.t * option E) * W;
  GetGroup : GetGroupInput.t -> W -> (option GetGroupOutput.t * option E) * W;
  GetGroupVersion : GetGroupVersionInput.t -> W
                    -> (option GetGroupVersionOutput.t * option E) * W;
  UpdateGroup : UpdateGroupInput.t -> W -> option E * W;
  DeleteGroup : DeleteGroupInput.t -> W -> option E * W;
  CreateLoggerDefinition : CreateLoggerDefinitionInput.t -> W
                -> (option CreateLoggerDefinitionOutput.t * option E) * W;
  GetLoggerDefinition : GetLoggerDefinitionInput.t -> W
                -> (option GetLoggerDefinitionOutput.t * option E) * W;
  GetLoggerDefinitionVersion : GetLoggerDefinitionVersionInput.t -> W
                -> (option GetLoggerDefinitionVersionOutput.t * option E) * W;
  UpdateLoggerDefinition : UpdateLoggerDefinitionInput.t -> W -> option E * W;
  DeleteLoggerDefinition : DeleteLoggerDefinitionInput.t -> W -> option E * W
}.
Arguments versions {W E} c.
Arguments CreateGroup {W E} c p w.
Arguments GetGroup {W E} c p w.
Arguments GetGroupVersion {W E} c p w.
Arguments UpdateGroup {W E} c p w.
Arguments DeleteGroup {W E} c p w.
Arguments CreateLoggerDefinition {W E} c p w.
Arguments GetLoggerDefinition {W E} c p w.
Arguments GetLoggerDefinitionVersion {W E} c p w.
Arguments UpdateLoggerDefinition {W E} c p w.
Arguments DeleteLoggerDefinition {W E} c p w.

(** What the log records of a call; [CallVersion] wraps the calls
    that version creation logs. *)
Inductive Call :=
| CallVersion (c : Greengrass.Call)
| CallCreateGroup (p : CreateGroupInput.t)
| CallGetGroup (p : GetGroupInput.t)
| CallGetGroupVersion (p : GetGroupVersionInput.t)
| CallUpdateGroup (p : UpdateGroupInput.t)
| CallDeleteGroup (p : DeleteGroupInput.t)
| CallCreateLoggerDefinition (p : CreateLoggerDefinitionInput.t)
| CallGetLoggerDefinition (p : GetLoggerDefinitionInput.t)
| CallGetLoggerDefinitionVersion (p : GetLoggerDefinitionVersionInput.t)
| CallUpdateLoggerDefinition (p : UpdateLoggerDefinitionInput.t)
| CallDeleteLoggerDefinition (p : DeleteLoggerDefinitionInput.t).

Definition relabel_event {C C'} (inj : C -> C') (e : Event C) : Event C' :=
  match e with
  | EvCall c => EvCall (inj c)
  | EvSleep d => EvSleep d
  end.

(** A handler that logs calls of type [C], called from one that logs
    calls of type [C']: it runs on the caller's resource data and
    world, and what it logs is added to the caller's log. *)
Definition relabel {W C C' A} (inj : C -> C') (m : M W C A) : M W C' A :=
  fun s =>
    let back (s' : State W C) : State W C' :=
      {| st_d := st_d s';
         st_world := st_world s';
         st_log := st_log s ++ map (relabel_event inj) (st_log s') |} in
    match m {| st_d := st_d s; st_world := st_world s; st_log := [] |} with
    | Ret a s' => Ret a (back s')
    | Crash k s' => Crash k (back s')
    end.

(** [d.Set(key, maps)] for a [[]map[string]interface{}]: the value
    handed over is the list of its maps. *)
Definition SetMaps {W C} (key : string) (maps : list (gmap string value))
  : M W C unit :=
  Set_ key (VList (VMap <$> maps)).

(** The body of the loop of [setLoggerDefinitionVersion] over the
    loggers of the response. *)
Definition flattenLogger (logger : option Greengrass.Logger.t)
  : go (gmap string value) :=
  (l <- deref logger ;;
   component <- deref (Greengrass.Logger.Component l) ;;
   id <- deref (Greengrass.Logger.Id l) ;;
   level <- deref (Greengrass.Logger.Level l) ;;
   type <- deref (Greengrass.Logger.Type_ l) ;;
   let rawLogger : gmap string value := ∅ in
   let rawLogger := <["component" := VString component]> rawLogger in
   let rawLogger := <["id" := VString id]> rawLogger in
   let rawLogger := <["level" := VString level]> rawLogger in
   let rawLogger := <["type" := VString type]> rawLogger in
   match Greengrass.Logger.Space l with
   | Some space => Ok (<["space" := VInt64 space]> rawLogger)
   | None => Ok rawLogger
   end)%go.

Fixpoint flattenLoggers (loggers : list (option Greengrass.Logger.t))
    (rawLoggerList : list (gmap string value)) : go (list (gmap string value)) :=
  match loggers with
  | [] => Ok rawLoggerList
  | logger :: rest =>
      (rawLogger <- flattenLogger logger ;;
       flattenLoggers rest (rawLoggerList ++ [rawLogger]))%go
  end.

Section Handlers.
Context {W E : Type}.
Variable environ : gmap string string.
Variable conn : client W E.
(** [d.HasChange(key)], which the plan decides. *)
Variable HasChange : string -> bool.

(** *** Group *)

Definition readGroupVersion (latestVersion : string) : M W Call (option E) :=
  (id <- Id ;;
   let params :=
     {| GetGroupVersionInput.GroupId := Go.String id;
        GetGroupVersionInput.GroupVersionId := Go.String latestVersion |} in
   r <- invoke (CallGetGroupVersion params) (GetGroupVersion conn params) ;;
   let '(out, err) := r in
   match err with
   | Some e => ret (Some e)
   | None =>
       o <- lift (deref out) ;;
       def <- lift (deref (GetGroupVersionOutput.Definition_ o)) ;;
       let flattenGroupVersion : gmap string value := ∅ in
       let flattenGroupVersion :=
         <["connector_definition_version_arn" :=
             VStringPtr (GroupVersion.ConnectorDefinitionVersionArn def)]>
           flattenGroupVersion in
       let flattenGroupVersion :=
         <["core_definition_version_arn" :=
             VStringPtr (GroupVersion.CoreDefinitionVersionArn def)]>
           flattenGroupVersion in
       let flattenGroupVersion :=
         <["device_definition_version_arn" :=
             VStringPtr (GroupVersion.DeviceDefinitionVersionArn def)]>
           flattenGroupVersion in
       let flattenGroupVersion :=
         <["function_definition_version_arn" :=
             VStringPtr (GroupVersion.FunctionDefinitionVersionArn def)]>
           flattenGroupVersion in
       let flattenGroupVersion :=
         <["logger_definition_version_arn" :=
             VStringPtr (GroupVersion.LoggerDefinitionVersionArn def)]>
           flattenGroupVersion in
       let flattenGroupVersion :=
         <["resource_definition_version_arn" :=
             VStringPtr (GroupVersion.ResourceDefinitionVersionArn def)]>
           flattenGroupVersion in
       let flattenGroupVersion :=
         <["subscription_definition_version_arn" :=
             VStringPtr (GroupVersion.SubscriptionDefinitionVersionArn def)]>
           flattenGroupVersion in
       SetMaps "group_version" [flattenGroupVersion] ;;;
       ret None
   end)%handler.

Definition resourceAwsGreengrassGroupRead : M W Call (option E) :=
  (id <- Id ;;
   let params := {| GetGroupInput.GroupId := Go.String id |} in
   r <- invoke (CallGetGroup params) (GetGroup conn params) ;;
   let '(out, err) := r in
   match err with
   | Some e => ret (Some e)
   | None =>
       o <- lift (deref out) ;;
       Set_ "arn" (VStringPtr (GetGroupOutput.Arn o)) ;;;
       Set_ "name" (VStringPtr (GetGroupOutput.Name o)) ;;;
       Set_ "group_id" (VStringPtr (GetGroupOutput.Id o)) ;;;
       err <- match GetGroupOutput.LatestVersion o with
              | Some latestVersion => readGroupVersion latestVersion
              | None => ret None
              end ;;
       match err with
       | Some e => ret (Some e)
       | None => ret None
       end
   end)%handler.

Definition resourceAwsGreengrassGroupCreate : M W Call (option E) :=
  (v <- Get "name" ;;
   name <- lift (as_string v) ;;
   let params := {| CreateGroupInput.Name := Go.String name |} in
   r <- invoke (CallCreateGroup params) (CreateGroup conn params) ;;
   let '(out, err) := r in
   match err with
   | Some e => ret (Some e)
   | None =>
       o <- lift (deref out) ;;
       id <- lift (deref (CreateGroupOutput.Id o)) ;;
       SetId id ;;;
       err <- relabel CallVersion
                (Greengrass.createGroupVersion environ (versions conn)) ;;
       match err with
       | Some e => ret (Some e)
       | None => resourceAwsGreengrassGroupRead
       end
   end)%handler.

Definition resourceAwsGreengrassGroupUpdate : M W Call (option E) :=
  (v <- Get "name" ;;
   name <- lift (as_string v) ;;
   v <- Get "group_id" ;;
   groupId <- lift (as_string v) ;;
   let params :=
     {| UpdateGroupInput.Name := Go.String name;
        UpdateGroupInput.GroupId := Go.String groupId |} in
   err <- invoke (CallUpdateGroup params) (UpdateGroup conn params) ;;
   match err with
   | Some e => ret (Some e)
   | None =>
       if HasChange "group_version"
       then
         err <- relabel CallVersion
                  (Greengrass.createGroupVersion environ (versions conn)) ;;
         match err with
         | Some e => ret (Some e)
         | None => resourceAwsGreengrassGroupRead
         end
       else resourceAwsGreengrassGroupRead
   end)%handler.

Definition resourceAwsGreengrassGroupDelete : M W Call (option E) :=
  (v <- Get "group_id" ;;
   groupId <- lift (as_string v) ;;
   let params := {| DeleteGroupInput.GroupId := Go.String groupId |} in
   err <- invoke (CallDeleteGroup params) (DeleteGroup conn params) ;;
   match err with
   | Some _ => ret None
   | None => ret None
   end)%handler.

(** *** Logger definition *)

Definition setLoggerDefinitionVersion (latestVersion : string)
  : M W Call (option E) :=
  (id <- Id ;;
   let params :=
     {| GetLoggerDefinitionVersionInput.LoggerDefinitionId := Go.String id;
        GetLoggerDefinitionVersionInput.LoggerDefinitionVersionId :=
          Go.String latestVersion |} in
   r <- invoke (CallGetLoggerDefinitionVersion params)
               (GetLoggerDefinitionVersion conn params) ;;
   let '(out, err) := r in
   match err with
   | Some e => ret (Some e)
   | None =>
       o <- lift (deref out) ;;
       arn <- lift (deref (GetLoggerDefinitionVersionOutput.Arn o)) ;;
       Set_ "latest_definition_version_arn" (VString arn) ;;;
       def <- lift (deref (GetLoggerDefinitionVersionOutput.Definition_ o)) ;;
       rawLoggerList <-
         lift (flattenLoggers (LoggerDefinitionVersion.Loggers def) []) ;;
       let rawVersion : gmap string value :=
         <["logger" := VList (VMap <$> rawLoggerList)]> ∅ in
       SetMaps "logger_definition_version" [rawVersion] ;;;
       ret None
   end)%handler.

Definition resourceAwsGreengrassLoggerDefinitionRead : M W Call (option E) :=
  (id <- Id ;;
   let params := {| GetLoggerDefinitionInput.LoggerDefinitionId := Go.String id |} in
   r <- invoke (CallGetLoggerDefinition params) (GetLoggerDefinition conn params) ;;
   let '(out, err) := r in
   match err with
   | Some e => ret (Some e)
   | None =>
       o <- lift (deref out) ;;
       Set_ "arn" (VStringPtr (GetLoggerDefinitionOutput.Arn o)) ;;;
       Set_ "name" (VStringPtr (GetLoggerDefinitionOutput.Name o)) ;;;
       match GetLoggerDefinitionOutput.LatestVersion o with
       | Some latestVersion =>
           err <- setLoggerDefinitionVersion latestVersion ;;
           match err with
           | Some e => ret (Some e)
           | None => ret None
           end
       | None => ret None
       end
   end)%handler.

Definition resourceAwsGreengrassLoggerDefinitionCreate : M W Call (option E) :=
  (v <- Get "name" ;;
   name <- lift (as_string v) ;;
   let params := {| CreateLoggerDefinitionInput.Name := Go.String name |} in
   r <- invoke (CallCreateLoggerDefinition params)
               (CreateLoggerDefinition conn params) ;;
   let '(out, err) := r in
   match err with
   | Some e => ret (Some e)
   | None =>
       o <- lift (deref out) ;;
       id <- lift (deref (CreateLoggerDefinitionOutput.Id o)) ;;
       SetId id ;;;
       err <- relabel CallVersion
                (Greengrass.createLoggerDefinitionVersion environ (versions conn)) ;;
       match err with
       | Some e => ret (Some e)
       | None => resourceAwsGreengrassLoggerDefinitionRead
       end
   end)%handler.

Definition resourceAwsGreengrassLoggerDefinitionUpdate : M W Call (option E) :=
  (v <- Get "name" ;;
   name <- lift (as_string v) ;;
   id <- Id ;;
   let params :=
     {| UpdateLoggerDefinitionInput.Name := Go.String name;
        UpdateLoggerDefinitionInput.LoggerDefinitionId := Go.String id |} in
   err <- invoke (CallUpdateLoggerDefinition params)
                 (UpdateLoggerDefinition conn params) ;;
   match err with
   | Some e => ret (Some e)
   | None =>
       if HasChange "logger_definition_version"
       then
         err <- relabel CallVersion
                  (Greengrass.createLoggerDefinitionVersion environ (versions conn)) ;;
         match err with
         | Some e => ret (Some e)
         | None => resourceAwsGreengrassLoggerDefinitionRead
         end
       else resourceAwsGreengrassLoggerDefinitionRead
   end)%handler.

Definition resourceAwsGreengrassLoggerDefinitionDelete : M W Call (option E) :=
  (id <- Id ;;
   let params :=
     {| DeleteLoggerDefinitionInput.LoggerDefinitionId := Go.String id |} in
   err <- invoke (CallDeleteLoggerDefinition params)
                 (DeleteLoggerDefinition conn params) ;;
   match err with
   | Some e => ret (Some e)
   | None => ret None
   end)%handler.

End Handlers.

End GreengrassLifecycle.

(** ** IoT Analytics: the dataset resource

    [resource_aws_iotanalytics_dataset.go], which shares
    [parseRetentionPeriod], [flattenRetentionPeriod] and [wrapMapInList]
    with the channel and the datastore.  [parseVariable],
    [parseContainerAction], [flattenVariable] and
    [flattenContainerAction] are left out: no handler reaches them. *)

Module Dataset.

Module DeltaTime.
Record t := {
  OffsetSeconds : option Z;
  TimeExpression : option string
}.
End DeltaTime.

Module QueryFilter.
Record t := { DeltaTime : option DeltaTime.t }.
End QueryFilter.

(** Slices of pointers are lists of options: an element of a response
    may be nil. *)
Module SqlQueryDatasetAction.
Record t := {
  SqlQuery : option string;
  Filters : list (option QueryFilter.t)
}.
End SqlQueryDatasetAction.

Module DatasetAction.
Record t := {
  ActionName : option string;
  QueryAction : option SqlQueryDatasetAction.t
}.
End DatasetAction.

Module GlueConfiguration.
Record t := {
  DatabaseName : option string;
  TableName : option string
}.
End GlueConfiguration.

Module S3DestinationConfiguration.
Record t := {
  Bucket : option string;
  Key : option string;
  RoleArn : option string;
  GlueConfiguration : option GlueConfiguration.t
}.
End S3DestinationConfiguration.

Module IotEventsDestinationConfiguration.
Record t := {
  InputName : option string;
  RoleArn : option string
}.
End IotEventsDestinationConfiguration.

Module DatasetContentDeliveryDestination.
Record t := {
  IotEventsDestinationConfiguration : option IotEventsDestinationConfiguration.t;
  S3DestinationConfiguration : option S3DestinationConfiguration.t
}.
End DatasetContentDeliveryDestination.

Module DatasetContentDeliveryRule.
Record t := {
  Destination : option DatasetContentDeliveryDestination.t;
  EntryName : option string
}.
End DatasetContentDeliveryRule.

Module Schedule.
Record t := { Expression : option string }.
End Schedule.

Module DatasetTrigger.
Record t := { Schedule : option Schedule.t }.
End DatasetTrigger.

Module VersioningConfiguration.
Record t := {
  MaxVersions : option Z;
  Unlimited : option bool
}.
End VersioningConfiguration.

Module CreateDatasetInput.
Record t := {
  DatasetName : option string;
  Actions : list (option DatasetAction.t);
  ContentDeliveryRules : list (option DatasetContentDeliveryRule.t);
  Triggers : list (option DatasetTrigger.t);
  RetentionPeriod : option RetentionPeriod;
  VersioningConfiguration : option VersioningConfiguration.t
}.
End CreateDatasetInput.

Module UpdateDatasetInput.
Record t := {
  DatasetName : option string;
  Actions : list (option DatasetAction.t);
  ContentDeliveryRules : list (option DatasetContentDeliveryRule.t);
  Triggers : list (option DatasetTrigger.t);
  RetentionPeriod : option RetentionPeriod;
  VersioningConfiguration : option VersioningConfiguration.t
}.
End UpdateDatasetInput.

Module DescribeDatasetInput.
Record t := { DatasetName : option string }.
End DescribeDatasetInput.

Module DeleteDatasetInput.
Record t := { DatasetName : option string }.
End DeleteDatasetInput.

Module Dataset_.
Record t := {
  Name : option string;
  Actions : list (option DatasetAction.t);
  ContentDeliveryRules : list (option DatasetContentDeliveryRule.t);
  RetentionPeriod : option RetentionPeriod;
  Triggers : list (option DatasetTrigger.t);
  VersioningConfiguration : option VersioningConfiguration.t
}.
End Dataset_.

Module DescribeDatasetOutput.
Record t := { Dataset : option Dataset_.t }.
End DescribeDatasetOutput.

(** [conn]: the IoT Analytics client, by its dataset methods. *)
Record datasetconn (W E : Type) := {
  CreateDataset : CreateDatasetInput.t -> W -> option E * W;
  DescribeDataset : DescribeDatasetInput.t -> W
                    -> (option DescribeDatasetOutput.t * option E) * W;
  UpdateDataset : UpdateDatasetInput.t -> W -> option E * W;
  DeleteDataset : DeleteDatasetInput.t -> W -> option E * W
}.
Arguments CreateDataset {W E} d p w.
Arguments DescribeDataset {W E} d p w.
Arguments UpdateDataset {W E} d p w.
Arguments DeleteDataset {W E} d p w.

Inductive Call :=
| CallCreateDataset (p : CreateDatasetInput.t)
| CallDescribeDataset (p : DescribeDatasetInput.t)
| CallUpdateDataset (p : UpdateDatasetInput.t)
| CallDeleteDataset (p : DeleteDatasetInput.t).

(** *** Attribute codec: configuration to request *)

(** The loops
    [for _, raw := range raws { x := parse(raw.(map[string]interface{}));
       xs = append(xs, x) }]
    of the parsers and of create and update. *)
Fixpoint parseEach {A} (parse : gmap string value -> go A) (raws : list value)
    (xs : list (option A)) : go (list (option A)) :=
  match raws with
  | [] => Ok xs
  | raw :: rest =>
      (m <- as_map raw ;;
       x <- parse m ;;
       parseEach parse rest (xs ++ [Some x]))%go
  end.

Definition parseQueryFilter (rawQueryFilter : gmap string value) : go QueryFilter.t :=
  (set <- as_set (index rawQueryFilter "delta_time") ;;
   first <- at_index set 0 ;;
   rawDeltaTime <- as_map first ;;
   offsetSeconds <- as_int (index rawDeltaTime "offset_seconds") ;;
   timeExpression <- as_string (index rawDeltaTime "time_expression") ;;
   let deltaTime :=
     {| DeltaTime.OffsetSeconds := Go.Int64 (int64 offsetSeconds);
        DeltaTime.TimeExpression := Go.String timeExpression |} in
   Ok {| QueryFilter.DeltaTime := Some deltaTime |})%go.

Definition parseSqlQueryAction (rawSqlQueryAction : gmap string value)
  : go SqlQueryDatasetAction.t :=
  (sqlQuery <- as_string (index rawSqlQueryAction "sql_query") ;;
   rawFilters <- as_set (index rawSqlQueryAction "filter") ;;
   filters <- parseEach parseQueryFilter rawFilters [] ;;
   Ok {| SqlQueryDatasetAction.SqlQuery := Go.String sqlQuery;
         SqlQueryDatasetAction.Filters := filters |})%go.

Definition parseDatasetAction (rawAction : gmap string value) : go DatasetAction.t :=
  (name <- as_string (index rawAction "name") ;;
   rawQueryActionSet <- as_set (index rawAction "query_action") ;;
   if (0 <? length rawQueryActionSet)%nat
   then first <- at_index rawQueryActionSet 0 ;;
        rawQueryAction <- as_map first ;;
        queryAction <- parseSqlQueryAction rawQueryAction ;;
        Ok {| DatasetAction.ActionName := Go.String name;
              DatasetAction.QueryAction := Some queryAction |}
   else Ok {| DatasetAction.ActionName := Go.String name;
              DatasetAction.QueryAction := None |})%go.

Definition parseS3Destination (rawS3Destination : gmap string value)
  : go S3DestinationConfiguration.t :=
  (bucket <- as_string (index rawS3Destination "bucket") ;;
   key <- as_string (index rawS3Destination "key") ;;
   roleArn <- as_string (index rawS3Destination "role_arn") ;;
   rawGlueConfigurationSet <- as_set (index rawS3Destination "glue_configuration") ;;
   glue <-
     (if (0 <? length rawGlueConfigurationSet)%nat
      then first <- at_index rawGlueConfigurationSet 0 ;;
           rawGlueConfiguration <- as_map first ;;
           databaseName <- as_string (index rawGlueConfiguration "database_name") ;;
           tableName <- as_string (index rawGlueConfiguration "table_name") ;;
           Ok (Some {| GlueConfiguration.DatabaseName := Go.String databaseName;
                       GlueConfiguration.TableName := Go.String tableName |})
      else Ok None) ;;
   Ok {| S3DestinationConfiguration.Bucket := Go.String bucket;
         S3DestinationConfiguration.Key := Go.String key;
         S3DestinationConfiguration.RoleArn := Go.String roleArn;
         S3DestinationConfiguration.GlueConfiguration := glue |})%go.

Definition parseIotEventsDestination (rawIotEventsDestination : gmap string value)
  : go IotEventsDestinationConfiguration.t :=
  (inputName <- as_string (index rawIotEventsDestination "input_name") ;;
   roleArn <- as_string (index rawIotEventsDestination "role_arn") ;;
   Ok {| IotEventsDestinationConfiguration.InputName := Go.String inputName;
         IotEventsDestinationConfiguration.RoleArn := Go.String roleArn |})%go.

Definition parseDestination (rawDestination : gmap string value)
  : go DatasetContentDeliveryDestination.t :=
  (rawIotEventsDestinationSet <- as_set (index rawDestination "iotevents_destination") ;;
   iotEvents <-
     (if (0 <? length rawIotEventsDestinationSet)%nat
      then first <- at_index rawIotEventsDestinationSet 0 ;;
           rawIotEventsDestination <- as_map first ;;
           c <- parseIotEventsDestination rawIotEventsDestination ;;
           Ok (Some c)
      else Ok None) ;;
   rawS3DestinationSet <- as_set (index rawDestination "s3_destination") ;;
   s3 <-
     (if (0 <? length rawS3DestinationSet)%nat
      then first <- at_index rawS3DestinationSet 0 ;;
           rawS3Destination <- as_map first ;;
           c <- parseS3Destination rawS3Destination ;;
           Ok (Some c)
      else Ok None) ;;
   Ok {| DatasetContentDeliveryDestination.IotEventsDestinationConfiguration := iotEvents;
         DatasetContentDeliveryDestination.S3DestinationConfiguration := s3 |})%go.

Definition parseContentDeliveryRule (rawContentDeliveryRule : gmap string value)
  : go DatasetContentDeliveryRule.t :=
  (set <- as_set (index rawContentDeliveryRule "destination") ;;
   first <- at_index set 0 ;;
   rawDestination <- as_map first ;;
   destination <- parseDestination rawDestination ;;
   match rawContentDeliveryRule !! "entry_name" with
   | Some rawEntryName =>
       entryName <- as_string rawEntryName ;;
       Ok {| DatasetContentDeliveryRule.Destination := Some destination;
             DatasetContentDeliveryRule.EntryName := Go.String entryName |}
   | None =>
       Ok {| DatasetContentDeliveryRule.Destination := Some destination;
             DatasetContentDeliveryRule.EntryName := None |}
   end)%go.

Definition parseTrigger (rawTrigger : gmap string value) : go DatasetTrigger.t :=
  (rawScheduleSet <- as_set (index rawTrigger "schedule") ;;
   if (0 <? length rawScheduleSet)%nat
   then first <- at_index rawScheduleSet 0 ;;
        rawSchedule <- as_map first ;;
        expression <- as_string (index rawSchedule "expression") ;;
        Ok {| DatasetTrigger.Schedule :=
                Some {| Schedule.Expression := Go.String expression |} |}
   else Ok {| DatasetTrigger.Schedule := None |})%go.

Definition parseVersioningConfiguration (rawVersioningConfiguration : gmap string value)
  : go VersioningConfiguration.t :=
  (maxVersion <-
     match rawVersioningConfiguration !! "max_versions" with
     | Some v =>
         n <- as_int v ;;
         if 1 <? int64 n then Ok (Go.Int64 (int64 n)) else Ok None
     | None => Ok None
     end ;;
   unlimited <-
     match rawVersioningConfiguration !! "unlimited" with
     | Some v => b <- as_bool v ;; Ok (Go.Bool b)
     | None => Ok None
     end ;;
   Ok {| VersioningConfiguration.MaxVersions := maxVersion;
         VersioningConfiguration.Unlimited := unlimited |})%go.

(** *** Attribute codec: response to configuration *)

(** The loops
    [for _, x := range xs { raws = append(raws, flatten(x)) }]
    of the flatteners and of read. *)
Fixpoint flattenEach {A} (flatten : option A -> go (gmap string value))
    (xs : list (option A)) (raws : list (gmap string value))
  : go (list (gmap string value)) :=
  match xs with
  | [] => Ok raws
  | x :: rest =>
      (raw <- flatten x ;;
       flattenEach flatten rest (raws ++ [raw]))%go
  end.

Definition flattenQueryFilter (queryFilter : option QueryFilter.t)
  : go (gmap string value) :=
  (qf <- deref queryFilter ;;
   deltaTime <- deref (QueryFilter.DeltaTime qf) ;;
   let rawDeltaTime : gmap string value :=
     <["offset_seconds" := VInt64 (Int64Value (DeltaTime.OffsetSeconds deltaTime))]>
       (<["time_expression" :=
            VString (StringValue (DeltaTime.TimeExpression deltaTime))]> ∅) in
   Ok (<["delta_time" := VList (wrapMapInList (Some rawDeltaTime))]> ∅))%go.

(** A [[]map[string]interface{}] stored in a map is kept as the list
    of its maps. *)
Definition flattenSqlQueryAction (sqlQueryAction : option SqlQueryDatasetAction.t)
  : go (gmap string value) :=
  (a <- deref sqlQueryAction ;;
   let rawSqlQueryAction : gmap string value :=
     <["sql_query" := VString (StringValue (SqlQueryDatasetAction.SqlQuery a))]> ∅ in
   rawFilters <- flattenEach flattenQueryFilter (SqlQueryDatasetAction.Filters a) [] ;;
   Ok (<["filter" := VList (VMap <$> rawFilters)]> rawSqlQueryAction))%go.

Definition flattenDatasetAction (action : option DatasetAction.t)
  : go (gmap string value) :=
  (a <- deref action ;;
   let rawAction : gmap string value :=
     <["name" := VString (StringValue (DatasetAction.ActionName a))]> ∅ in
   match DatasetAction.QueryAction a with
   | Some _ =>
       rawQueryAction <- flattenSqlQueryAction (DatasetAction.QueryAction a) ;;
       Ok (<["query_action" := VList (wrapMapInList (Some rawQueryAction))]> rawAction)
   | None => Ok rawAction
   end)%go.

Definition flattenS3Destination (s3Destination : option S3DestinationConfiguration.t)
  : go (gmap string value) :=
  (d <- deref s3Destination ;;
   let rawS3Destination : gmap string value :=
     <["role_arn" := VString (StringValue (S3DestinationConfiguration.RoleArn d))]>
       (<["key" := VString (StringValue (S3DestinationConfiguration.Key d))]>
          (<["bucket" := VString (StringValue (S3DestinationConfiguration.Bucket d))]>
             ∅)) in
   match S3DestinationConfiguration.GlueConfiguration d with
   | Some g =>
       let rawGlueConfiguration : gmap string value :=
         <["database_name" := VString (StringValue (GlueConfiguration.DatabaseName g))]>
           (<["table_name" := VString (StringValue (GlueConfiguration.TableName g))]>
              ∅) in
       Ok (<["glue_configuration" := VList (wrapMapInList (Some rawGlueConfiguration))]>
             rawS3Destination)
   | None => Ok rawS3Destination
   end)%go.

Definition flattenIotEventsDestination
    (iotEventsDestination : option IotEventsDestinationConfiguration.t)
  : go (gmap string value) :=
  (d <- deref iotEventsDestination ;;
   Ok (<["input_name" :=
           VString (StringValue (IotEventsDestinationConfiguration.InputName d))]>
         (<["role_arn" :=
              VString (StringValue (IotEventsDestinationConfiguration.RoleArn d))]>
            ∅)))%go.

Definition flattenDestination (destination : option DatasetContentDeliveryDestination.t)
  : go (gmap string value) :=
  (d <- deref destination ;;
   let rawDestination : gmap string value := ∅ in
   rawDestination <-
     match DatasetContentDeliveryDestination.IotEventsDestinationConfiguration d with
     | Some _ =>
         rawIotEventsDestination <-
           flattenIotEventsDestination
             (DatasetContentDeliveryDestination.IotEventsDestinationConfiguration d) ;;
         Ok (<["iotevents_destination" :=
                 VList (wrapMapInList (Some rawIotEventsDestination))]> rawDestination)
     | None => Ok rawDestination
     end ;;
   match DatasetContentDeliveryDestination.S3DestinationConfiguration d with
   | Some _ =>
       rawS3Destination <-
         flattenS3Destination
           (DatasetContentDeliveryDestination.S3DestinationConfiguration d) ;;
       Ok (<["s3_destination" := VList (wrapMapInList (Some rawS3Destination))]>
             rawDestination)
   | None => Ok rawDestination
   end)%go.

Definition flattenContentDeliveryRule
    (datasetContentDeliveryRule : option DatasetContentDeliveryRule.t)
  : go (gmap string value) :=
  (r <- deref datasetContentDeliveryRule ;;
   rawDestination <- flattenDestination (DatasetContentDeliveryRule.Destination r) ;;
   let rawContentDeliveryRule : gmap string value :=
     <["destination" := VList (wrapMapInList (Some rawDestination))]> ∅ in
   match DatasetContentDeliveryRule.EntryName r with
   | Some _ =>
       Ok (<["entry_name" :=
               VString (StringValue (DatasetContentDeliveryRule.EntryName r))]>
             rawContentDeliveryRule)
   | None => Ok rawContentDeliveryRule
   end)%go.

Definition flattenTrigger (trigger : option DatasetTrigger.t) : go (gmap string value) :=
  (t <- deref trigger ;;
   match DatasetTrigger.Schedule t with
   | Some sch =>
       let rawSchedule : gmap string value :=
         <["expression" := VString (StringValue (Schedule.Expression sch))]> ∅ in
       Ok (<["schedule" := VList (wrapMapInList (Some rawSchedule))]> ∅)
   | None => Ok ∅
   end)%go.

Definition flattenVersioningConfiguration
    (versioningConfiguration : option VersioningConfiguration.t)
  : option (gmap string value) :=
  match versioningConfiguration with
  | None => None
  | Some vc =>
      let rawVersioningConfiguration : gmap string value := ∅ in
      let rawVersioningConfiguration :=
        match VersioningConfiguration.MaxVersions vc with
        | Some _ =>
            <["max_versions" := VInt64 (Int64Value (VersioningConfiguration.MaxVersions vc))]>
              rawVersioningConfiguration
        | None => rawVersioningConfiguration
        end in
      let rawVersioningConfiguration :=
        match VersioningConfiguration.Unlimited vc with
        | Some _ =>
            <["unlimited" := VBool (BoolValue (VersioningConfiguration.Unlimited vc))]>
              rawVersioningConfiguration
        | None => rawVersioningConfiguration
        end in
      Some rawVersioningConfiguration
  end.

(** *** Lifecycle handlers *)

(** What create and update read from the configuration, in the order
    they read it. *)
Record Fields := {
  f_name : string;
  f_actions : list (option DatasetAction.t);
  f_contentDeliveryRules : list (option DatasetContentDeliveryRule.t);
  f_triggers : list (option DatasetTrigger.t);
  f_retentionPeriod : option RetentionPeriod;
  f_versioningConfiguration : option VersioningConfiguration.t
}.

Section Handlers.
Context {W E : Type}.
Variable conn : datasetconn W E.

Definition datasetFields : M W Call Fields :=
  (v <- Get "name" ;;
   name <- lift (as_string v) ;;
   v <- Get "action" ;;
   rawActions <- lift (as_set v) ;;
   actions <- lift (parseEach parseDatasetAction rawActions []) ;;
   v <- Get "content_delivery_rule" ;;
   rawContentDeliveryRules <- lift (as_set v) ;;
   contentDeliveryRules <-
     lift (parseEach parseContentDeliveryRule rawContentDeliveryRules []) ;;
   v <- Get "trigger" ;;
   rawTriggers <- lift (as_set v) ;;
   triggers <- lift (parseEach parseTrigger rawTriggers []) ;;
   v <- Get "retention_period" ;;
   rawRetentionPeriodSet <- lift (as_set v) ;;
   retentionPeriod <-
     (if (0 <? length rawRetentionPeriodSet)%nat
      then lift (first <- at_index rawRetentionPeriodSet 0 ;;
                 rawRetentionPeriod <- as_map first ;;
                 rp <- parseRetentionPeriod rawRetentionPeriod ;;
                 Ok (Some rp))%go
      else ret None) ;;
   v <- Get "versioning_configuration" ;;
   rawVersioningConfigurationSet <- lift (as_set v) ;;
   versioningConfiguration <-
     (if (0 <? length rawVersioningConfigurationSet)%nat
      then lift (first <- at_index rawVersioningConfigurationSet 0 ;;
                 rawVersioningConfiguration <- as_map first ;;
                 vc <- parseVersioningConfiguration rawVersioningConfiguration ;;
                 Ok (Some vc))%go
      else ret None) ;;
   ret {| f_name := name;
          f_actions := actions;
          f_contentDeliveryRules := contentDeliveryRules;
          f_triggers := triggers;
          f_retentionPeriod := retentionPeriod;
          f_versioningConfiguration := versioningConfiguration |})%handler.

Definition resourceAwsIotAnalyticsDatasetRead : M W Call (option E) :=
  (id <- Id ;;
   let params := {| DescribeDatasetInput.DatasetName := Go.String id |} in
   r <- invoke (CallDescribeDataset params) (DescribeDataset conn params) ;;
   let '(out, err) := r in
   match err with
   | Some e => ret (Some e)
   | None =>
       o <- lift (deref out) ;;
       dataset <- lift (deref (DescribeDatasetOutput.Dataset o)) ;;
       Set_ "name" (VStringPtr (Dataset_.Name dataset)) ;;;
       rawActions <-
         lift (flattenEach flattenDatasetAction (Dataset_.Actions dataset) []) ;;
       GreengrassLifecycle.SetMaps "action" rawActions ;;;
       rawContentDeliveryRules <-
         lift (flattenEach flattenContentDeliveryRule
                 (Dataset_.ContentDeliveryRules dataset) []) ;;
       GreengrassLifecycle.SetMaps "content_delivery_rule" rawContentDeliveryRules ;;;
       rawRetentionPeriod <-
         lift (flattenRetentionPeriod (Dataset_.RetentionPeriod dataset)) ;;
       Set_ "retention_period" (VList (wrapMapInList (Some rawRetentionPeriod))) ;;;
       rawTriggers <- lift (flattenEach flattenTrigger (Dataset_.Triggers dataset) []) ;;
       GreengrassLifecycle.SetMaps "trigger" rawTriggers ;;;
       let rawVersioningConfiguration :=
         flattenVersioningConfiguration (Dataset_.VersioningConfiguration dataset) in
       Set_ "versioning_configuration"
         (VList (wrapMapInList rawVersioningConfiguration)) ;;;
       ret None
   end)%handler.

Definition resourceAwsIotAnalyticsDatasetCreate : M W Call (option E) :=
  (f <- datasetFields ;;
   let params :=
     {| CreateDatasetInput.DatasetName := Go.String (f_name f);
        CreateDatasetInput.Actions := f_actions f;
        CreateDatasetInput.ContentDeliveryRules := f_contentDeliveryRules f;
        CreateDatasetInput.Triggers := f_triggers f;
        CreateDatasetInput.RetentionPeriod := f_retentionPeriod f;
        CreateDatasetInput.VersioningConfiguration := f_versioningConfiguration f |} in
   err <- invoke (CallCreateDataset params) (CreateDataset conn params) ;;
   match err with
   | Some e => ret (Some e)
   | None =>
       SetId (f_name f) ;;;
       resourceAwsIotAnalyticsDatasetRead
   end)%handler.

Definition resourceAwsIotAnalyticsDatasetUpdate : M W Call (option E) :=
  (f <- datasetFields ;;
   let params :=
     {| UpdateDatasetInput.DatasetName := Go.String (f_name f);
        UpdateDatasetInput.Actions := f_actions f;
        UpdateDatasetInput.ContentDeliveryRules := f_contentDeliveryRules f;
        UpdateDatasetInput.Triggers := f_triggers f;
        UpdateDatasetInput.RetentionPeriod := f_retentionPeriod f;
        UpdateDatasetInput.VersioningConfiguration := f_versioningConfiguration f |} in
   err <- invoke (CallUpdateDataset params) (UpdateDataset conn params) ;;
   match err with
   | Some e => ret (Some e)
   | None => resourceAwsIotAnalyticsDatasetRead
   end)%handler.

Definition resourceAwsIotAnalyticsDatasetDelete : M W Call (option E) :=
  (id <- Id ;;
   let params := {| DeleteDatasetInput.DatasetName := Go.String id |} in
   invoke (CallDeleteDataset params) (DeleteDataset conn params))%handler.

End Handlers.

End Dataset.

(** ** More test doubles *)

Module MoreDoubles.

(** A resource created under an earlier name. *)
Definition renamed : State Z IotAnalytics.Call :=
  {| st_d := {| rd_id := "telemetry-v1"; rd_attrs := telemetry_config;
                rd_schema := plain_schema |};
     st_world := 0;
     st_log := [] |}.

(** A configuration whose ["name"] is not a string. *)
Definition misnamed : State Z IotAnalytics.Call :=
  fresh (<["name" := VInt 7]> telemetry_config).

(** An IoT Analytics service that accepts every call but does not
    know the resource it is asked to describe. *)
Definition iot_service_forgetful : iotanalyticsconn Z string :=
  {| Create := fun _ _ now => (None, now);
     Describe := fun _ _ now => ((None, Some "ResourceNotFoundException"), now);
     Update := fun _ _ now => (None, now);
     Delete := fun _ _ now => (Some "ResourceNotFoundException", now) |}.

(** One that reports resources without storage. *)
Definition described_bare (p : DescribeChannelInput.t) : DescribeChannelOutput.t :=
  {| DescribeChannelOutput.Channel :=
       Some {| Channel.Name := DescribeChannelInput.ChannelName p;
               Channel.Storage := None;
               Channel.RetentionPeriod :=
                 Some {| NumberOfDays := Some 30; Unlimited := None |} |} |}.

Definition iot_service_bare : iotanalyticsconn Z string :=
  {| Create := fun _ _ now => (None, now);
     Describe := fun _ p now => ((Some (described_bare p), None), now);
     Update := fun _ _ now => (None, now);
     Delete := fun _ _ now => (None, now) |}.

(** Storages. *)
Definition customer_storage : ChannelStorage :=
  {| CustomerManagedS3 := Some raw_prefix_storage; ServiceManagedS3 := None |}.

Definition no_storage : ChannelStorage :=
  {| CustomerManagedS3 := None; ServiceManagedS3 := None |}.

(** Greengrass services.  [greengrass_client versions] accepts every
    call, creates resources under the id ["g-1"], reports them without
    a latest version, and creates versions as [versions] does;
    [greengrass_refusing] refuses every call. *)
Definition greengrass_client (versions : Greengrass.greengrassconn Z string)
  : GreengrassLifecycle.client Z string :=
  {| GreengrassLifecycle.versions := versions;
     GreengrassLifecycle.CreateGroup := fun _ now =>
       ((Some {| GreengrassLifecycle.CreateGroupOutput.Id := Some "g-1" |}, None), now);
     GreengrassLifecycle.GetGroup := fun p now =>
       ((Some {| GreengrassLifecycle.GetGroupOutput.Arn := Some "arn:group";
                 GreengrassLifecycle.GetGroupOutput.Id :=
                   GreengrassLifecycle.GetGroupInput.GroupId p;
                 GreengrassLifecycle.GetGroupOutput.LatestVersion := None;
                 GreengrassLifecycle.GetGroupOutput.Name := Some "group" |}, None), now);
     GreengrassLifecycle.GetGroupVersion := fun _ now =>
       ((None, Some "NotFound"), now);
     GreengrassLifecycle.UpdateGroup := fun _ now => (None, now);
     GreengrassLifecycle.DeleteGroup := fun _ now => (None, now);
     GreengrassLifecycle.CreateLoggerDefinition := fun _ now =>
       ((Some {| GreengrassLifecycle.CreateLoggerDefinitionOutput.Id := Some "g-1" |},
         None), now);
     GreengrassLifecycle.GetLoggerDefinition := fun p now =>
       ((Some {| GreengrassLifecycle.GetLoggerDefinitionOutput.Arn := Some "arn:logger";
                 GreengrassLifecycle.GetLoggerDefinitionOutput.LatestVersion := None;
                 GreengrassLifecycle.GetLoggerDefinitionOutput.Name := Some "logger" |},
         None), now);
     GreengrassLifecycle.GetLoggerDefinitionVersion := fun _ now =>
       ((None, Some "NotFound"), now);
     GreengrassLifecycle.UpdateLoggerDefinition := fun _ now => (None, now);
     GreengrassLifecycle.DeleteLoggerDefinition := fun _ now => (None, now) |}.

Definition greengrass_versions_refused : Greengrass.greengrassconn Z string :=
  {| Greengrass.CreateGroupVersion := fun _ now => (Some "BadRequest", now);
     Greengrass.CreateLoggerDefinitionVersion := fun _ now => (Some "BadRequest", now) |}.

Definition greengrass_refusing : GreengrassLifecycle.client Z string :=
  {| GreengrassLifecycle.versions := greengrass_versions_refused;
     GreengrassLifecycle.CreateGroup := fun _ now => ((None, Some "AccessDenied"), now);
     GreengrassLifecycle.GetGroup := fun _ now => ((None, Some "AccessDenied"), now);
     GreengrassLifecycle.GetGroupVersion := fun _ now =>
       ((None, Some "AccessDenied"), now);
     GreengrassLifecycle.UpdateGroup := fun _ now => (Some "AccessDenied", now);
     GreengrassLifecycle.DeleteGroup := fun _ now => (Some "AccessDenied", now);
     GreengrassLifecycle.CreateLoggerDefinition := fun _ now =>
       ((None, Some "AccessDenied"), now);
     GreengrassLifecycle.GetLoggerDefinition := fun _ now =>
       ((None, Some "AccessDenied"), now);
     GreengrassLifecycle.GetLoggerDefinitionVersion := fun _ now =>
       ((None, Some "AccessDenied"), now);
     GreengrassLifecycle.UpdateLoggerDefinition := fun _ now =>
       (Some "AccessDenied", now);
     GreengrassLifecycle.DeleteLoggerDefinition := fun _ now =>
       (Some "AccessDenied", now) |}.

(** A Greengrass resource ["g-0"] named ["edge"], with a version block
    for both kinds of resource. *)
Definition edge_config : gmap string value :=
  <["name" := VString "edge"]> (<["group_id" := VString "g-0"]> version_config).

Definition edge : State Z GreengrassLifecycle.Call :=
  {| st_d := {| rd_id := "g-0"; rd_attrs := edge_config;
                rd_schema := plain_schema |};
     st_world := 0;
     st_log := [] |}.

(** The same without version blocks. *)
Definition plain_edge : State Z GreengrassLifecycle.Call :=
  {| st_d := {| rd_id := "g-0";
                rd_attrs := <["name" := VString "edge"]>
                              (<["group_id" := VString "g-0"]> no_version_config);
                rd_schema := plain_schema |};
     st_world := 0;
     st_log := [] |}.

(** A logger definition with one logger configured, and what that
    logger is cast to. *)
Definition file_logger : gmap string value :=
  <["component" := VString "GreengrassSystem"]>
    (<["id" := VString "log-1"]>
       (<["level" := VString "INFO"]>
          (<["space" := VInt 1024]>
             (<["type" := VString "FileSystem"]> ∅)))).

Definition file_logger_cast : Greengrass.Logger.t :=
  {| Greengrass.Logger.Component := Some "GreengrassSystem";
     Greengrass.Logger.Id := Some "log-1";
     Greengrass.Logger.Level := Some "INFO";
     Greengrass.Logger.Space := Some 1024;
     Greengrass.Logger.Type_ := Some "FileSystem" |}.

Definition logging_version : gmap string value :=
  <["logger" := VSet [VMap file_logger]]> ∅.

Definition logging : State Z Greengrass.Call :=
  {| st_d := {| rd_id := "g-0";
                rd_attrs := <["logger_definition_version" :=
                                VSet [VMap logging_version]]> ∅;
                rd_schema := plain_schema |};
     st_world := 0;
     st_log := [] |}.

(** A group with a version block that names a core and a logger
    definition version. *)
Definition group_version_block : gmap string value :=
  <["core_definition_version_arn" := VString "arn:core:1"]>
    (<["logger_definition_version_arn" := VString "arn:logger:1"]> ∅).

Definition grouped : State Z Greengrass.Call :=
  {| st_d := {| rd_id := "g-0";
                rd_attrs := <["group_version" := VSet [VMap group_version_block]]> ∅;
                rd_schema := plain_schema |};
     st_world := 0;
     st_log := [] |}.

(** A dataset ["readings"] with one SQL action and nothing else. *)
Definition readings_action : gmap string value :=
  <["name" := VString "query"]>
    (<["query_action" :=
         VSet [VMap (<["sql_query" := VString "SELECT * FROM store"]>
                       (<["filter" := VSet []]> ∅))]]> ∅).

Definition readings_config : gmap string value :=
  <["name" := VString "readings"]>
    (<["action" := VSet [VMap readings_action]]>
       (<["content_delivery_rule" := VSet []]>
          (<["trigger" := VSet []]>
             (<["retention_period" := VSet []]>
                (<["versioning_configuration" := VSet []]> ∅))))).

Definition readings : State Z Dataset.Call :=
  {| st_d := {| rd_id := ""; rd_attrs := readings_config;
                rd_schema := plain_schema |};
     st_world := 0;
     st_log := [] |}.

Definition readings_query : Dataset.DatasetAction.t :=
  {| Dataset.DatasetAction.ActionName := Some "query";
     Dataset.DatasetAction.QueryAction :=
       Some {| Dataset.SqlQueryDatasetAction.SqlQuery := Some "SELECT * FROM store";
               Dataset.SqlQueryDatasetAction.Filters := [] |} |}.

Definition readings_fields : Dataset.Fields :=
  {| Dataset.f_name := "readings";
     Dataset.f_actions := [Some readings_query];
     Dataset.f_contentDeliveryRules := [];
     Dataset.f_triggers := [];
     Dataset.f_retentionPeriod := None;
     Dataset.f_versioningConfiguration := None |}.

(** The same with a content delivery rule that has no destination. *)
Definition undelivered : State Z Dataset.Call :=
  {| st_d := {| rd_id := "";
                rd_attrs := <["content_delivery_rule" :=
                                VSet [VMap (<["destination" := VSet []]> ∅)]]>
                              readings_config;
                rd_schema := plain_schema |};
     st_world := 0;
     st_log := [] |}.

(** A dataset service: [accepts] says whether create and update go
    through; a dataset is reported with its query action, without
    versioning configuration, and with the retention period given. *)
Definition dataset_service (accepts : bool) (retention : option RetentionPeriod)
  : Dataset.datasetconn Z string :=
  {| Dataset.CreateDataset := fun _ now =>
       (if accepts then None else Some "LimitExceeded", now);
     Dataset.DescribeDataset := fun p now =>
       ((Some {| Dataset.DescribeDatasetOutput.Dataset :=
                   Some {| Dataset.Dataset_.Name := Dataset.DescribeDatasetInput.DatasetName p;
                           Dataset.Dataset_.Actions := [Some readings_query];
                           Dataset.Dataset_.ContentDeliveryRules := [];
                           Dataset.Dataset_.RetentionPeriod := retention;
                           Dataset.Dataset_.Triggers := [];
                           Dataset.Dataset_.VersioningConfiguration := None |} |},
         None), now);
     Dataset.UpdateDataset := fun _ now =>
       (if accepts then None else Some "LimitExceeded", now);
     Dataset.DeleteDataset := fun _ now =>
       (if accepts then None else Some "LimitExceeded", now) |}.

Definition forever : RetentionPeriod :=
  {| NumberOfDays := None; Unlimited := Some true |}.

(** Raw blocks as the configuration holds them. *)
Definition raw_customer_block : gmap string value :=
  <["bucket" := VString "b"]>
    (<["role_arn" := VString "r"]> (<["key_prefix" := VString ""]> ∅)).

Definition raw_retention_block : gmap string value :=
  <["number_of_days" := VInt 0]> (<["unlimited" := VBool false]> ∅).

(** A versioning block as the SDK hands it over when [max_versions]
    is 1: both keys present. *)
Definition one_version_block : gmap string value :=
  <["max_versions" := VInt 1]> (<["unlimited" := VBool false]> ∅).

End MoreDoubles.

Import MoreDoubles.

(** ** The retry loop: what a run looks like *)

Section RetryRun.
Context {W C E : Type} `{Clock W}.
Variable c : C.
Variable f : W -> option E * W.

Lemma last_cons_default {A} (x : A) (l : list A) :
  last (x :: l) = Some (default x (last l)).
Proof.
  revert x. induction l as [|y l IH]; intros x; [reflexivity|].
  change (last (x :: y :: l)) with (last (y :: l)). rewrite IH. reflexivity.
Qed.

(** The loop never panics; it returns the outcome of its last attempt,
    leaves the resource data alone, and extends the log by the trace
    of its attempts. *)
Lemma retry_run (retrySeconds : list Z) (err : option E) (s : State W C) :
  exists w',
    retry (invoke c f) retrySeconds err s =
    Ret (default err (last (attempts f retrySeconds (st_world s))))
        {| st_d := st_d s;
           st_world := w';
           st_log := st_log s
                     ++ trace c retrySeconds
                          (map failed (attempts f retrySeconds (st_world s))) |}.
Proof.
  revert err s. induction retrySeconds as [|d rest IH]; intros err s.
  - exists (st_world s). cbn. unfold ret. rewrite app_nil_r. by destruct s.
  - cbn [retry attempts]. unfold Machine.bind at 1. unfold invoke at 1.
    destruct (f (st_world s)) as [[e|] w1] eqn:Hf.
    + unfold Machine.bind at 1. unfold Sleep at 1. cbn [st_d st_world st_log].
      match goal with |- context [retry _ rest (Some e) ?s1] =>
        destruct (IH (Some e) s1) as [w' ->] end.
      exists w'. cbn [st_d st_world st_log map trace failed].
      rewrite last_cons_default. cbn [default].
      unfold slept. rewrite <- !app_assoc. reflexivity.
    + exists w1. cbn. unfold ret. reflexivity.
Qed.

Lemma emitted_retry (retrySeconds : list Z) (err : option E) (s : State W C) :
  emitted s (retry (invoke c f) retrySeconds err s) =
  trace c retrySeconds (map failed (attempts f retrySeconds (st_world s))).
Proof.
  destruct (retry_run retrySeconds err s) as [w' ->].
  unfold emitted. cbn. by rewrite drop_app_length.
Qed.

Lemma returned_retry (retrySeconds : list Z) (err : option E) (s : State W C) :
  returned (retry (invoke c f) retrySeconds err s) =
  Some (default err (last (attempts f retrySeconds (st_world s)))).
Proof. by destruct (retry_run retrySeconds err s) as [w' ->]. Qed.

Lemma st_d_retry (retrySeconds : list Z) (err : option E) (s : State W C) :
  st_d (final (retry (invoke c f) retrySeconds err s)) = st_d s.
Proof. by destruct (retry_run retrySeconds err s) as [w' ->]. Qed.

(** Failures, then at most one success, and no more attempts than the
    schedule has entries. *)
Lemma attempts_pattern (retrySeconds : list Z) (w : W) :
  exists n : nat,
    (n <= length retrySeconds)%nat /\
    map failed (attempts f retrySeconds w) =
    replicate n true ++ (if (n <? length retrySeconds)%nat then [false] else []).
Proof.
  revert w. induction retrySeconds as [|d rest IH]; intros w.
  - exists 0%nat. split; [done|reflexivity].
  - cbn [attempts]. destruct (f w) as [[e|] w1].
    + cbn [map failed].
      destruct (IH (slept (Go.mul (Duration d) Second) w1)) as (n & Hn & ->).
      exists (S n). split; [cbn; lia|].
      cbn [replicate app length]. f_equal.
    + exists 0%nat. split; [cbn; lia|reflexivity].
Qed.

(** For the schedule of the handlers that leaves seven patterns. *)
Lemma attempts_cases (w : W) :
  let p := map failed (attempts f retrySecondsList w) in
  p = [false] \/ p = [true; false] \/ p = [true; true; false] \/
  p = [true; true; true; false] \/ p = [true; true; true; true; false] \/
  p = [true; true; true; true; true; false] \/
  p = [true; true; true; true; true; true].
Proof.
  intros p. subst p.
  destruct (attempts_pattern retrySecondsList w) as (n & Hn & ->).
  cbn in Hn.
  do 7 (destruct n as [|n]; [cbn; tauto|]). lia.
Qed.

End RetryRun.

(** ** The retry loop: properties *)

Section RetryFacts.
Context {W C E : Type} `{Clock W}.
Variable c : C.
Variable f : W -> option E * W.

Lemma attempts_nonempty (d : Z) (rest : list Z) (w : W) :
  attempts f (d :: rest) w <> [].
Proof. cbn [attempts]. by destruct (f w) as [[e|] w1]. Qed.

Lemma last_attempt (d : Z) (rest : list Z) (w : W) :
  last (attempts f (d :: rest) w) =
  Some (default None (last (attempts f (d :: rest) w))).
Proof.
  pose proof (attempts_nonempty d rest w) as Hne.
  destruct (attempts f (d :: rest) w) as [|x l]; [done|].
  by rewrite last_cons_default.
Qed.

(** Whether the last attempt failed decides whether an error is
    returned. *)
Lemma last_pattern (l : list (option E)) :
  last (map failed l) = Some false -> default None (last l) = None.
Proof.
  change (map failed l) with (failed <$> l). rewrite fmap_last.
  by destruct (last l) as [[e|]|].
Qed.

End RetryFacts.

(** The calls and sleeps of a trace do not depend on what is called. *)
Lemma calls_trace {C1 C2} (c1 : C1) (c2 : C2) (retrySeconds : list Z) (p : list bool) :
  calls (trace c1 retrySeconds p) = calls (trace c2 retrySeconds p).
Proof.
  revert p. induction retrySeconds as [|d rest IH]; intros [|[] p]; cbn; auto.
Qed.

Lemma sleeps_trace {C1 C2} (c1 : C1) (c2 : C2) (retrySeconds : list Z) (p : list bool) :
  sleeps (trace c1 retrySeconds p) = sleeps (trace c2 retrySeconds p).
Proof.
  revert p. induction retrySeconds as [|d rest IH]; intros [|[] p]; cbn; auto.
  by rewrite (IH p).
Qed.

(** The whole log of a run in which all six attempts fail: the sixth
    failure is still followed by a call of [time.Sleep], of duration
    zero. *)
Lemma trace_exhausted {C} (c : C) :
  trace c retrySecondsList [true; true; true; true; true; true] =
  [EvCall c; EvSleep (seconds 1); EvCall c; EvSleep (seconds 2);
   EvCall c; EvSleep (seconds 5); EvCall c; EvSleep (seconds 8);
   EvCall c; EvSleep (seconds 10); EvCall c; EvSleep 0].
Proof. reflexivity. Qed.

(** C1. Whatever the operation does, one call is made per attempt,
    and a failed attempt, unless it is the sixth, is followed by the
    sleep of its position and by another attempt.  The first attempt is
    made at once; the delays slept between consecutive attempts are 1s,
    2s, 5s, 8s and 10s in this order, one per failure: an operation
    that first succeeds on attempt [n + 1] has slept exactly the first
    [n] of them, and nothing after its success; an operation that fails
    six times has slept all five between its six attempts, so that the
    sixth attempt comes after the 10s wait and nothing more, and the
    [time.Sleep] that follows the sixth failure is of duration zero.
    The loop stops before the sixth attempt only on a success. *)
Theorem retry_delays {W C E : Type} `{Clock W}
    (c : C) (f : W -> option E * W) (s : State W C) :
  let r := retry (invoke c f) retrySecondsList None s in
  let evs := emitted s r in
  let outs := attempts f retrySecondsList (st_world s) in
  let delays := map seconds [1; 2; 5; 8; 10] in
  calls evs = length outs /\
  (1 <= calls evs <= 6)%nat /\
  waits 0 evs = (0 :: take (calls evs - 1) delays, 0) /\
  (forall (i : nat) (e : E),
     (i < 5)%nat -> outs !! i = Some (Some e) ->
     (i + 2 <= calls evs)%nat /\ sleeps evs !! i = delays !! i) /\
  (forall n : nat,
     map failed outs = replicate n true ++ [false] ->
     (n <= 5)%nat /\
     calls evs = S n /\
     sleeps evs = take n delays /\
     waits 0 evs = (0 :: take n delays, 0) /\
     returned r = Some None) /\
  (forallb failed outs = true ->
     calls evs = 6%nat /\
     sleeps evs = delays ++ [0] /\
     waits 0 evs = (0 :: delays, 0) /\
     exists e6 : E, returned r = Some (Some e6)) /\
  ((calls evs < 6)%nat -> returned r = Some None).
Proof.
  intros r evs outs delays. subst r evs outs delays.
  rewrite emitted_retry, returned_retry.
  pose proof (attempts_cases f (st_world s)) as Hp. cbv zeta in Hp.
  remember (attempts f retrySecondsList (st_world s)) as outs eqn:Houts.
  clear Houts.
  destruct Hp as [Hp | [Hp | [Hp | [Hp | [Hp | [Hp | Hp]]]]]];
    do 7 (try destruct outs as [|[?|] outs]); try discriminate Hp; clear Hp;
    (split; [reflexivity|]);
    (split; [cbn; lia|]);
    (split; [reflexivity|]);
    (split;
       [intros i ex Hi Hout;
        do 5 (try destruct i as [|i]); try lia;
        cbn in Hout; try discriminate Hout;
        (split; [cbn; lia | reflexivity])|]);
    (split;
       [intros n Hn;
        do 7 (try destruct n as [|n]); cbn in Hn; try discriminate Hn;
        (split; [lia|]); repeat split; reflexivity|]);
    (split;
       [intros Hall; cbn in Hall; try discriminate Hall;
        (split; [reflexivity|]); (split; [reflexivity|]);
        (split; [reflexivity|]); eexists; reflexivity|]);
    intros Hlt; cbn in Hlt; try lia; reflexivity.
Qed.

Lemma retry_delays_witness :
  forallb failed (attempts never_ready retrySecondsList (st_world (fresh (C:=unit) ∅)))
    = true /\
  map failed (attempts (ready_at (seconds 3)) retrySecondsList
                (st_world (fresh (C:=unit) ∅)))
    = replicate 2 true ++ [false] /\
  waits 0 (emitted (fresh ∅)
             (retry (invoke tt never_ready) retrySecondsList None (fresh ∅)))
    = (0 :: map seconds [1; 2; 5; 8; 10], 0) /\
  sleeps (emitted (fresh ∅)
            (retry (invoke tt never_ready) retrySecondsList None (fresh ∅)))
    = map seconds [1; 2; 5; 8; 10] ++ [0] /\
  calls (emitted (fresh ∅)
           (retry (invoke tt (ready_at (seconds 3))) retrySecondsList None (fresh ∅)))
    = 3%nat /\
  sleeps (emitted (fresh ∅)
            (retry (invoke tt (ready_at (seconds 3))) retrySecondsList None (fresh ∅)))
    = take 2 (map seconds [1; 2; 5; 8; 10]).
Proof.
  pose proof (retry_delays tt never_ready (fresh ∅))
    as (_ & _ & _ & _ & _ & Hall & _).
  pose proof (retry_delays tt (ready_at (seconds 3)) (fresh ∅))
    as (_ & _ & _ & _ & Hthird & _).
  split; [reflexivity|]. split; [reflexivity|].
  destruct (Hall eq_refl) as (_ & Hsleeps & Hwaits & _).
  destruct (Hthird 2%nat eq_refl) as (_ & Hcalls & Hsl & _).
  split; [exact Hwaits|]. split; [exact Hsleeps|].
  split; [exact Hcalls | exact Hsl].
Defined.

(** A run of six failures shows the whole schedule. *)
Example retry_delays_exhausted :
  waits 0 (emitted (fresh ∅)
             (retry (invoke tt never_ready) retrySecondsList None (fresh ∅))) =
  (map seconds [0; 1; 2; 5; 8; 10], 0).
Proof. reflexivity. Qed.

(** A success on the third attempt comes after waits of 1s and 2s. *)
Example retry_delays_third :
  waits 0 (emitted (fresh ∅)
             (retry (invoke tt (ready_at (seconds 3))) retrySecondsList None
                (fresh ∅))) =
  (map seconds [0; 1; 2], 0).
Proof. reflexivity. Qed.

(** C2. An operation that fails on every attempt is invoked exactly
    six times, and the error returned is the one of the sixth
    attempt. *)
Theorem retry_exhausted {W C E : Type} `{Clock W}
    (c : C) (f : W -> option E * W) (s : State W C) :
  forallb failed (attempts f retrySecondsList (st_world s)) = true ->
  let r := retry (invoke c f) retrySecondsList None s in
  calls (emitted s r) = 6%nat /\
  exists e6 : E,
    attempts f retrySecondsList (st_world s) !! 5%nat = Some (Some e6) /\
    returned r = Some (Some e6).
Proof.
  intros Hall r. subst r. rewrite emitted_retry, returned_retry.
  pose proof (attempts_cases f (st_world s)) as Hp. cbv zeta in Hp.
  remember (attempts f retrySecondsList (st_world s)) as outs eqn:Houts.
  clear Houts.
  destruct Hp as [Hp | [Hp | [Hp | [Hp | [Hp | [Hp | Hp]]]]]];
    do 7 (try destruct outs as [|[?|] outs]); try discriminate Hp;
    try discriminate Hall.
  split; [reflexivity|]. eexists. split; reflexivity.
Qed.

Lemma retry_exhausted_witness :
  forallb failed (attempts never_ready retrySecondsList (st_world (fresh (C:=unit) ∅))) = true /\
  (calls (emitted (fresh ∅)
            (retry (invoke tt never_ready) retrySecondsList None (fresh ∅))) = 6%nat /\
   exists e6 : Z,
     attempts never_ready retrySecondsList (st_world (fresh (C:=unit) ∅)) !! 5%nat
       = Some (Some e6) /\
     returned (retry (invoke tt never_ready) retrySecondsList None (fresh ∅))
       = Some (Some e6)).
Proof.
  split; [reflexivity|].
  apply (retry_exhausted tt never_ready (fresh ∅)). reflexivity.
Defined.

(** The errors of that run are the times 0s, 1s, 3s, 8s, 16s and 26s;
    the one returned is the last, not the first. *)
Example retry_exhausted_returns_sixth :
  attempts never_ready retrySecondsList 0 =
    map (fun n => Some (seconds n)) [0; 1; 3; 8; 16; 26] /\
  returned (retry (invoke tt never_ready) retrySecondsList None (fresh ∅)) =
    Some (Some (seconds 26)).
Proof. split; reflexivity. Qed.

(** C3. An operation that succeeds on its first attempt is invoked
    once; the loop does not sleep and reports success. *)
Theorem retry_first_success {W C E : Type} `{Clock W}
    (c : C) (f : W -> option E * W) (s : State W C) :
  fst (f (st_world s)) = None ->
  let r := retry (invoke c f) retrySecondsList None s in
  returned r = Some None /\
  calls (emitted s r) = 1%nat /\
  sleeps (emitted s r) = [] /\
  total_sleep (emitted s r) = 0.
Proof.
  intros Hf r. subst r. rewrite emitted_retry, returned_retry.
  unfold retrySecondsList. cbn [attempts].
  destruct (f (st_world s)) as [[e|] w1]; [discriminate Hf|].
  repeat split.
Qed.

Lemma retry_first_success_witness :
  fst (ready_at 0 (st_world (fresh (C:=unit) ∅))) = None /\
  (returned (retry (invoke tt (ready_at 0)) retrySecondsList None (fresh ∅))
     = Some None /\
   calls (emitted (fresh ∅)
            (retry (invoke tt (ready_at 0)) retrySecondsList None (fresh ∅)))
     = 1%nat /\
   sleeps (emitted (fresh ∅)
             (retry (invoke tt (ready_at 0)) retrySecondsList None (fresh ∅)))
     = [] /\
   total_sleep (emitted (fresh ∅)
                  (retry (invoke tt (ready_at 0)) retrySecondsList None (fresh ∅)))
     = 0).
Proof.
  split; [reflexivity|].
  apply (retry_first_success tt (ready_at 0) (fresh ∅)). reflexivity.
Defined.

(** C4. An operation that fails on attempts 1 to 5 and succeeds on
    attempt 6 makes the loop report success after exactly six
    invocations, having slept 1+2+5+8+10 seconds, which is no less
    than 26 seconds. *)
Theorem retry_sixth_success {W C E : Type} `{Clock W}
    (c : C) (f : W -> option E * W) (s : State W C) :
  map failed (attempts f retrySecondsList (st_world s))
    = [true; true; true; true; true; false] ->
  let r := retry (invoke c f) retrySecondsList None s in
  returned r = Some None /\
  calls (emitted s r) = 6%nat /\
  total_sleep (emitted s r) = seconds (1 + 2 + 5 + 8 + 10) /\
  seconds 26 <= total_sleep (emitted s r).
Proof.
  intros Hp r. subst r. rewrite emitted_retry, returned_retry, Hp.
  split; [|repeat split; by vm_compute].
  f_equal. apply last_pattern. by rewrite Hp.
Qed.

Lemma retry_sixth_success_witness :
  map failed (attempts (ready_at (seconds 20)) retrySecondsList
                (st_world (fresh (C:=unit) ∅)))
    = [true; true; true; true; true; false] /\
  (returned (retry (invoke tt (ready_at (seconds 20))) retrySecondsList None (fresh ∅))
     = Some None /\
   calls (emitted (fresh ∅)
            (retry (invoke tt (ready_at (seconds 20))) retrySecondsList None (fresh ∅)))
     = 6%nat /\
   total_sleep (emitted (fresh ∅)
     (retry (invoke tt (ready_at (seconds 20))) retrySecondsList None (fresh ∅)))
     = seconds (1 + 2 + 5 + 8 + 10) /\
   seconds 26
     <= total_sleep (emitted (fresh ∅)
          (retry (invoke tt (ready_at (seconds 20))) retrySecondsList None (fresh ∅)))).
Proof.
  split; [reflexivity|].
  apply (retry_sixth_success tt (ready_at (seconds 20)) (fresh ∅)). reflexivity.
Defined.

(** C5. Two operations whose attempts fail and succeed in the same
    pattern, whatever their errors are, are invoked the same number of
    times with the same sleeps; and what each run returns is the
    outcome of its last attempt as the operation gave it. *)
Theorem retry_ignores_errors {W1 W2 C1 C2 E1 E2 : Type} `{Clock W1} `{Clock W2}
    (c1 : C1) (c2 : C2)
    (f1 : W1 -> option E1 * W1) (f2 : W2 -> option E2 * W2)
    (s1 : State W1 C1) (s2 : State W2 C2) :
  map failed (attempts f1 retrySecondsList (st_world s1))
    = map failed (attempts f2 retrySecondsList (st_world s2)) ->
  let r1 := retry (invoke c1 f1) retrySecondsList None s1 in
  let r2 := retry (invoke c2 f2) retrySecondsList None s2 in
  calls (emitted s1 r1) = calls (emitted s2 r2) /\
  sleeps (emitted s1 r1) = sleeps (emitted s2 r2) /\
  returned r1 = last (attempts f1 retrySecondsList (st_world s1)) /\
  returned r2 = last (attempts f2 retrySecondsList (st_world s2)).
Proof.
  intros Hp r1 r2. subst r1 r2. rewrite !emitted_retry, !returned_retry, Hp.
  repeat split.
  - apply calls_trace.
  - apply sleeps_trace.
  - unfold retrySecondsList. by rewrite <- last_attempt.
  - unfold retrySecondsList. by rewrite <- last_attempt.
Qed.

Lemma retry_ignores_errors_witness :
  map failed (attempts never_ready retrySecondsList (st_world (fresh (C:=unit) ∅)))
    = map failed (attempts never_ready_mute retrySecondsList
                    (st_world (fresh (C:=bool) ∅))) /\
  (calls (emitted (fresh ∅)
            (retry (invoke tt never_ready) retrySecondsList None (fresh ∅)))
     = calls (emitted (fresh ∅)
                (retry (invoke true never_ready_mute) retrySecondsList None (fresh ∅))) /\
   sleeps (emitted (fresh ∅)
             (retry (invoke tt never_ready) retrySecondsList None (fresh ∅)))
     = sleeps (emitted (fresh ∅)
                 (retry (invoke true never_ready_mute) retrySecondsList None (fresh ∅))) /\
   returned (retry (invoke tt never_ready) retrySecondsList None (fresh ∅))
     = last (attempts never_ready retrySecondsList (st_world (fresh (C:=unit) ∅))) /\
   returned (retry (invoke true never_ready_mute) retrySecondsList None (fresh ∅))
     = last (attempts never_ready_mute retrySecondsList
               (st_world (fresh (C:=bool) ∅)))).
Proof.
  split; [reflexivity|].
  apply (retry_ignores_errors tt true never_ready never_ready_mute
           (fresh ∅) (fresh ∅)).
  reflexivity.
Defined.

(** ** The attribute codec *)

(** C8. A retention period configured with ["number_of_days"] is
    parsed into a request that carries the number only when it is
    greater than 1.  The value 1, which the schema's validator accepts,
    leaves [NumberOfDays] nil. *)
Theorem parseRetentionPeriod_number_of_days
    (rawRetentionPeriod : gmap string value) (n : Z) :
  rawRetentionPeriod !! "number_of_days" = Some (VInt n) ->
  - 2 ^ 63 <= n < 2 ^ 63 ->
  (forall v, rawRetentionPeriod !! "unlimited" = Some v -> exists b, v = VBool b) ->
  exists rp,
    parseRetentionPeriod rawRetentionPeriod = Ok rp /\
    NumberOfDays rp = (if 1 <? n then Some n else None) /\
    (n = 1 -> number_of_days_ValidateFunc n = true /\ NumberOfDays rp = None).
Proof.
  intros Hn Hrange Hu. unfold parseRetentionPeriod. rewrite Hn. cbn [as_int Go.bind].
  assert (int64 n = n) as ->.
  { unfold int64. rewrite Z.mod_small by lia. lia. }
  destruct (rawRetentionPeriod !! "unlimited") as [v|] eqn:Hv.
  - destruct (Hu v eq_refl) as [b ->].
    destruct (1 <? n) eqn:H1; cbn; eexists; (split; [reflexivity|]);
      cbn; (split; [reflexivity|]); intros ->; try discriminate H1; done.
  - destruct (1 <? n) eqn:H1; cbn; eexists; (split; [reflexivity|]);
      cbn; (split; [reflexivity|]); intros ->; try discriminate H1; done.
Qed.

Lemma parseRetentionPeriod_number_of_days_witness :
  (<["number_of_days" := VInt 1]> (<["unlimited" := VBool false]> ∅)
     : gmap string value) !! "number_of_days" = Some (VInt 1) /\
  - 2 ^ 63 <= 1 < 2 ^ 63 /\
  exists rp,
    parseRetentionPeriod
      (<["number_of_days" := VInt 1]> (<["unlimited" := VBool false]> ∅)) = Ok rp /\
    NumberOfDays rp = (if 1 <? 1 then Some 1 else None) /\
    (1 = 1 -> number_of_days_ValidateFunc 1 = true /\ NumberOfDays rp = None).
Proof.
  split; [reflexivity|]. split; [lia|].
  apply (parseRetentionPeriod_number_of_days
           (<["number_of_days" := VInt 1]> (<["unlimited" := VBool false]> ∅)) 1);
    [reflexivity | lia |].
  intros v Hv. vm_compute in Hv. injection Hv as <-. by exists false.
Defined.

(** C9. Flattening a customer-managed S3 storage whose bucket and role
    are set, and parsing the result, gives the storage back when its
    key prefix is nil or not empty; an empty key prefix comes back as
    nil. *)
Theorem customerManagedS3_roundtrip
    (x : CustomerManagedChannelS3Storage) (bucket roleArn : string) :
  Bucket x = Some bucket ->
  RoleArn x = Some roleArn ->
  ((KeyPrefix x = None \/ exists k, KeyPrefix x = Some k /\ k <> "") ->
   parseCustomerManagedS3 <$> flattenCustomerManagedS3 (Some x) = Some (Ok x)) /\
  (KeyPrefix x = Some "" ->
   parseCustomerManagedS3 <$> flattenCustomerManagedS3 (Some x) =
   Some (Ok {| Bucket := Bucket x; KeyPrefix := None; RoleArn := RoleArn x |})).
Proof.
  destruct x as [b k r]. cbn [Bucket RoleArn KeyPrefix]. intros -> ->.
  unfold flattenCustomerManagedS3, parseCustomerManagedS3, index.
  cbn [Bucket RoleArn KeyPrefix StringValue default fmap option_fmap option_map].
  split.
  - intros [-> | (k' & -> & Hk)].
    + by simplify_map_eq.
    + simplify_map_eq. cbn. destruct k' as [|a k']; [done|reflexivity].
  - intros ->. by simplify_map_eq.
Qed.

Lemma customerManagedS3_roundtrip_witness :
  (Bucket raw_prefix_storage = Some "b" /\
   RoleArn raw_prefix_storage = Some "r" /\
   (KeyPrefix raw_prefix_storage = None \/
    exists k, KeyPrefix raw_prefix_storage = Some k /\ k <> "") /\
   parseCustomerManagedS3 <$> flattenCustomerManagedS3 (Some raw_prefix_storage)
     = Some (Ok raw_prefix_storage)) /\
  (Bucket empty_prefix_storage = Some "b" /\
   RoleArn empty_prefix_storage = Some "r" /\
   KeyPrefix empty_prefix_storage = Some "" /\
   parseCustomerManagedS3 <$> flattenCustomerManagedS3 (Some empty_prefix_storage)
     = Some (Ok {| Bucket := Bucket empty_prefix_storage;
                   KeyPrefix := None;
                   RoleArn := RoleArn empty_prefix_storage |})).
Proof.
  split.
  - assert (KeyPrefix raw_prefix_storage = None \/
            exists k, KeyPrefix raw_prefix_storage = Some k /\ k <> "") as Hk.
    { right. exists "raw/". split; [reflexivity | discriminate]. }
    repeat (split; [first [reflexivity | exact Hk]|]).
    exact (proj1 (customerManagedS3_roundtrip raw_prefix_storage "b" "r"
                    eq_refl eq_refl) Hk).
  - do 3 (split; [reflexivity|]).
    exact (proj2 (customerManagedS3_roundtrip empty_prefix_storage "b" "r"
                    eq_refl eq_refl) eq_refl).
Defined.

(** The empty key prefix, and a nil bucket, do not survive the round
    trip. *)
Example customerManagedS3_roundtrip_empty_prefix :
  parseCustomerManagedS3 <$>
    flattenCustomerManagedS3
      (Some {| Bucket := Some "b"; KeyPrefix := Some ""; RoleArn := Some "r" |})
  = Some (Ok {| Bucket := Some "b"; KeyPrefix := None; RoleArn := Some "r" |}).
Proof. reflexivity. Qed.

Example customerManagedS3_roundtrip_nil_bucket :
  parseCustomerManagedS3 <$>
    flattenCustomerManagedS3
      (Some {| Bucket := None; KeyPrefix := None; RoleArn := Some "r" |})
  = Some (Ok {| Bucket := Some ""; KeyPrefix := None; RoleArn := Some "r" |}).
Proof. reflexivity. Qed.

(** ** Greengrass version creation *)

Lemma emitted_nothing {W C A} (r : Res W C A) (s : State W C) :
  final r = s -> emitted s r = [].
Proof. intros Hr. unfold emitted. rewrite Hr. apply drop_all. Qed.

Lemma emitted_at_most_one_call {W C A} (Q : C -> Prop) (s : State W C)
    (r : Res W C A) :
  at_most_one_call Q s r ->
  emitted s r = [] \/ exists c, Q c /\ emitted s r = [EvCall c].
Proof.
  intros [Hr | (c & w' & Hc & Hr)].
  - left. by apply emitted_nothing.
  - right. exists c. split; [done|]. unfold emitted. rewrite Hr. cbn.
    by rewrite drop_app_length.
Qed.

(** Stepping through a handler: a pure computation either panics in
    the state it was run in or hands its result on. *)
Ltac step_lift :=
  match goal with
  | |- context [lift ?g] =>
      unfold Machine.bind at 1; unfold lift at 1;
      destruct g; [|left; reflexivity]
  end.

Section VersionFacts.
Context {W E : Type}.
Variable environ : gmap string string.
Variable conn : Greengrass.greengrassconn W E.

(** [createGroupVersion] issues no call at all or the one call
    [CreateGroupVersion], whose token is [clientToken environ]. *)
Lemma createGroupVersion_run (s : State W Greengrass.Call) :
  at_most_one_call
    (fun c => exists p,
       c = Greengrass.CallCreateGroupVersion p /\
       Greengrass.CreateGroupVersionInput.AmznClientToken p
         = Greengrass.clientToken environ)
    s (Greengrass.createGroupVersion environ conn s).
Proof.
  unfold Greengrass.createGroupVersion.
  unfold Machine.bind at 1. unfold Get at 1.
  step_lift.
  destruct (length a =? 0)%nat; [left; reflexivity|].
  step_lift.
  unfold Machine.bind at 1. unfold Machine.Id at 1.
  do 7 step_lift.
  unfold Machine.bind at 1; unfold invoke at 1; cbn [st_world st_d st_log].
  match goal with
  | |- context [Greengrass.CreateGroupVersion conn ?p ?w] =>
      destruct (Greengrass.CreateGroupVersion conn p w) as [[e|] w'];
      right; exists (Greengrass.CallCreateGroupVersion p), w';
      (split; [by exists p | reflexivity])
  end.
Qed.

Lemma createLoggerDefinitionVersion_run (s : State W Greengrass.Call) :
  at_most_one_call
    (fun c => exists p,
       c = Greengrass.CallCreateLoggerDefinitionVersion p /\
       Greengrass.CreateLoggerDefinitionVersionInput.AmznClientToken p
         = Greengrass.clientToken environ)
    s (Greengrass.createLoggerDefinitionVersion environ conn s).
Proof.
  unfold Greengrass.createLoggerDefinitionVersion.
  unfold Machine.bind at 1. unfold Get at 1.
  step_lift.
  destruct (length a =? 0)%nat; [left; reflexivity|].
  step_lift.
  unfold Machine.bind at 1. unfold Machine.Id at 1.
  step_lift.
  unfold Machine.bind at 1; unfold invoke at 1; cbn [st_world st_d st_log].
  match goal with
  | |- context [Greengrass.CreateLoggerDefinitionVersion conn ?p ?w] =>
      destruct (Greengrass.CreateLoggerDefinitionVersion conn p w) as [[e|] w'];
      right; exists (Greengrass.CallCreateLoggerDefinitionVersion p), w';
      (split; [by exists p | reflexivity])
  end.
Qed.

(** The token is the value of the variable when there is one and it is
    not empty, and nil otherwise. *)
Lemma clientToken_spec (v : string) :
  Greengrass.clientToken environ = Some v <->
  environ !! "AMZN_CLIENT_TOKEN" = Some v /\ v <> "".
Proof.
  unfold Greengrass.clientToken, Getenv.
  destruct (environ !! "AMZN_CLIENT_TOKEN") as [x|]; cbn -[String.eqb].
  - destruct (String.eqb_spec x "") as [-> | Hx]; unfold Go.String.
    + split; [discriminate|]. intros [[= <-] Hv]. done.
    + split; [intros [= <-]; by split | intros [[= <-] _]; reflexivity].
  - cbn. split; [discriminate | intros [? _]; discriminate].
Qed.

End VersionFacts.

(** C6. Every version-creation call, for a group or for a logger
    definition, carries as its idempotency token the value of
    [AMZN_CLIENT_TOKEN] exactly when that variable is set and not
    empty; otherwise the token is nil. *)
Theorem client_token_forwarded {W E : Type}
    (environ : gmap string string) (conn : Greengrass.greengrassconn W E)
    (s : State W Greengrass.Call) (i : nat) :
  (forall p,
     emitted s (Greengrass.createGroupVersion environ conn s) !! i
       = Some (EvCall (Greengrass.CallCreateGroupVersion p)) ->
     forall v,
       Greengrass.CreateGroupVersionInput.AmznClientToken p = Some v <->
       environ !! "AMZN_CLIENT_TOKEN" = Some v /\ v <> "") /\
  (forall p,
     emitted s (Greengrass.createLoggerDefinitionVersion environ conn s) !! i
       = Some (EvCall (Greengrass.CallCreateLoggerDefinitionVersion p)) ->
     forall v,
       Greengrass.CreateLoggerDefinitionVersionInput.AmznClientToken p = Some v <->
       environ !! "AMZN_CLIENT_TOKEN" = Some v /\ v <> "").
Proof.
  split; intros p Hi v.
  - destruct (emitted_at_most_one_call _ _ _ (createGroupVersion_run environ conn s))
      as [Hnil | (c & (p' & -> & Htok) & Hone)].
    + by rewrite Hnil in Hi.
    + rewrite Hone in Hi. destruct i as [|i]; [|done].
      injection Hi as <-. rewrite Htok. apply clientToken_spec.
  - destruct (emitted_at_most_one_call _ _ _
                (createLoggerDefinitionVersion_run environ conn s))
      as [Hnil | (c & (p' & -> & Htok) & Hone)].
    + by rewrite Hnil in Hi.
    + rewrite Hone in Hi. destruct i as [|i]; [|done].
      injection Hi as <-. rewrite Htok. apply clientToken_spec.
Qed.

Lemma client_token_forwarded_witness :
  (emitted (fresh version_config)
     (Greengrass.createGroupVersion token_environ greengrass_service
        (fresh version_config)) !! 0%nat
     = Some (EvCall (Greengrass.CallCreateGroupVersion group_version_request)) /\
   forall v,
     Greengrass.CreateGroupVersionInput.AmznClientToken group_version_request
       = Some v <->
     token_environ !! "AMZN_CLIENT_TOKEN" = Some v /\ v <> "") /\
  (emitted (fresh version_config)
     (Greengrass.createLoggerDefinitionVersion token_environ greengrass_service
        (fresh version_config)) !! 0%nat
     = Some (EvCall (Greengrass.CallCreateLoggerDefinitionVersion
                       logger_version_request)) /\
   forall v,
     Greengrass.CreateLoggerDefinitionVersionInput.AmznClientToken
       logger_version_request = Some v <->
     token_environ !! "AMZN_CLIENT_TOKEN" = Some v /\ v <> "").
Proof.
  split; (split; [reflexivity|]).
  - apply (proj1 (client_token_forwarded token_environ greengrass_service
                    (fresh version_config) 0) group_version_request).
    reflexivity.
  - apply (proj2 (client_token_forwarded token_environ greengrass_service
                    (fresh version_config) 0) logger_version_request).
    reflexivity.
Defined.

(** Without the variable, or with an empty one, the call goes out
    with a nil token. *)
Example client_token_absent :
  emitted (fresh version_config)
    (Greengrass.createGroupVersion ∅ greengrass_service (fresh version_config))
  = [EvCall (Greengrass.CallCreateGroupVersion
       {| Greengrass.CreateGroupVersionInput.AmznClientToken := None;
          Greengrass.CreateGroupVersionInput.GroupId := Some "";
          Greengrass.CreateGroupVersionInput.ConnectorDefinitionVersionArn := None;
          Greengrass.CreateGroupVersionInput.CoreDefinitionVersionArn := Some "arn:core:1";
          Greengrass.CreateGroupVersionInput.DeviceDefinitionVersionArn := None;
          Greengrass.CreateGroupVersionInput.FunctionDefinitionVersionArn := None;
          Greengrass.CreateGroupVersionInput.LoggerDefinitionVersionArn := None;
          Greengrass.CreateGroupVersionInput.ResourceDefinitionVersionArn := None;
          Greengrass.CreateGroupVersionInput.SubscriptionDefinitionVersionArn := None |})]
  /\ Greengrass.clientToken (<["AMZN_CLIENT_TOKEN" := ""]> ∅) = None.
Proof. split; reflexivity. Qed.

(** C10. When the configuration has no version block, neither
    [createGroupVersion] nor [createLoggerDefinitionVersion] issues a
    call: each returns nil in the state it was started in, so that the
    remote world, the resource data and the log are what they were. *)
Theorem version_absent_no_call {W E : Type}
    (environ : gmap string string) (conn : Greengrass.greengrassconn W E)
    (s : State W Greengrass.Call) :
  (index (rd_attrs (st_d s)) "group_version" = VSet [] ->
   Greengrass.createGroupVersion environ conn s = Ret None s /\
   emitted s (Greengrass.createGroupVersion environ conn s) = []) /\
  (index (rd_attrs (st_d s)) "logger_definition_version" = VSet [] ->
   Greengrass.createLoggerDefinitionVersion environ conn s = Ret None s /\
   emitted s (Greengrass.createLoggerDefinitionVersion environ conn s) = []).
Proof.
  split; intros Hv.
  - assert (Greengrass.createGroupVersion environ conn s = Ret None s) as Hr.
    { unfold Greengrass.createGroupVersion, Machine.bind, Get. by rewrite Hv. }
    split; [exact Hr|]. apply emitted_nothing. by rewrite Hr.
  - assert (Greengrass.createLoggerDefinitionVersion environ conn s = Ret None s) as Hr.
    { unfold Greengrass.createLoggerDefinitionVersion, Machine.bind, Get.
      by rewrite Hv. }
    split; [exact Hr|]. apply emitted_nothing. by rewrite Hr.
Qed.

Lemma version_absent_no_call_witness :
  (index (rd_attrs (st_d (fresh (C:=Greengrass.Call) no_version_config)))
     "group_version" = VSet [] /\
   Greengrass.createGroupVersion token_environ greengrass_service
     (fresh no_version_config) = Ret None (fresh no_version_config) /\
   emitted (fresh no_version_config)
     (Greengrass.createGroupVersion token_environ greengrass_service
        (fresh no_version_config)) = []) /\
  (index (rd_attrs (st_d (fresh (C:=Greengrass.Call) no_version_config)))
     "logger_definition_version" = VSet [] /\
   Greengrass.createLoggerDefinitionVersion token_environ greengrass_service
     (fresh no_version_config) = Ret None (fresh no_version_config) /\
   emitted (fresh no_version_config)
     (Greengrass.createLoggerDefinitionVersion token_environ greengrass_service
        (fresh no_version_config)) = []).
Proof.
  split; (split; [reflexivity|]).
  - apply (proj1 (version_absent_no_call token_environ greengrass_service
                    (fresh no_version_config))).
    reflexivity.
  - apply (proj2 (version_absent_no_call token_environ greengrass_service
                    (fresh no_version_config))).
    reflexivity.
Defined.

(** ** IoT Analytics: create *)

Section CreateFacts.
Context {W E : Type} `{Clock W}.
Variable conn : iotanalyticsconn W E.
Variable kind : Kind.

(** Reading changes attributes only: the identity stays, and the one
    thing done to the remote service is a describe call for the
    resource of that identity. *)
Lemma read_run (s : State W Call) :
  let r := resourceAwsIotAnalyticsRead conn kind s in
  rd_id (st_d (final r)) = rd_id (st_d s) /\
  st_log (final r) =
  st_log s ++ [EvCall (CallDescribe kind
                 {| DescribeChannelInput.ChannelName := Some (rd_id (st_d s)) |})].
Proof.
  unfold resourceAwsIotAnalyticsRead, Machine.bind, Machine.Id, invoke, lift, Set_, ret.
  cbn [st_d st_world st_log].
  destruct (Describe conn kind _ (st_world s)) as [[out [e|]] w']; [by cbn|].
  destruct out as [[[[name storage retention]|]]|]; cbn; try done.
  destruct storage as [[cm sm]|]; cbn; [|done].
  destruct (flattenCustomerManagedS3 cm), (flattenServiceManagedS3 sm);
    cbn; destruct retention; by cbn.
Qed.

(** Building the request reads the configuration and changes
    nothing. *)
Lemma storageAndRetention_final (s : State W Call) :
  final (storageAndRetention s) = s.
Proof.
  unfold storageAndRetention, Machine.bind, Get, lift, ret.
  repeat (match goal with
          | |- context [match ?g with Ok _ => _ | Panic _ => _ end] =>
              destruct g; cbn [final]; try reflexivity
          | |- context [if ?b then _ else _] =>
              destruct b; cbn [final]; try reflexivity
          end).
Qed.

End CreateFacts.

(** Some attempt succeeded exactly when the pattern of failures ends
    in a success. *)
Lemma pattern_of_success {E} (outs : list (option E)) :
  existsb succeeded outs = existsb negb (map failed outs).
Proof. induction outs as [|o outs IH]; [reflexivity|]. cbn. by rewrite IH. Qed.

Lemma pattern_of_failure {E} (outs : list (option E)) :
  forallb failed outs = forallb id (map failed outs).
Proof. induction outs as [|o outs IH]; [reflexivity|]. cbn. by rewrite IH. Qed.



(** The run of that channel create: two failures, the sleeps of 1s and
    2s, the successful third call, and the describe call. *)
Example create_channel_run :
  emitted telemetry
    (resourceAwsIotAnalyticsChannelCreate (iot_service (seconds 3)) telemetry) =
  [EvCall (CallCreate OfChannel telemetry_request); EvSleep (seconds 1);
   EvCall (CallCreate OfChannel telemetry_request); EvSleep (seconds 2);
   EvCall (CallCreate OfChannel telemetry_request);
   EvCall (CallDescribe OfChannel
     {| DescribeChannelInput.ChannelName := Some "telemetry" |})].
Proof. reflexivity. Qed.

(** ** Further properties of the retry loop *)

(** X1. Whatever the operation does, a run of the loop sleeps for at
    most 26 seconds in all, the durations it asks for are an initial
    part of 1s, 2s, 5s, 8s, 10s, 0, and the resource data is left as it
    was. *)
Theorem retry_sleep_bound {W C E : Type} `{Clock W}
    (c : C) (f : W -> option E * W) (s : State W C) :
  let r := retry (invoke c f) retrySecondsList None s in
  0 <= total_sleep (emitted s r) <= seconds 26 /\
  (exists n : nat,
     sleeps (emitted s r) = take n (map seconds retrySecondsList)) /\
  st_d (final r) = st_d s.
Proof.
  intros r. subst r. rewrite emitted_retry, st_d_retry.
  split; [|split; [|reflexivity]].
  - destruct (attempts_cases f (st_world s))
      as [-> | [-> | [-> | [-> | [-> | [-> | ->]]]]]]; by vm_compute.
  - destruct (attempts_cases f (st_world s))
      as [-> | [-> | [-> | [-> | [-> | [-> | ->]]]]]];
      [exists 0%nat | exists 1%nat | exists 2%nat | exists 3%nat
       | exists 4%nat | exists 5%nat | exists 6%nat]; reflexivity.
Qed.

(** ** IoT Analytics: update, delete and read *)

(** X2. A channel or datastore update never changes the identity.
    When its call succeeds within the retry window, the describe call
    that follows it directly, and ends the run, asks for the resource
    of the current identity, whatever ["name"] the update was sent
    with.  When every attempt fails, the resource data is left as it
    was, the last error is returned and no describe call is made. *)
Theorem update_keeps_identity_and_rereads {W E : Type} `{Clock W}
    (conn : iotanalyticsconn W E) (kind : Kind) (s : State W Call)
    (name : string) (sr : option ChannelStorage * option RetentionPeriod) :
  index (rd_attrs (st_d s)) "name" = VString name ->
  returned (storageAndRetention s) = Some sr ->
  let params :=
    {| UpdateChannelInput.ChannelName := Some name;
       UpdateChannelInput.ChannelStorage := fst sr;
       UpdateChannelInput.RetentionPeriod := snd sr |} in
  let outs := attempts (Update conn kind params) retrySecondsList (st_world s) in
  let r := resourceAwsIotAnalyticsUpdate conn kind s in
  rd_id (st_d (final r)) = rd_id (st_d s) /\
  (existsb succeeded outs = true ->
   exists before,
     emitted s r =
     before ++ [EvCall (CallUpdate kind params);
                EvCall (CallDescribe kind
                  {| DescribeChannelInput.ChannelName := Some (rd_id (st_d s)) |})]) /\
  (forallb failed outs = true ->
   st_d (final r) = st_d s /\
   returned r = last outs /\
   forall i p, emitted s r !! i <> Some (EvCall (CallDescribe kind p))).
Proof.
  intros Hname Hsr params outs r.
  assert (storageAndRetention s = Ret sr s) as Hsr'.
  { pose proof (storageAndRetention_final s) as Hfin.
    destruct (storageAndRetention s); cbn in Hsr, Hfin; congruence. }
  assert (exists w',
    r = match default None (last outs) with
        | Some e =>
            Ret (Some e)
                {| st_d := st_d s; st_world := w';
                   st_log := st_log s ++ trace (CallUpdate kind params)
                                           retrySecondsList (map failed outs) |}
        | None =>
            resourceAwsIotAnalyticsRead conn kind
              {| st_d := st_d s;
                 st_world := w';
                 st_log := st_log s ++ trace (CallUpdate kind params)
                                         retrySecondsList (map failed outs) |}
        end) as [w' Hr].
  { destruct (retry_run (CallUpdate kind params) (Update conn kind params)
                retrySecondsList None s) as [w' Hrun].
    exists w'. subst r. unfold resourceAwsIotAnalyticsUpdate.
    unfold Machine.bind at 1. unfold Get at 1. rewrite Hname.
    unfold Machine.bind at 1. unfold lift at 1. cbn [as_string].
    unfold Machine.bind at 1. rewrite Hsr'. cbv beta iota zeta.
    unfold Machine.bind at 1. unfold Go.String. fold params. rewrite Hrun.
    fold outs. by destruct (default None (last outs)) as [e|]. }
  pose proof (attempts_cases (Update conn kind params) (st_world s)) as Hp.
  cbv zeta in Hp. fold outs in Hp.
  match type of Hr with context [resourceAwsIotAnalyticsRead _ _ ?s1] =>
    destruct (read_run conn kind s1) as [Hid Hlog] end.
  cbn [st_d st_log] in Hid, Hlog.
  split; [|split].
  - rewrite Hr. by destruct (default None (last outs)).
  - intros Hsome. rewrite pattern_of_success in Hsome.
    assert (default None (last outs) = None) as Hlast.
    { apply last_pattern.
      destruct Hp as [Hp | [Hp | [Hp | [Hp | [Hp | [Hp | Hp]]]]]];
        rewrite Hp in Hsome |- *; try reflexivity; discriminate Hsome. }
    rewrite Hlast in Hr. rewrite <- Hr in Hlog.
    unfold emitted. rewrite Hlog, <- app_assoc, drop_app_length.
    exists (removelast (trace (CallUpdate kind params) retrySecondsList
                          (map failed outs))).
    destruct Hp as [Hp | [Hp | [Hp | [Hp | [Hp | [Hp | Hp]]]]]];
      rewrite Hp in Hsome |- *; try reflexivity; discriminate Hsome.
  - intros Hall. rewrite pattern_of_failure in Hall.
    assert (map failed outs = [true; true; true; true; true; true]) as Hsix.
    { destruct Hp as [Hp | [Hp | [Hp | [Hp | [Hp | [Hp | Hp]]]]]];
        rewrite Hp in Hall |- *; try reflexivity; discriminate Hall. }
    assert (exists e, last outs = Some (Some e)) as [e Hlast].
    { pose proof (fmap_last failed outs) as Hfl.
      change (failed <$> outs) with (map failed outs) in Hfl. rewrite Hsix in Hfl.
      destruct (last outs) as [[e|]|]; try discriminate Hfl. by exists e. }
    rewrite Hlast in Hr. change (default None (Some (Some e))) with (Some e) in Hr.
    rewrite Hr, Hlast, Hsix.
    cbn [final st_d returned].
    split; [reflexivity|]. split; [reflexivity|].
    intros i p. unfold emitted. cbn [final st_log]. rewrite drop_app_length.
    do 12 (destruct i as [|i]; [discriminate|]). discriminate.
Qed.

(** X3. A channel or datastore delete issues exactly one call, for
    the resource of the current identity, does not sleep or retry, and
    returns what the service answered; the resource data is left as it
    was. *)
Theorem delete_single_call {W E : Type}
    (conn : iotanalyticsconn W E) (kind : Kind) (s : State W Call) :
  let params := {| DeleteChannelInput.ChannelName := Some (rd_id (st_d s)) |} in
  let r := resourceAwsIotAnalyticsDelete conn kind s in
  returned r = Some (fst (Delete conn kind params (st_world s))) /\
  emitted s r = [EvCall (CallDelete kind params)] /\
  st_d (final r) = st_d s /\
  st_world (final r) = snd (Delete conn kind params (st_world s)).
Proof.
  intros params r. subst r.
  unfold resourceAwsIotAnalyticsDelete, Machine.bind, Machine.Id, invoke, emitted.
  unfold Go.String. fold params. destruct (Delete conn kind params (st_world s)) as [err w'].
  cbn [final st_log returned st_d st_world fst snd].
  by rewrite drop_app_length.
Qed.

(** X4. When the describe call fails, read returns its error and
    writes no attribute. *)
Theorem read_describe_error {W E : Type}
    (conn : iotanalyticsconn W E) (kind : Kind) (s : State W Call)
    (out : option DescribeChannelOutput.t) (e : E) (w' : W) :
  Describe conn kind
    {| DescribeChannelInput.ChannelName := Some (rd_id (st_d s)) |} (st_world s)
    = ((out, Some e), w') ->
  let r := resourceAwsIotAnalyticsRead conn kind s in
  returned r = Some (Some e) /\
  st_d (final r) = st_d s /\
  st_world (final r) = w'.
Proof.
  intros Hd r. subst r.
  unfold resourceAwsIotAnalyticsRead, Machine.bind, Machine.Id, invoke.
  unfold Go.String. by rewrite Hd.
Qed.

(** X5. When the describe call succeeds and the resource it reports
    has a storage and a retention period, read returns nil, keeps the
    identity, issues the describe call and nothing else, and hands
    [d.Set] exactly three attributes, in this order: ["name"] with the
    name pointer of the answer, ["storage"] with the flattened storage
    wrapped in a list (the empty list when the storage has neither kind
    of S3 storage), and ["retention_period"] with the flattened
    retention period as a list of one map.  The attribute bag afterwards
    is what the schema makes of these three writes, whatever the schema
    does with them. *)
Theorem read_success {W E : Type}
    (conn : iotanalyticsconn W E) (kind : Kind) (s : State W Call)
    (o : DescribeChannelOutput.t) (ch : Channel.t)
    (st : ChannelStorage) (rp : RetentionPeriod) (w' : W) :
  Describe conn kind
    {| DescribeChannelInput.ChannelName := Some (rd_id (st_d s)) |} (st_world s)
    = ((Some o, None), w') ->
  DescribeChannelOutput.Channel o = Some ch ->
  Channel.Storage ch = Some st ->
  Channel.RetentionPeriod ch = Some rp ->
  let r := resourceAwsIotAnalyticsRead conn kind s in
  let d := st_d s in
  returned r = Some None /\
  rd_id (st_d (final r)) = rd_id d /\
  st_world (final r) = w' /\
  emitted s r =
    [EvCall (CallDescribe kind
       {| DescribeChannelInput.ChannelName := Some (rd_id d) |})] /\
  exists (m : option (gmap string value)) (mr : gmap string value),
    flattenStorage (Some st) = Ok m /\
    flattenRetentionPeriod (Some rp) = Ok mr /\
    (m = None <-> CustomerManagedS3 st = None /\ ServiceManagedS3 st = None) /\
    (wrapMapInList m = [] <-> CustomerManagedS3 st = None /\ ServiceManagedS3 st = None) /\
    rd_attrs (st_d (final r)) =
      rd_schema d "retention_period" (VList [VMap mr])
        (rd_schema d "storage" (VList (wrapMapInList m))
           (rd_schema d "name" (VStringPtr (Channel.Name ch)) (rd_attrs d))).
Proof.
  intros Hd Hch Hst Hrp r d. subst r d.
  unfold resourceAwsIotAnalyticsRead, Machine.bind, Machine.Id, invoke, lift, Set_, ret.
  unfold Go.String. rewrite Hd. cbn [deref]. rewrite Hch. cbn [deref].
  rewrite Hst, Hrp. cbn [st_d st_world st_log rd_id rd_attrs rd_schema].
  destruct st as [cm sm]. unfold flattenStorage, flattenRetentionPeriod.
  cbn [deref Go.bind CustomerManagedS3 ServiceManagedS3].
  unfold emitted.
  destruct (flattenCustomerManagedS3 cm) as [mc|] eqn:Hcm,
           (flattenServiceManagedS3 sm) as [ms|] eqn:Hsm;
    cbn [final returned st_d st_world st_log rd_id rd_attrs rd_schema];
    (split; [reflexivity|]); (split; [reflexivity|]); (split; [reflexivity|]);
    (split; [by rewrite drop_app_length|]);
    eexists; eexists; (split; [reflexivity|]); (split; [reflexivity|]).
  - split; [|split; [|reflexivity]];
      (split; [discriminate|]); (destruct cm; [intros [? _]|]; discriminate).
  - split; [|split; [|reflexivity]];
      (split; [discriminate|]); (destruct cm; [intros [? _]|]; discriminate).
  - split; [|split; [|reflexivity]];
      (split; [discriminate|]); (destruct sm; [intros [_ ?]|]; discriminate).
  - split; [|split; [|reflexivity]];
      (split; [|done]); destruct cm, sm; try discriminate; done.
Qed.

(** X6. When the describe call succeeds but the resource it reports
    has no storage, or no retention period, read panics on the nil
    pointer, having issued the describe call. *)
Theorem read_nil_panics {W E : Type}
    (conn : iotanalyticsconn W E) (kind : Kind) (s : State W Call)
    (o : DescribeChannelOutput.t) (ch : Channel.t) (w' : W) :
  Describe conn kind
    {| DescribeChannelInput.ChannelName := Some (rd_id (st_d s)) |} (st_world s)
    = ((Some o, None), w') ->
  DescribeChannelOutput.Channel o = Some ch ->
  Channel.Storage ch = None \/ Channel.RetentionPeriod ch = None ->
  let r := resourceAwsIotAnalyticsRead conn kind s in
  (exists s', r = Crash NilDereference s') /\
  emitted s r =
  [EvCall (CallDescribe kind
     {| DescribeChannelInput.ChannelName := Some (rd_id (st_d s)) |})].
Proof.
  intros Hd Hch Hnil r.
  assert (emitted s r =
          [EvCall (CallDescribe kind
             {| DescribeChannelInput.ChannelName := Some (rd_id (st_d s)) |})]) as Hem.
  { unfold emitted. subst r. destruct (read_run conn kind s) as [_ ->].
    by rewrite drop_app_length. }
  split; [|exact Hem]. subst r.
  unfold resourceAwsIotAnalyticsRead, Machine.bind, Machine.Id, invoke, lift, Set_, ret.
  unfold Go.String. rewrite Hd. cbn [deref]. rewrite Hch. cbn [deref].
  destruct Hnil as [Hnil | Hnil]; rewrite Hnil.
  - cbn. by eexists.
  - destruct (Channel.Storage ch) as [[cm sm]|]; [|cbn; by eexists].
    unfold flattenStorage. cbn [deref Go.bind CustomerManagedS3 ServiceManagedS3].
    destruct (flattenCustomerManagedS3 cm), (flattenServiceManagedS3 sm);
      cbn; by eexists.
Qed.

(** ** Further properties of the attribute codec *)

(** X7. Flattening a storage that has one of the two kinds of S3
    storage, and parsing the result, gives the storage back, provided
    a customer-managed storage has its bucket and role set and its key
    prefix nil or not empty.  A storage with neither kind flattens to
    the nil map, which becomes an empty list of blocks. *)
Theorem storage_roundtrip (st : ChannelStorage) :
  (forall c, CustomerManagedS3 st = Some c ->
             is_Some (Bucket c) /\ is_Some (RoleArn c) /\ KeyPrefix c <> Some "") ->
  (CustomerManagedS3 st <> None \/ ServiceManagedS3 st <> None ->
   exists m, flattenStorage (Some st) = Ok (Some m) /\ parseStorage m = Ok st) /\
  (CustomerManagedS3 st = None /\ ServiceManagedS3 st = None ->
   flattenStorage (Some st) = Ok None /\ wrapMapInList None = []).
Proof.
  destruct st as [cm sm]. cbn [CustomerManagedS3 ServiceManagedS3]. intros Hcm.
  split.
  - intros Hsome.
    assert (forall c, cm = Some c ->
              parseCustomerManagedS3 <$> flattenCustomerManagedS3 (Some c)
              = Some (Ok c)) as Hrt.
    { intros c Hc. destruct (Hcm c Hc) as ([b Hb] & [r Hr] & Hk).
      destruct c as [cb ck cr]. cbn [Bucket RoleArn KeyPrefix] in Hb, Hr, Hk.
      subst cb cr.
      unfold flattenCustomerManagedS3, parseCustomerManagedS3, index.
      cbn [Bucket RoleArn KeyPrefix StringValue default fmap option_fmap option_map].
      destruct ck as [[|a k]|]; [done| |]; by simplify_map_eq. }
    unfold flattenStorage. cbn [deref Go.bind CustomerManagedS3 ServiceManagedS3].
    destruct cm as [c|], sm as [[]|]; cbn [flattenServiceManagedS3].
    + specialize (Hrt c eq_refl).
      destruct (flattenCustomerManagedS3 (Some c)) as [mc|] eqn:Hmc; [|done].
      cbn in Hrt. injection Hrt as Hrt.
      eexists. split; [reflexivity|].
      unfold parseStorage, index. simplify_map_eq. cbn. by rewrite Hrt.
    + specialize (Hrt c eq_refl).
      destruct (flattenCustomerManagedS3 (Some c)) as [mc|] eqn:Hmc; [|done].
      cbn in Hrt. injection Hrt as Hrt.
      eexists. split; [reflexivity|].
      unfold parseStorage, index. simplify_map_eq. cbn. by rewrite Hrt.
    + cbn [flattenCustomerManagedS3]. eexists. split; [reflexivity|].
      unfold parseStorage, index. by simplify_map_eq.
    + by destruct Hsome.
  - intros [-> ->]. split; reflexivity.
Qed.

(** X8. [parseCustomerManagedS3] returns exactly when ["bucket"] and
    ["role_arn"] are strings and ["key_prefix"], if present, is one;
    it then carries the bucket and the role, and the key prefix when it
    is not empty.  In every other case it panics on a type assertion. *)
Theorem parseCustomerManagedS3_domain (rawCustomerManagedS3 : gmap string value) :
  ((exists bucket roleArn,
      rawCustomerManagedS3 !! "bucket" = Some (VString bucket) /\
      rawCustomerManagedS3 !! "role_arn" = Some (VString roleArn) /\
      (forall v, rawCustomerManagedS3 !! "key_prefix" = Some v ->
                 exists k, v = VString k)) <->
   exists x, parseCustomerManagedS3 rawCustomerManagedS3 = Ok x) /\
  (forall x, parseCustomerManagedS3 rawCustomerManagedS3 = Ok x ->
     rawCustomerManagedS3 !! "bucket" = VString <$> Bucket x /\
     rawCustomerManagedS3 !! "role_arn" = VString <$> RoleArn x /\
     (forall k, KeyPrefix x = Some k <->
                rawCustomerManagedS3 !! "key_prefix" = Some (VString k) /\ k <> "")) /\
  (forall k, parseCustomerManagedS3 rawCustomerManagedS3 = Panic k ->
             k = TypeAssertion).
Proof.
  unfold parseCustomerManagedS3, index, default, from_option, id.
  destruct (rawCustomerManagedS3 !! "bucket") as [[]|] eqn:Hb; simpl;
    try (split; [split; [intros (? & ? & ? & _); discriminate
                        | intros [x ?]; discriminate]
                |split; [intros x ?; discriminate | by intros k [= <-]]]).
  destruct (rawCustomerManagedS3 !! "role_arn") as [[]|] eqn:Hr; simpl;
    try (split; [split; [intros (? & ? & _ & ? & _); discriminate
                        | intros [x ?]; discriminate]
                |split; [intros x ?; discriminate | by intros k [= <-]]]).
  destruct (rawCustomerManagedS3 !! "key_prefix") as [[]|] eqn:Hk; simpl;
    try (split; [split; [intros (? & ? & _ & _ & Hv);
                         destruct (Hv _ eq_refl) as [k ?]; discriminate
                        | intros [x ?]; discriminate]
                |split; [intros x ?; discriminate | by intros k [= <-]]]).
  - split; [split|split].
    + intros _. destruct s1; simpl; eexists; reflexivity.
    + intros _. exists s, s0. repeat split. intros v [= <-]. by eexists.
    + intros x Hx. destruct s1 as [|a k]; simpl in Hx; injection Hx as <-; simpl;
        (split; [reflexivity|]); (split; [reflexivity|]); intros k'; split.
      * discriminate.
      * by intros [[= <-] ?].
      * intros [= <-]. by split.
      * by intros [[= <-] _].
    + intros k Hp. destruct s1; discriminate.
  - split; [split|split].
    + intros _. eexists; reflexivity.
    + intros _. exists s, s0. repeat split. discriminate.
    + intros x [= <-]. simpl. repeat split; try discriminate.
      by intros [? _].
    + discriminate.
Qed.

(** X9. [parseRetentionPeriod] returns exactly when
    ["number_of_days"], if present, is an int and ["unlimited"], if
    present, is a bool.  The request then carries [Unlimited] whenever
    the key is present, [false] included, and a number of days only if
    it is greater than 1. *)
Theorem parseRetentionPeriod_domain (rawRetentionPeriod : gmap string value) :
  (((forall v, rawRetentionPeriod !! "number_of_days" = Some v -> exists n, v = VInt n) /\
    (forall v, rawRetentionPeriod !! "unlimited" = Some v -> exists b, v = VBool b)) <->
   exists rp, parseRetentionPeriod rawRetentionPeriod = Ok rp) /\
  (forall rp, parseRetentionPeriod rawRetentionPeriod = Ok rp ->
     (forall b, Unlimited rp = Some b <->
                rawRetentionPeriod !! "unlimited" = Some (VBool b)) /\
     (forall m, NumberOfDays rp = Some m -> 1 < m)).
Proof.
  unfold parseRetentionPeriod, Go.Bool, Go.Int64.
  destruct (rawRetentionPeriod !! "number_of_days") as [[]|] eqn:Hn; simpl;
    try (split; [split; [intros [Hv _]; destruct (Hv _ eq_refl) as [? ?];
                         discriminate
                        | intros [x ?]; discriminate]
                | intros x ?; discriminate]).
  - destruct (rawRetentionPeriod !! "unlimited") as [[]|] eqn:Hu;
      destruct (1 <? int64 n) eqn:Hlt; simpl;
      try (split; [split; [intros [_ Hv]; destruct (Hv _ eq_refl) as [? ?];
                           discriminate
                          | intros [x ?]; discriminate]
                  | intros x ?; discriminate]);
      (split; [split; [intros _; eexists; reflexivity
                      | intros _; split; intros v Hv; try discriminate Hv;
                        injection Hv as <-; by eexists]|]);
      intros rp [= <-]; simpl; (split; [split; congruence|]);
      intros m Hm; try discriminate Hm; injection Hm as <-; lia.
  - destruct (rawRetentionPeriod !! "unlimited") as [[]|] eqn:Hu; simpl;
      try (split; [split; [intros [_ Hv]; destruct (Hv _ eq_refl) as [? ?];
                           discriminate
                          | intros [x ?]; discriminate]
                  | intros x ?; discriminate]);
      (split; [split; [intros _; eexists; reflexivity
                      | intros _; split; intros v Hv; try discriminate Hv;
                        injection Hv as <-; by eexists]|]);
      intros rp [= <-]; simpl; (split; [split; congruence|]);
      intros m Hm; discriminate Hm.
Qed.

(** ** Witnesses and further handler properties *)

Lemma update_keeps_identity_and_rereads_witness :
  index (rd_attrs (st_d renamed)) "name" = VString "telemetry" /\
  returned (storageAndRetention renamed) = Some (None, None) /\
  rd_id (st_d (final (resourceAwsIotAnalyticsChannelUpdate
                        (iot_service (seconds 3)) renamed))) = "telemetry-v1" /\
  (exists before,
     emitted renamed
       (resourceAwsIotAnalyticsChannelUpdate (iot_service (seconds 3)) renamed) =
     before ++ [EvCall (CallUpdate OfChannel
                  {| UpdateChannelInput.ChannelName := Some "telemetry";
                     UpdateChannelInput.ChannelStorage := None;
                     UpdateChannelInput.RetentionPeriod := None |});
                EvCall (CallDescribe OfChannel
                  {| DescribeChannelInput.ChannelName := Some "telemetry-v1" |})]) /\
  st_d (final (resourceAwsIotAnalyticsDatastoreUpdate
                 (iot_service (seconds 100)) renamed)) = st_d renamed.
Proof.
  do 2 (split; [reflexivity|]).
  pose proof (update_keeps_identity_and_rereads
                (iot_service (seconds 3)) OfChannel renamed
                "telemetry" (None, None) eq_refl eq_refl) as (Hid & Hok & _).
  pose proof (update_keeps_identity_and_rereads
                (iot_service (seconds 100)) OfDatastore renamed
                "telemetry" (None, None) eq_refl eq_refl) as (_ & _ & Hfail).
  split; [exact Hid|]. split; [exact (Hok eq_refl)|].
  exact (proj1 (Hfail eq_refl)).
Defined.

Lemma read_describe_error_witness :
  Describe iot_service_forgetful OfChannel
    {| DescribeChannelInput.ChannelName := Some (rd_id (st_d renamed)) |}
    (st_world renamed)
    = ((None, Some "ResourceNotFoundException"), 0) /\
  returned (resourceAwsIotAnalyticsRead iot_service_forgetful OfChannel renamed)
    = Some (Some "ResourceNotFoundException") /\
  st_d (final (resourceAwsIotAnalyticsRead iot_service_forgetful OfChannel renamed))
    = st_d renamed /\
  st_world (final (resourceAwsIotAnalyticsRead iot_service_forgetful OfChannel renamed))
    = 0.
Proof.
  split; [reflexivity|].
  exact (read_describe_error iot_service_forgetful OfChannel renamed
           None "ResourceNotFoundException" 0 eq_refl).
Defined.

Lemma read_nil_panics_witness :
  Describe iot_service_bare OfDatastore
    {| DescribeChannelInput.ChannelName := Some (rd_id (st_d renamed)) |}
    (st_world renamed)
    = ((Some (described_bare
                {| DescribeChannelInput.ChannelName := Some "telemetry-v1" |}),
        None), 0) /\
  (exists s',
     resourceAwsIotAnalyticsRead iot_service_bare OfDatastore renamed
     = Crash NilDereference s') /\
  emitted renamed (resourceAwsIotAnalyticsRead iot_service_bare OfDatastore renamed) =
  [EvCall (CallDescribe OfDatastore
     {| DescribeChannelInput.ChannelName := Some (rd_id (st_d renamed)) |})].
Proof.
  split; [reflexivity|].
  exact (read_nil_panics iot_service_bare OfDatastore renamed _ _ 0
           eq_refl eq_refl (or_introl eq_refl)).
Defined.

Lemma storage_roundtrip_witness :
  (forall c, CustomerManagedS3 customer_storage = Some c ->
             is_Some (Bucket c) /\ is_Some (RoleArn c) /\ KeyPrefix c <> Some "") /\
  (exists m, flattenStorage (Some customer_storage) = Ok (Some m) /\
             parseStorage m = Ok customer_storage) /\
  flattenStorage (Some no_storage) = Ok None.
Proof.
  assert (forall c, CustomerManagedS3 customer_storage = Some c ->
            is_Some (Bucket c) /\ is_Some (RoleArn c) /\ KeyPrefix c <> Some "") as Hc.
  { intros c [= <-]. repeat split; try (eexists; reflexivity). discriminate. }
  split; [exact Hc|]. split.
  - apply (proj1 (storage_roundtrip customer_storage Hc)). left. discriminate.
  - apply (proj2 (storage_roundtrip no_storage
                    (fun c (H : None = Some c) =>
                       match H in _ = y return
                         match y with Some _ => _ | None => True end
                       with eq_refl => I end))).
    split; reflexivity.
Defined.

(** X10. A create or an update whose configuration cannot be turned
    into a request, because ["name"] is not a string or because the
    storage or retention blocks are not of the expected shape, panics
    before anything is done: no call is issued, and the resource data
    and the remote world are as they were. *)
Theorem bad_config_no_call {W E : Type} `{Clock W}
    (conn : iotanalyticsconn W E) (kind : Kind) (s : State W Call) :
  (forall name, index (rd_attrs (st_d s)) "name" <> VString name) \/
  returned (storageAndRetention s) = None ->
  (exists k, resourceAwsIotAnalyticsCreate conn kind s = Crash k s) /\
  (exists k, resourceAwsIotAnalyticsUpdate conn kind s = Crash k s).
Proof.
  intros Hbad.
  pose proof (storageAndRetention_final s) as Hfin.
  unfold resourceAwsIotAnalyticsCreate, resourceAwsIotAnalyticsUpdate.
  unfold Machine.bind, Get, lift.
  destruct (index (rd_attrs (st_d s)) "name") as [| name | | | | | | |] eqn:Hn;
    cbn [as_string]; try (split; by eexists).
  destruct Hbad as [Hbad | Hbad]; [by destruct (Hbad name)|].
  destruct (storageAndRetention s) as [sr s'|k s']; [discriminate Hbad|].
  cbn in Hfin. subst s'. split; by exists k.
Qed.

Lemma bad_config_no_call_witness :
  ((forall name, index (rd_attrs (st_d misnamed)) "name" <> VString name) \/
   returned (storageAndRetention misnamed) = None) /\
  (exists k, resourceAwsIotAnalyticsCreate (iot_service 0) OfChannel misnamed
             = Crash k misnamed) /\
  (exists k, resourceAwsIotAnalyticsUpdate (iot_service 0) OfChannel misnamed
             = Crash k misnamed).
Proof.
  assert ((forall name, index (rd_attrs (st_d misnamed)) "name" <> VString name) \/
          returned (storageAndRetention misnamed) = None) as Hbad.
  { left. intros name. discriminate. }
  split; [exact Hbad|].
  exact (bad_config_no_call (iot_service 0) OfChannel misnamed Hbad).
Defined.

Lemma read_success_witness :
  Describe (iot_service 0) OfChannel
    {| DescribeChannelInput.ChannelName := Some (rd_id (st_d renamed)) |}
    (st_world renamed)
    = ((Some (described
                {| DescribeChannelInput.ChannelName := Some "telemetry-v1" |}),
        None), 0) /\
  returned (resourceAwsIotAnalyticsRead (iot_service 0) OfChannel renamed)
    = Some None /\
  rd_id (st_d (final (resourceAwsIotAnalyticsRead (iot_service 0) OfChannel renamed)))
    = "telemetry-v1" /\
  emitted renamed (resourceAwsIotAnalyticsRead (iot_service 0) OfChannel renamed)
    = [EvCall (CallDescribe OfChannel
         {| DescribeChannelInput.ChannelName := Some "telemetry-v1" |})].
Proof.
  split; [reflexivity|].
  pose proof (read_success (iot_service 0) OfChannel renamed _ _ _ _ 0
                eq_refl eq_refl eq_refl eq_refl) as (Hret & Hid & _ & Hcalls & _).
  split; [exact Hret|]. split; [exact Hid|]. exact Hcalls.
Defined.

(** ** Greengrass: lifecycle *)

Import GreengrassLifecycle.

(** A relabelled handler that issues at most one call does so in the
    caller's log too, and returns what it returned. *)
Lemma relabel_at_most_one_call {W C C' A} (inj : C -> C') (Q : C -> Prop)
    (m : M W C A) (s : State W C') :
  at_most_one_call Q {| st_d := st_d s; st_world := st_world s; st_log := [] |}
    (m {| st_d := st_d s; st_world := st_world s; st_log := [] |}) ->
  returned (relabel inj m s)
    = returned (m {| st_d := st_d s; st_world := st_world s; st_log := [] |}) /\
  at_most_one_call (fun c' => exists c, c' = inj c /\ Q c) s (relabel inj m s).
Proof.
  intros Hm. unfold relabel.
  destruct (m {| st_d := st_d s; st_world := st_world s; st_log := [] |})
    as [a s'|k s']; (split; [reflexivity|]);
    destruct Hm as [Hm | (c & w' & Hc & Hm)]; cbn [final] in Hm |- *; subst s';
    cbn [st_d st_world st_log map relabel_event app].
  - left. rewrite app_nil_r. by destruct s.
  - right. exists (inj c), w'. split; [by exists c | reflexivity].
  - left. rewrite app_nil_r. by destruct s.
  - right. exists (inj c), w'. split; [by exists c | reflexivity].
Qed.

Section LifecycleFacts.
Context {W E : Type}.
Variable environ : gmap string string.
Variable conn : client W E.
Variable HasChange : string -> bool.

(** What a read does to the remote service, and that it keeps the
    identity: one [GetGroup] for the current identity, followed by one
    [GetGroupVersion] exactly when the group was reported with a latest
    version. *)
Lemma group_read_run (s : State W Call) :
  let id := rd_id (st_d s) in
  let r := resourceAwsGreengrassGroupRead conn s in
  rd_id (st_d (final r)) = id /\
  st_log (final r) =
  st_log s ++
  EvCall (CallGetGroup {| GetGroupInput.GroupId := Some id |}) ::
  match GetGroup conn {| GetGroupInput.GroupId := Some id |} (st_world s) with
  | ((Some o, None), _) =>
      match GetGroupOutput.LatestVersion o with
      | Some v =>
          [EvCall (CallGetGroupVersion
             {| GetGroupVersionInput.GroupId := Some id;
                GetGroupVersionInput.GroupVersionId := Some v |})]
      | None => []
      end
  | _ => []
  end.
Proof.
  unfold resourceAwsGreengrassGroupRead, readGroupVersion, SetMaps.
  unfold Machine.bind, Machine.Id, invoke, lift, Set_, ret. unfold Go.String.
  cbn [st_d st_world st_log rd_id rd_attrs].
  destruct (GetGroup conn _ (st_world s)) as [[[o|] [e|]] w1]; cbn; try done.
  destruct (GetGroupOutput.LatestVersion o) as [v|]; cbn; [|done].
  destruct (GetGroupVersion conn _ w1) as [[[gv|] [e|]] w2]; cbn;
    rewrite <- ?app_assoc; try done.
  destruct (GetGroupVersionOutput.Definition_ gv); cbn; by rewrite <- ?app_assoc.
Qed.

Lemma logger_read_run (s : State W Call) :
  let id := rd_id (st_d s) in
  let r := resourceAwsGreengrassLoggerDefinitionRead conn s in
  rd_id (st_d (final r)) = id /\
  st_log (final r) =
  st_log s ++
  EvCall (CallGetLoggerDefinition
            {| GetLoggerDefinitionInput.LoggerDefinitionId := Some id |}) ::
  match GetLoggerDefinition conn
          {| GetLoggerDefinitionInput.LoggerDefinitionId := Some id |} (st_world s)
  with
  | ((Some o, None), _) =>
      match GetLoggerDefinitionOutput.LatestVersion o with
      | Some v =>
          [EvCall (CallGetLoggerDefinitionVersion
             {| GetLoggerDefinitionVersionInput.LoggerDefinitionId := Some id;
                GetLoggerDefinitionVersionInput.LoggerDefinitionVersionId := Some v |})]
      | None => []
      end
  | _ => []
  end.
Proof.
  unfold resourceAwsGreengrassLoggerDefinitionRead, setLoggerDefinitionVersion, SetMaps.
  unfold Machine.bind, Machine.Id, invoke, lift, Set_, ret. unfold Go.String.
  cbn [st_d st_world st_log rd_id rd_attrs].
  destruct (GetLoggerDefinition conn _ (st_world s)) as [[[o|] [e|]] w1]; cbn;
    try done.
  destruct (GetLoggerDefinitionOutput.LatestVersion o) as [v|]; cbn; [|done].
  destruct (GetLoggerDefinitionVersion conn _ w1) as [[[gv|] [e|]] w2]; cbn;
    rewrite <- ?app_assoc; try done.
  destruct (GetLoggerDefinitionVersionOutput.Arn gv); cbn;
    rewrite <- ?app_assoc; try done.
  destruct (GetLoggerDefinitionVersionOutput.Definition_ gv) as [def|]; cbn;
    rewrite <- ?app_assoc; try done.
  destruct (flattenLoggers (LoggerDefinitionVersion.Loggers def) []); cbn;
    by rewrite <- ?app_assoc.
Qed.

End LifecycleFacts.

(** X11. A group delete reports success whatever [DeleteGroup]
    answers: the error of the call is dropped.  A logger-definition
    delete returns the error of [DeleteLoggerDefinition].  Each issues
    its one call, the group delete for the ["group_id"] attribute and
    the logger-definition delete for the identity, and leaves the
    resource data as it was. *)
Theorem greengrass_deletes {W E : Type}
    (conn : client W E) (s : State W Call) :
  (forall groupId,
     index (rd_attrs (st_d s)) "group_id" = VString groupId ->
     let params := {| DeleteGroupInput.GroupId := Some groupId |} in
     let r := resourceAwsGreengrassGroupDelete conn s in
     returned r = Some None /\
     emitted s r = [EvCall (CallDeleteGroup params)] /\
     st_d (final r) = st_d s /\
     st_world (final r) = snd (DeleteGroup conn params (st_world s))) /\
  (let params :=
     {| DeleteLoggerDefinitionInput.LoggerDefinitionId := Some (rd_id (st_d s)) |} in
   let r := resourceAwsGreengrassLoggerDefinitionDelete conn s in
   returned r = Some (fst (DeleteLoggerDefinition conn params (st_world s))) /\
   emitted s r = [EvCall (CallDeleteLoggerDefinition params)] /\
   st_d (final r) = st_d s /\
   st_world (final r) = snd (DeleteLoggerDefinition conn params (st_world s))).
Proof.
  split.
  - intros groupId Hg params r. subst r.
    unfold resourceAwsGreengrassGroupDelete, Machine.bind, Get, lift, invoke, ret,
      emitted.
    rewrite Hg. cbn [as_string]. unfold Go.String. fold params.
    destruct (DeleteGroup conn params (st_world s)) as [[e|] w'];
      cbn [final st_log returned st_d st_world fst snd];
      by rewrite drop_app_length.
  - intros params r. subst r.
    unfold resourceAwsGreengrassLoggerDefinitionDelete, Machine.bind, Machine.Id,
      invoke, ret, emitted.
    unfold Go.String. fold params.
    destruct (DeleteLoggerDefinition conn params (st_world s)) as [[e|] w'];
      cbn [final st_log returned st_d st_world fst snd];
      by rewrite drop_app_length.
Qed.

Lemma greengrass_deletes_witness :
  index (rd_attrs (st_d edge)) "group_id" = VString "g-0" /\
  fst (DeleteGroup greengrass_refusing
         {| DeleteGroupInput.GroupId := Some "g-0" |} (st_world edge))
    = Some "AccessDenied" /\
  returned (resourceAwsGreengrassGroupDelete greengrass_refusing edge) = Some None /\
  returned (resourceAwsGreengrassLoggerDefinitionDelete greengrass_refusing edge)
    = Some (Some "AccessDenied").
Proof.
  do 2 (split; [reflexivity|]).
  pose proof (greengrass_deletes greengrass_refusing edge) as [Hg Hl].
  split; [exact (proj1 (Hg "g-0" eq_refl)) | exact (proj1 Hl)].
Defined.

Lemma emitted_app {W C A} (s : State W C) (r : Res W C A) (l : list (Event C)) :
  st_log (final r) = st_log s ++ l -> emitted s r = l.
Proof. intros Hl. unfold emitted. rewrite Hl. apply drop_app_length. Qed.

Lemma at_most_one_call_st_d {W C A} (Q : C -> Prop) (s : State W C) (r : Res W C A) :
  at_most_one_call Q s r -> st_d (final r) = st_d s.
Proof. by intros [-> | (c & w' & _ & ->)]. Qed.

Lemma at_most_one_call_log {W C A} (Q : C -> Prop) (s : State W C) (r : Res W C A) :
  at_most_one_call Q s r ->
  st_log (final r) = st_log s \/
  exists c, Q c /\ st_log (final r) = st_log s ++ [EvCall c].
Proof.
  intros [-> | (c & w' & Hc & ->)]; [by left|]. right. by exists c.
Qed.

(** X12. When the first call of a create, [CreateGroup] or
    [CreateLoggerDefinition], fails, the create returns its error
    having done nothing else: it is the only call, and the resource
    data, the identity with it, is as it was. *)
Theorem greengrass_create_refused {W E : Type}
    (environ : gmap string string) (conn : client W E) (s : State W Call)
    (name : string) :
  index (rd_attrs (st_d s)) "name" = VString name ->
  (forall out e w1,
     CreateGroup conn {| CreateGroupInput.Name := Some name |} (st_world s)
       = ((out, Some e), w1) ->
     let r := resourceAwsGreengrassGroupCreate environ conn s in
     returned r = Some (Some e) /\
     emitted s r = [EvCall (CallCreateGroup {| CreateGroupInput.Name := Some name |})] /\
     st_d (final r) = st_d s) /\
  (forall out e w1,
     CreateLoggerDefinition conn {| CreateLoggerDefinitionInput.Name := Some name |}
       (st_world s) = ((out, Some e), w1) ->
     let r := resourceAwsGreengrassLoggerDefinitionCreate environ conn s in
     returned r = Some (Some e) /\
     emitted s r =
       [EvCall (CallCreateLoggerDefinition
                  {| CreateLoggerDefinitionInput.Name := Some name |})] /\
     st_d (final r) = st_d s).
Proof.
  intros Hname. split; intros out e w1 Hc r; subst r.
  - unfold resourceAwsGreengrassGroupCreate, Machine.bind, Get, lift, invoke, ret,
      emitted.
    rewrite Hname. cbn [as_string]. unfold Go.String. rewrite Hc.
    cbn [final st_log returned st_d]. by rewrite drop_app_length.
  - unfold resourceAwsGreengrassLoggerDefinitionCreate, Machine.bind, Get, lift,
      invoke, ret, emitted.
    rewrite Hname. cbn [as_string]. unfold Go.String. rewrite Hc.
    cbn [final st_log returned st_d]. by rewrite drop_app_length.
Qed.

Lemma greengrass_create_refused_witness :
  index (rd_attrs (st_d edge)) "name" = VString "edge" /\
  CreateGroup greengrass_refusing {| CreateGroupInput.Name := Some "edge" |}
    (st_world edge) = ((None, Some "AccessDenied"), 0) /\
  returned (resourceAwsGreengrassGroupCreate token_environ greengrass_refusing edge)
    = Some (Some "AccessDenied") /\
  st_d (final (resourceAwsGreengrassLoggerDefinitionCreate
                 token_environ greengrass_refusing edge)) = st_d edge.
Proof.
  do 2 (split; [reflexivity|]).
  pose proof (greengrass_create_refused token_environ greengrass_refusing edge
                "edge" eq_refl) as [Hg Hl].
  split.
  - exact (proj1 (Hg None "AccessDenied" 0 eq_refl)).
  - exact (proj2 (proj2 (Hl None "AccessDenied" 0 eq_refl))).
Defined.

(** X13. Once [CreateGroup], or [CreateLoggerDefinition], has
    answered with an id, the identity is that id however the create
    ends.  When the version creation that follows returns an error, the
    create returns that error and does not read the resource back; when
    it returns nil, the read that follows asks for the resource of the
    new id. *)
Theorem greengrass_create_identity {W E : Type}
    (environ : gmap string string) (conn : client W E) (s : State W Call)
    (name id : string) (w1 : W) :
  index (rd_attrs (st_d s)) "name" = VString name ->
  let created : State W Greengrass.Call :=
    {| st_d := {| rd_id := id; rd_attrs := rd_attrs (st_d s);
                  rd_schema := rd_schema (st_d s) |};
       st_world := w1;
       st_log := [] |} in
  (forall o,
     CreateGroup conn {| CreateGroupInput.Name := Some name |} (st_world s)
       = ((Some o, None), w1) ->
     CreateGroupOutput.Id o = Some id ->
     let v := returned (Greengrass.createGroupVersion environ (versions conn) created) in
     let r := resourceAwsGreengrassGroupCreate environ conn s in
     rd_id (st_d (final r)) = id /\
     (forall e, v = Some (Some e) ->
        returned r = Some (Some e) /\
        forall i p, emitted s r !! i <> Some (EvCall (CallGetGroup p))) /\
     (v = Some None ->
        exists before after,
          emitted s r =
          before ++
          EvCall (CallGetGroup {| GetGroupInput.GroupId := Some id |}) :: after)) /\
  (forall o,
     CreateLoggerDefinition conn {| CreateLoggerDefinitionInput.Name := Some name |}
       (st_world s) = ((Some o, None), w1) ->
     CreateLoggerDefinitionOutput.Id o = Some id ->
     let v := returned (Greengrass.createLoggerDefinitionVersion
                          environ (versions conn) created) in
     let r := resourceAwsGreengrassLoggerDefinitionCreate environ conn s in
     rd_id (st_d (final r)) = id /\
     (forall e, v = Some (Some e) ->
        returned r = Some (Some e) /\
        forall i p, emitted s r !! i <> Some (EvCall (CallGetLoggerDefinition p))) /\
     (v = Some None ->
        exists before after,
          emitted s r =
          before ++
          EvCall (CallGetLoggerDefinition
                    {| GetLoggerDefinitionInput.LoggerDefinitionId := Some id |})
            :: after)).
Proof.
  intros Hname created. split; intros o Hc Hid v r.
  - set (s2 := {| st_d := {| rd_id := id; rd_attrs := rd_attrs (st_d s);
                             rd_schema := rd_schema (st_d s) |};
                  st_world := w1;
                  st_log := st_log s ++
                    [EvCall (CallCreateGroup {| CreateGroupInput.Name := Some name |})] |}
               : State W Call).
    assert (r = match relabel CallVersion
                        (Greengrass.createGroupVersion environ (versions conn)) s2 with
                | Ret (Some e) s3 => Ret (Some e) s3
                | Ret None s3 => resourceAwsGreengrassGroupRead conn s3
                | Crash k s3 => Crash k s3
                end) as Hr.
    { subst r. unfold resourceAwsGreengrassGroupCreate.
      unfold Machine.bind, Get, lift, invoke, SetId, ret.
      rewrite Hname. cbn [as_string]. unfold Go.String. rewrite Hc.
      cbn [deref]. rewrite Hid. cbn [deref st_d st_world st_log rd_attrs].
      fold s2.
      by destruct (relabel CallVersion _ s2) as [[e|] s3|k s3]. }
    destruct (relabel_at_most_one_call CallVersion _
                (Greengrass.createGroupVersion environ (versions conn)) s2
                (createGroupVersion_run environ (versions conn) _)) as [Hret Hone].
    change (returned (relabel CallVersion
                        (Greengrass.createGroupVersion environ (versions conn)) s2) = v)
      in Hret.
    pose proof (at_most_one_call_st_d _ _ _ Hone) as Hd.
    pose proof (at_most_one_call_log _ _ _ Hone) as Hlog.
    destruct (relabel CallVersion _ s2) as [[e|] s3|k s3];
      cbn [final returned] in Hret, Hd, Hlog.
    + rewrite Hr. cbn [final returned]. split; [by rewrite Hd|]. split.
      * intros e' He'. rewrite <- Hret in He'. injection He' as <-.
        split; [reflexivity|]. intros i p.
        destruct Hlog as [Hlog | (c & (c0 & -> & _) & Hlog)];
          unfold emitted; cbn [final]; rewrite Hlog; cbn [s2 st_log];
          rewrite <- ?app_assoc, drop_app_length; cbn [app];
          do 2 (destruct i as [|i]; [discriminate|]); discriminate.
      * intros Hv. rewrite <- Hret in Hv. discriminate Hv.
    + destruct (group_read_run conn s3) as [Hrid Hrlog].
      rewrite <- Hr in Hrid, Hrlog. split; [by rewrite Hrid, Hd|]. split.
      * intros e He. rewrite <- Hret in He. discriminate He.
      * intros _. rewrite Hd in Hrlog. cbn [s2 st_d rd_id] in Hrlog.
        destruct Hlog as [Hlog | (c & _ & Hlog)]; rewrite Hlog in Hrlog;
          cbn [s2 st_log] in Hrlog; rewrite <- !app_assoc in Hrlog;
          rewrite (emitted_app s _ _ Hrlog); cbn [app].
        -- by eexists [_], _.
        -- by eexists [_; _], _.
    + rewrite Hr. cbn [final returned]. split; [by rewrite Hd|]. split.
      * intros e He. rewrite <- Hret in He. discriminate He.
      * intros Hv. rewrite <- Hret in Hv. discriminate Hv.
  - set (s2 := {| st_d := {| rd_id := id; rd_attrs := rd_attrs (st_d s);
                             rd_schema := rd_schema (st_d s) |};
                  st_world := w1;
                  st_log := st_log s ++
                    [EvCall (CallCreateLoggerDefinition
                               {| CreateLoggerDefinitionInput.Name := Some name |})] |}
               : State W Call).
    assert (r = match relabel CallVersion
                        (Greengrass.createLoggerDefinitionVersion
                           environ (versions conn)) s2 with
                | Ret (Some e) s3 => Ret (Some e) s3
                | Ret None s3 => resourceAwsGreengrassLoggerDefinitionRead conn s3
                | Crash k s3 => Crash k s3
                end) as Hr.
    { subst r. unfold resourceAwsGreengrassLoggerDefinitionCreate.
      unfold Machine.bind, Get, lift, invoke, SetId, ret.
      rewrite Hname. cbn [as_string]. unfold Go.String. rewrite Hc.
      cbn [deref]. rewrite Hid. cbn [deref st_d st_world st_log rd_attrs].
      fold s2.
      by destruct (relabel CallVersion _ s2) as [[e|] s3|k s3]. }
    destruct (relabel_at_most_one_call CallVersion _
                (Greengrass.createLoggerDefinitionVersion environ (versions conn)) s2
                (createLoggerDefinitionVersion_run environ (versions conn) _))
      as [Hret Hone].
    change (returned (relabel CallVersion
                        (Greengrass.createLoggerDefinitionVersion
                           environ (versions conn)) s2) = v) in Hret.
    pose proof (at_most_one_call_st_d _ _ _ Hone) as Hd.
    pose proof (at_most_one_call_log _ _ _ Hone) as Hlog.
    destruct (relabel CallVersion _ s2) as [[e|] s3|k s3];
      cbn [final returned] in Hret, Hd, Hlog.
    + rewrite Hr. cbn [final returned]. split; [by rewrite Hd|]. split.
      * intros e' He'. rewrite <- Hret in He'. injection He' as <-.
        split; [reflexivity|]. intros i p.
        destruct Hlog as [Hlog | (c & (c0 & -> & _) & Hlog)];
          unfold emitted; cbn [final]; rewrite Hlog; cbn [s2 st_log];
          rewrite <- ?app_assoc, drop_app_length; cbn [app];
          do 2 (destruct i as [|i]; [discriminate|]); discriminate.
      * intros Hv. rewrite <- Hret in Hv. discriminate Hv.
    + destruct (logger_read_run conn s3) as [Hrid Hrlog].
      rewrite <- Hr in Hrid, Hrlog. split; [by rewrite Hrid, Hd|]. split.
      * intros e He. rewrite <- Hret in He. discriminate He.
      * intros _. rewrite Hd in Hrlog. cbn [s2 st_d rd_id] in Hrlog.
        destruct Hlog as [Hlog | (c & _ & Hlog)]; rewrite Hlog in Hrlog;
          cbn [s2 st_log] in Hrlog; rewrite <- !app_assoc in Hrlog;
          rewrite (emitted_app s _ _ Hrlog); cbn [app].
        -- by eexists [_], _.
        -- by eexists [_; _], _.
    + rewrite Hr. cbn [final returned]. split; [by rewrite Hd|]. split.
      * intros e He. rewrite <- Hret in He. discriminate He.
      * intros Hv. rewrite <- Hret in Hv. discriminate Hv.
Qed.

Lemma greengrass_create_identity_witness :
  index (rd_attrs (st_d edge)) "name" = VString "edge" /\
  CreateGroup (greengrass_client greengrass_versions_refused)
    {| CreateGroupInput.Name := Some "edge" |} (st_world edge)
    = ((Some {| CreateGroupOutput.Id := Some "g-1" |}, None), 0) /\
  rd_id (st_d (final (resourceAwsGreengrassGroupCreate token_environ
                        (greengrass_client greengrass_versions_refused) edge)))
    = "g-1" /\
  returned (resourceAwsGreengrassGroupCreate token_environ
              (greengrass_client greengrass_versions_refused) edge)
    = Some (Some "BadRequest") /\
  (exists before after,
     emitted edge
       (resourceAwsGreengrassLoggerDefinitionCreate token_environ
          (greengrass_client greengrass_service) edge) =
     before ++
     EvCall (CallGetLoggerDefinition
               {| GetLoggerDefinitionInput.LoggerDefinitionId := Some "g-1" |})
       :: after).
Proof.
  do 2 (split; [reflexivity|]).
  pose proof (greengrass_create_identity token_environ
                (greengrass_client greengrass_versions_refused) edge
                "edge" "g-1" 0 eq_refl) as [Hg _].
  pose proof (greengrass_create_identity token_environ
                (greengrass_client greengrass_service) edge
                "edge" "g-1" 0 eq_refl) as [_ Hl].
  destruct (Hg _ eq_refl eq_refl) as (Hid & Hfail & _).
  destruct (Hl _ eq_refl eq_refl) as (_ & _ & Hok).
  split; [exact Hid|]. split; [exact (proj1 (Hfail "BadRequest" eq_refl))|].
  exact (Hok eq_refl).
Defined.

(** The calls of a group create with a version block, when all goes
    well. *)
Example group_create_run :
  emitted edge
    (resourceAwsGreengrassGroupCreate token_environ
       (greengrass_client greengrass_service) edge) =
  [EvCall (CallCreateGroup {| CreateGroupInput.Name := Some "edge" |});
   EvCall (CallVersion (Greengrass.CallCreateGroupVersion
     {| Greengrass.CreateGroupVersionInput.AmznClientToken := Some "token-1";
        Greengrass.CreateGroupVersionInput.GroupId := Some "g-1";
        Greengrass.CreateGroupVersionInput.ConnectorDefinitionVersionArn := None;
        Greengrass.CreateGroupVersionInput.CoreDefinitionVersionArn := Some "arn:core:1";
        Greengrass.CreateGroupVersionInput.DeviceDefinitionVersionArn := None;
        Greengrass.CreateGroupVersionInput.FunctionDefinitionVersionArn := None;
        Greengrass.CreateGroupVersionInput.LoggerDefinitionVersionArn := None;
        Greengrass.CreateGroupVersionInput.ResourceDefinitionVersionArn := None;
        Greengrass.CreateGroupVersionInput.SubscriptionDefinitionVersionArn := None |}));
   EvCall (CallGetGroup {| GetGroupInput.GroupId := Some "g-1" |})].
Proof. reflexivity. Qed.

(** X14. An update of a group or of a logger definition never changes
    the identity.  When its first call, [UpdateGroup] or
    [UpdateLoggerDefinition], fails, it returns that error having
    issued no other call; and when the plan reports no change of the
    version block, it creates no version. *)
Theorem greengrass_update {W E : Type}
    (environ : gmap string string) (conn : client W E) (HasChange : string -> bool)
    (s : State W Call) (name : string) :
  index (rd_attrs (st_d s)) "name" = VString name ->
  (forall groupId,
     index (rd_attrs (st_d s)) "group_id" = VString groupId ->
     let params :=
       {| UpdateGroupInput.Name := Some name;
          UpdateGroupInput.GroupId := Some groupId |} in
     let r := resourceAwsGreengrassGroupUpdate environ conn HasChange s in
     rd_id (st_d (final r)) = rd_id (st_d s) /\
     (forall e w1,
        UpdateGroup conn params (st_world s) = (Some e, w1) ->
        returned r = Some (Some e) /\
        emitted s r = [EvCall (CallUpdateGroup params)] /\
        st_d (final r) = st_d s) /\
     (HasChange "group_version" = false ->
      forall i c, emitted s r !! i <> Some (EvCall (CallVersion c)))) /\
  (let params :=
     {| UpdateLoggerDefinitionInput.Name := Some name;
        UpdateLoggerDefinitionInput.LoggerDefinitionId := Some (rd_id (st_d s)) |} in
   let r := resourceAwsGreengrassLoggerDefinitionUpdate environ conn HasChange s in
   rd_id (st_d (final r)) = rd_id (st_d s) /\
   (forall e w1,
      UpdateLoggerDefinition conn params (st_world s) = (Some e, w1) ->
      returned r = Some (Some e) /\
      emitted s r = [EvCall (CallUpdateLoggerDefinition params)] /\
      st_d (final r) = st_d s) /\
   (HasChange "logger_definition_version" = false ->
    forall i c, emitted s r !! i <> Some (EvCall (CallVersion c)))).
Proof.
  intros Hname. split.
  - intros groupId Hgid params r.
    set (s2 w1 := {| st_d := st_d s; st_world := w1;
                     st_log := st_log s ++ [EvCall (CallUpdateGroup params)] |}
                  : State W Call).
    assert (r = match UpdateGroup conn params (st_world s) with
                | (Some e, w1) => Ret (Some e) (s2 w1)
                | (None, w1) =>
                    if HasChange "group_version"
                    then match relabel CallVersion
                                 (Greengrass.createGroupVersion environ (versions conn))
                                 (s2 w1) with
                         | Ret (Some e) s3 => Ret (Some e) s3
                         | Ret None s3 => resourceAwsGreengrassGroupRead conn s3
                         | Crash k s3 => Crash k s3
                         end
                    else resourceAwsGreengrassGroupRead conn (s2 w1)
                end) as Hr.
    { subst r. unfold resourceAwsGreengrassGroupUpdate.
      unfold Machine.bind, Get, lift, invoke, ret.
      rewrite Hname. cbn [as_string]. rewrite Hgid. cbn [as_string].
      unfold Go.String. fold params.
      destruct (UpdateGroup conn params (st_world s)) as [[e|] w1]; [reflexivity|].
      fold (s2 w1). destruct (HasChange "group_version"); [|reflexivity].
      by destruct (relabel CallVersion _ (s2 w1)) as [[e|] s3|k s3]. }
    destruct (UpdateGroup conn params (st_world s)) as [[e|] w1] eqn:Hu.
    { rewrite Hr. cbn [final returned st_d s2]. split; [reflexivity|]. split.
      - intros e' w1' [= <- <-]. split; [reflexivity|]. split; [|reflexivity].
        by apply emitted_app.
      - intros _ i c. unfold emitted. cbn [final s2 st_log].
        rewrite drop_app_length. destruct i as [|i]; discriminate. }
    destruct (group_read_run conn (s2 w1)) as [Hrid Hrlog].
    destruct (relabel_at_most_one_call CallVersion _
                (Greengrass.createGroupVersion environ (versions conn)) (s2 w1)
                (createGroupVersion_run environ (versions conn) _)) as [_ Hone].
    pose proof (at_most_one_call_st_d _ _ _ Hone) as Hd.
    destruct (HasChange "group_version").
    + split; [|split; [intros ? ? [=] | discriminate]].
      destruct (relabel CallVersion _ (s2 w1)) as [[e|] s3|k s3];
        cbn [final] in Hd; rewrite Hr; cbn [final]; try by rewrite Hd.
      destruct (group_read_run conn s3) as [-> _]. by rewrite Hd.
    + rewrite Hr. split; [exact Hrid|]. split; [intros ? ? [=]|].
      intros _ i c. cbn [s2 st_log] in Hrlog. rewrite <- app_assoc in Hrlog.
      rewrite (emitted_app s _ _ Hrlog). cbn [app].
      destruct i as [|[|i]]; [discriminate | |].
      * by destruct (GetGroup conn _ _) as [[[o|] [e|]] ?];
          try destruct (GetGroupOutput.LatestVersion o).
      * destruct (GetGroup conn _ _) as [[[o|] [e|]] ?];
          try destruct (GetGroupOutput.LatestVersion o); try discriminate;
          destruct i; discriminate.
  - intros params r.
    set (s2 w1 := {| st_d := st_d s; st_world := w1;
                     st_log := st_log s ++ [EvCall (CallUpdateLoggerDefinition params)] |}
                  : State W Call).
    assert (r = match UpdateLoggerDefinition conn params (st_world s) with
                | (Some e, w1) => Ret (Some e) (s2 w1)
                | (None, w1) =>
                    if HasChange "logger_definition_version"
                    then match relabel CallVersion
                                 (Greengrass.createLoggerDefinitionVersion
                                    environ (versions conn))
                                 (s2 w1) with
                         | Ret (Some e) s3 => Ret (Some e) s3
                         | Ret None s3 =>
                             resourceAwsGreengrassLoggerDefinitionRead conn s3
                         | Crash k s3 => Crash k s3
                         end
                    else resourceAwsGreengrassLoggerDefinitionRead conn (s2 w1)
                end) as Hr.
    { subst r. unfold resourceAwsGreengrassLoggerDefinitionUpdate.
      unfold Machine.bind, Get, Machine.Id, lift, invoke, ret.
      rewrite Hname. cbn [as_string]. unfold Go.String. fold params.
      destruct (UpdateLoggerDefinition conn params (st_world s)) as [[e|] w1];
        [reflexivity|].
      fold (s2 w1). destruct (HasChange "logger_definition_version"); [|reflexivity].
      by destruct (relabel CallVersion _ (s2 w1)) as [[e|] s3|k s3]. }
    destruct (UpdateLoggerDefinition conn params (st_world s)) as [[e|] w1] eqn:Hu.
    { rewrite Hr. cbn [final returned st_d s2]. split; [reflexivity|]. split.
      - intros e' w1' [= <- <-]. split; [reflexivity|]. split; [|reflexivity].
        by apply emitted_app.
      - intros _ i c. unfold emitted. cbn [final s2 st_log].
        rewrite drop_app_length. destruct i as [|i]; discriminate. }
    destruct (logger_read_run conn (s2 w1)) as [Hrid Hrlog].
    destruct (relabel_at_most_one_call CallVersion _
                (Greengrass.createLoggerDefinitionVersion environ (versions conn))
                (s2 w1)
                (createLoggerDefinitionVersion_run environ (versions conn) _))
      as [_ Hone].
    pose proof (at_most_one_call_st_d _ _ _ Hone) as Hd.
    destruct (HasChange "logger_definition_version").
    + split; [|split; [intros ? ? [=] | discriminate]].
      destruct (relabel CallVersion _ (s2 w1)) as [[e|] s3|k s3];
        cbn [final] in Hd; rewrite Hr; cbn [final]; try by rewrite Hd.
      destruct (logger_read_run conn s3) as [-> _]. by rewrite Hd.
    + rewrite Hr. split; [exact Hrid|]. split; [intros ? ? [=]|].
      intros _ i c. cbn [s2 st_log] in Hrlog. rewrite <- app_assoc in Hrlog.
      rewrite (emitted_app s _ _ Hrlog). cbn [app].
      destruct i as [|[|i]]; [discriminate | |].
      * by destruct (GetLoggerDefinition conn _ _) as [[[o|] [e|]] ?];
          try destruct (GetLoggerDefinitionOutput.LatestVersion o).
      * destruct (GetLoggerDefinition conn _ _) as [[[o|] [e|]] ?];
          try destruct (GetLoggerDefinitionOutput.LatestVersion o); try discriminate;
          destruct i; discriminate.
Qed.

Lemma greengrass_update_witness :
  index (rd_attrs (st_d edge)) "name" = VString "edge" /\
  index (rd_attrs (st_d edge)) "group_id" = VString "g-0" /\
  UpdateGroup greengrass_refusing
    {| UpdateGroupInput.Name := Some "edge"; UpdateGroupInput.GroupId := Some "g-0" |}
    (st_world edge) = (Some "AccessDenied", 0) /\
  returned (resourceAwsGreengrassGroupUpdate token_environ greengrass_refusing
              (fun _ => true) edge) = Some (Some "AccessDenied") /\
  (forall i c,
     emitted edge
       (resourceAwsGreengrassLoggerDefinitionUpdate token_environ
          (greengrass_client greengrass_service) (fun _ => false) edge) !! i
     <> Some (EvCall (CallVersion c))).
Proof.
  do 3 (split; [reflexivity|]).
  pose proof (greengrass_update token_environ greengrass_refusing (fun _ => true)
                edge "edge" eq_refl) as [Hg _].
  pose proof (greengrass_update token_environ (greengrass_client greengrass_service)
                (fun _ => false) edge "edge" eq_refl) as [_ Hl].
  destruct (Hg "g-0" eq_refl) as (_ & Hfail & _).
  destruct Hl as (_ & _ & Hno).
  split; [exact (proj1 (Hfail "AccessDenied" 0 eq_refl)) | exact (Hno eq_refl)].
Defined.

(** X15. A read of a group or of a logger definition keeps the
    identity and asks the service for the resource of that identity;
    it asks for a version, the latest one, exactly when the resource
    was reported with one.  When the first call fails, its error is
    returned and no attribute is written. *)
Theorem greengrass_read {W E : Type} (conn : client W E) (s : State W Call) :
  let id := rd_id (st_d s) in
  (let r := resourceAwsGreengrassGroupRead conn s in
   let get := {| GetGroupInput.GroupId := Some id |} in
   rd_id (st_d (final r)) = id /\
   emitted s r =
     EvCall (CallGetGroup get) ::
     match GetGroup conn get (st_world s) with
     | ((Some o, None), _) =>
         match GetGroupOutput.LatestVersion o with
         | Some v =>
             [EvCall (CallGetGroupVersion
                {| GetGroupVersionInput.GroupId := Some id;
                   GetGroupVersionInput.GroupVersionId := Some v |})]
         | None => []
         end
     | _ => []
     end /\
   (forall out e w1,
      GetGroup conn get (st_world s) = ((out, Some e), w1) ->
      returned r = Some (Some e) /\ st_d (final r) = st_d s)) /\
  (let r := resourceAwsGreengrassLoggerDefinitionRead conn s in
   let get := {| GetLoggerDefinitionInput.LoggerDefinitionId := Some id |} in
   rd_id (st_d (final r)) = id /\
   emitted s r =
     EvCall (CallGetLoggerDefinition get) ::
     match GetLoggerDefinition conn get (st_world s) with
     | ((Some o, None), _) =>
         match GetLoggerDefinitionOutput.LatestVersion o with
         | Some v =>
             [EvCall (CallGetLoggerDefinitionVersion
                {| GetLoggerDefinitionVersionInput.LoggerDefinitionId := Some id;
                   GetLoggerDefinitionVersionInput.LoggerDefinitionVersionId :=
                     Some v |})]
         | None => []
         end
     | _ => []
     end /\
   (forall out e w1,
      GetLoggerDefinition conn get (st_world s) = ((out, Some e), w1) ->
      returned r = Some (Some e) /\ st_d (final r) = st_d s)).
Proof.
  intros id. split.
  - intros r get. destruct (group_read_run conn s) as [Hid Hlog].
    split; [exact Hid|]. split; [by apply emitted_app|].
    intros out e w1 Hg. subst r.
    unfold resourceAwsGreengrassGroupRead, Machine.bind, Machine.Id, invoke, ret.
    unfold Go.String. fold id. fold get. by rewrite Hg.
  - intros r get. destruct (logger_read_run conn s) as [Hid Hlog].
    split; [exact Hid|]. split; [by apply emitted_app|].
    intros out e w1 Hg. subst r.
    unfold resourceAwsGreengrassLoggerDefinitionRead, Machine.bind, Machine.Id,
      invoke, ret.
    unfold Go.String. fold id. fold get. by rewrite Hg.
Qed.

(** ** Greengrass: what a version request carries *)

Lemma castLoggers_acc (l : list value) (acc : list Greengrass.Logger.t) :
  Greengrass.castLoggers l acc =
  match Greengrass.castLoggers l [] with
  | Ok ls => Ok (acc ++ ls)
  | Panic k => Panic k
  end.
Proof.
  revert acc. induction l as [|x l IH]; intros acc; cbn.
  - by rewrite app_nil_r.
  - destruct (Greengrass.castLogger x) as [y|k]; cbn; [|reflexivity].
    rewrite (IH (acc ++ [y])), (IH [y]).
    destruct (Greengrass.castLoggers l []); [|reflexivity].
    by rewrite <- app_assoc.
Qed.

Lemma castLoggers_Forall2 (l : list value) (ls : list Greengrass.Logger.t) :
  Greengrass.castLoggers l [] = Ok ls <->
  Forall2 (fun x y => Greengrass.castLogger x = Ok y) l ls.
Proof.
  revert ls. induction l as [|x l IH]; intros ls; cbn [Greengrass.castLoggers].
  - split; [intros [= <-]; constructor | by intros ->%Forall2_nil_inv_l].
  - destruct (Greengrass.castLogger x) as [y|k] eqn:Hx; cbn [Go.bind app].
    + rewrite castLoggers_acc. split.
      * destruct (Greengrass.castLoggers l []) as [ls'|k] eqn:Hl; [|done].
        intros [= <-]. constructor; [done|]. by apply IH.
      * intros (y' & ls' & Hx' & Hl & ->)%Forall2_cons_inv_l.
        assert (y' = y) as -> by congruence. apply IH in Hl. by rewrite Hl.
    + split; [done|].
      intros (y' & ls' & Hx' & _)%Forall2_cons_inv_l. congruence.
Qed.

(** X16. With a version block present, [createLoggerDefinitionVersion]
    sends one logger for each configured logger, in the order of the
    set's list, each cast from its map, under the resource's identity;
    it returns what [CreateLoggerDefinitionVersion] answers and leaves
    the resource data as it was.  When one of the loggers cannot be
    cast, it panics without issuing the call. *)
Theorem createLoggerDefinitionVersion_request {W E : Type}
    (environ : gmap string string) (conn : Greengrass.greengrassconn W E)
    (s : State W Greengrass.Call)
    (rawData : gmap string value) (rest l : list value) :
  index (rd_attrs (st_d s)) "logger_definition_version" = VSet (VMap rawData :: rest) ->
  index rawData "logger" = VSet l ->
  let r := Greengrass.createLoggerDefinitionVersion environ conn s in
  (forall loggers,
     Forall2 (fun x y => Greengrass.castLogger x = Ok y) l loggers ->
     let params :=
       {| Greengrass.CreateLoggerDefinitionVersionInput.AmznClientToken :=
            Greengrass.clientToken environ;
          Greengrass.CreateLoggerDefinitionVersionInput.LoggerDefinitionId :=
            Some (rd_id (st_d s));
          Greengrass.CreateLoggerDefinitionVersionInput.Loggers := loggers |} in
     emitted s r = [EvCall (Greengrass.CallCreateLoggerDefinitionVersion params)] /\
     returned r
       = Some (fst (Greengrass.CreateLoggerDefinitionVersion conn params (st_world s))) /\
     st_d (final r) = st_d s) /\
  ((forall loggers, ~ Forall2 (fun x y => Greengrass.castLogger x = Ok y) l loggers) ->
   exists k, r = Crash k s).
Proof.
  intros Hv Hl r. subst r.
  unfold Greengrass.createLoggerDefinitionVersion.
  unfold Machine.bind, Get, Machine.Id, lift, invoke, ret.
  rewrite Hv. cbn [as_set length Nat.eqb at_index lookup list_lookup as_map Go.bind].
  rewrite Hl. cbn [as_set Go.bind]. unfold Go.String.
  destruct (Greengrass.castLoggers l []) as [ls|k] eqn:Hcast.
  - apply castLoggers_Forall2 in Hcast. split.
    + intros loggers Hall.
      assert (loggers = ls) as ->.
      { clear -Hall Hcast. revert loggers Hall.
        induction Hcast as [|x y l ls Hxy _ IH]; intros loggers Hall.
        - by apply Forall2_nil_inv_l in Hall.
        - apply Forall2_cons_inv_l in Hall as (y' & ls' & Hxy' & Hall & ->).
          rewrite Hxy in Hxy'. injection Hxy' as <-. f_equal. by apply IH. }
      destruct (Greengrass.CreateLoggerDefinitionVersion conn _ (st_world s))
        as [[e|] w']; unfold emitted; cbn [final st_log returned st_d fst];
        by rewrite drop_app_length.
    + intros Hnone. by destruct (Hnone ls).
  - split.
    + intros loggers Hall. apply castLoggers_Forall2 in Hall. congruence.
    + intros _. by exists k.
Qed.

Lemma createLoggerDefinitionVersion_request_witness :
  index (rd_attrs (st_d logging)) "logger_definition_version"
    = VSet [VMap logging_version] /\
  index logging_version "logger" = VSet [VMap file_logger] /\
  Forall2 (fun x y => Greengrass.castLogger x = Ok y)
    [VMap file_logger] [file_logger_cast] /\
  emitted logging
    (Greengrass.createLoggerDefinitionVersion token_environ greengrass_service logging)
  = [EvCall (Greengrass.CallCreateLoggerDefinitionVersion
       {| Greengrass.CreateLoggerDefinitionVersionInput.AmznClientToken :=
            Greengrass.clientToken token_environ;
          Greengrass.CreateLoggerDefinitionVersionInput.LoggerDefinitionId :=
            Some "g-0";
          Greengrass.CreateLoggerDefinitionVersionInput.Loggers :=
            [file_logger_cast] |})].
Proof.
  assert (Forall2 (fun x y => Greengrass.castLogger x = Ok y)
            [VMap file_logger] [file_logger_cast]) as Hall.
  { repeat constructor. }
  do 2 (split; [reflexivity|]). split; [exact Hall|].
  exact (proj1 (proj1 (createLoggerDefinitionVersion_request token_environ greengrass_service logging
                         logging_version [] [VMap file_logger] eq_refl eq_refl)
                  [file_logger_cast] Hall)).
Defined.

Lemma arnField_typed (raw : gmap string value) (key : string) (a : option string) :
  raw !! key = VString <$> a -> Greengrass.arnField raw key = Ok a.
Proof. unfold Greengrass.arnField. intros ->. by destruct a. Qed.

(** X17. With a version block present, [createGroupVersion] issues one
    [CreateGroupVersion] call under the resource's identity, in which
    each of the seven definition-version ARNs is set exactly when its
    key is present in the first element of the block; it returns what
    the call answers and leaves the resource data as it was. *)
Theorem createGroupVersion_request {W E : Type}
    (environ : gmap string string) (conn : Greengrass.greengrassconn W E)
    (s : State W Greengrass.Call) (raw : gmap string value) (rest : list value)
    (connector core device function logger resource subscription : option string) :
  index (rd_attrs (st_d s)) "group_version" = VSet (VMap raw :: rest) ->
  raw !! "connector_definition_version_arn" = VString <$> connector ->
  raw !! "core_definition_version_arn" = VString <$> core ->
  raw !! "device_definition_version_arn" = VString <$> device ->
  raw !! "function_definition_version_arn" = VString <$> function ->
  raw !! "logger_definition_version_arn" = VString <$> logger ->
  raw !! "resource_definition_version_arn" = VString <$> resource ->
  raw !! "subscription_definition_version_arn" = VString <$> subscription ->
  let params :=
    {| Greengrass.CreateGroupVersionInput.AmznClientToken :=
         Greengrass.clientToken environ;
       Greengrass.CreateGroupVersionInput.GroupId := Some (rd_id (st_d s));
       Greengrass.CreateGroupVersionInput.ConnectorDefinitionVersionArn := connector;
       Greengrass.CreateGroupVersionInput.CoreDefinitionVersionArn := core;
       Greengrass.CreateGroupVersionInput.DeviceDefinitionVersionArn := device;
       Greengrass.CreateGroupVersionInput.FunctionDefinitionVersionArn := function;
       Greengrass.CreateGroupVersionInput.LoggerDefinitionVersionArn := logger;
       Greengrass.CreateGroupVersionInput.ResourceDefinitionVersionArn := resource;
       Greengrass.CreateGroupVersionInput.SubscriptionDefinitionVersionArn :=
         subscription |} in
  let r := Greengrass.createGroupVersion environ conn s in
  emitted s r = [EvCall (Greengrass.CallCreateGroupVersion params)] /\
  returned r = Some (fst (Greengrass.CreateGroupVersion conn params (st_world s))) /\
  st_d (final r) = st_d s.
Proof.
  intros Hv H1 H2 H3 H4 H5 H6 H7 params r. subst r.
  unfold Greengrass.createGroupVersion.
  unfold Machine.bind, Get, Machine.Id, lift, invoke, ret.
  rewrite Hv. cbn [as_set length Nat.eqb at_index lookup list_lookup as_map Go.bind].
  rewrite (arnField_typed _ _ _ H1), (arnField_typed _ _ _ H2),
    (arnField_typed _ _ _ H3), (arnField_typed _ _ _ H4),
    (arnField_typed _ _ _ H5), (arnField_typed _ _ _ H6),
    (arnField_typed _ _ _ H7).
  unfold Go.String. fold params.
  destruct (Greengrass.CreateGroupVersion conn params (st_world s)) as [[e|] w'];
    unfold emitted; cbn [final st_log returned st_d fst];
    by rewrite drop_app_length.
Qed.

Lemma createGroupVersion_request_witness :
  index (rd_attrs (st_d grouped)) "group_version" = VSet [VMap group_version_block] /\
  emitted grouped (Greengrass.createGroupVersion ∅ greengrass_versions_refused grouped)
  = [EvCall (Greengrass.CallCreateGroupVersion
       {| Greengrass.CreateGroupVersionInput.AmznClientToken := Greengrass.clientToken ∅;
          Greengrass.CreateGroupVersionInput.GroupId := Some (rd_id (st_d grouped));
          Greengrass.CreateGroupVersionInput.ConnectorDefinitionVersionArn := None;
          Greengrass.CreateGroupVersionInput.CoreDefinitionVersionArn :=
            Some "arn:core:1";
          Greengrass.CreateGroupVersionInput.DeviceDefinitionVersionArn := None;
          Greengrass.CreateGroupVersionInput.FunctionDefinitionVersionArn := None;
          Greengrass.CreateGroupVersionInput.LoggerDefinitionVersionArn :=
            Some "arn:logger:1";
          Greengrass.CreateGroupVersionInput.ResourceDefinitionVersionArn := None;
          Greengrass.CreateGroupVersionInput.SubscriptionDefinitionVersionArn := None |})] /\
  returned (Greengrass.createGroupVersion ∅ greengrass_versions_refused grouped)
  = Some (Some "BadRequest").
Proof.
  split; [reflexivity|].
  pose proof (createGroupVersion_request ∅ greengrass_versions_refused grouped
                group_version_block []
                None (Some "arn:core:1") None None (Some "arn:logger:1") None None
                eq_refl eq_refl eq_refl eq_refl eq_refl eq_refl eq_refl eq_refl)
    as (Hem & Hret & _).
  split; [exact Hem | exact Hret].
Defined.

(** ** IoT Analytics: the dataset resource *)

Import Dataset.

Section DatasetFacts.
Context {W E : Type}.
Variable conn : datasetconn W E.

(** Reading the configuration changes nothing. *)
Lemma datasetFields_final (s : State W Dataset.Call) :
  final (datasetFields s) = s.
Proof.
  unfold datasetFields, Machine.bind, Get, lift, ret.
  repeat (match goal with
          | |- context [match ?g with Ok _ => _ | Panic _ => _ end] =>
              destruct g; cbn [final]; try reflexivity
          | |- context [if ?b then _ else _] =>
              destruct b; cbn [final]; try reflexivity
          end).
Qed.

Lemma datasetFields_run (s : State W Dataset.Call) :
  datasetFields s =
  match returned (datasetFields s) with
  | Some f => Ret f s
  | None => datasetFields s
  end /\
  (returned (datasetFields (W:=W) s) = None -> exists k, datasetFields s = Crash k s).
Proof.
  pose proof (datasetFields_final s) as Hfin.
  destruct (datasetFields s) as [f s'|k s']; cbn in Hfin |- *; subst s'.
  - split; [reflexivity | discriminate].
  - split; [reflexivity | intros _; by exists k].
Qed.

(** A read keeps the identity, and the one thing it does to the remote
    service is a describe call for the dataset of that identity. *)
Lemma dataset_read_run (s : State W Dataset.Call) :
  let r := resourceAwsIotAnalyticsDatasetRead conn s in
  rd_id (st_d (final r)) = rd_id (st_d s) /\
  st_log (final r) =
  st_log s ++ [EvCall (CallDescribeDataset
                 {| DescribeDatasetInput.DatasetName := Some (rd_id (st_d s)) |})].
Proof.
  unfold resourceAwsIotAnalyticsDatasetRead, GreengrassLifecycle.SetMaps.
  unfold Machine.bind, Machine.Id, invoke, lift, Set_, ret. unfold Go.String.
  cbn [st_d st_world st_log rd_id rd_attrs].
  destruct (DescribeDataset conn _ (st_world s)) as [[[o|] [e|]] w1]; cbn; try done.
  destruct (DescribeDatasetOutput.Dataset o) as [ds|]; cbn; [|done].
  destruct (flattenEach flattenDatasetAction _ _); cbn; [|done].
  destruct (flattenEach flattenContentDeliveryRule _ _); cbn; [|done].
  destruct (flattenRetentionPeriod _); cbn; [|done].
  destruct (flattenEach flattenTrigger _ _); cbn; done.
Qed.

End DatasetFacts.

(** X18. A versioning configuration with ["max_versions"] is parsed
    into a request that carries the number only when it is greater
    than 1, and ["unlimited"] whenever that key is present.  The value
    1, which the schema's validator accepts, leaves [MaxVersions]
    nil. *)
Theorem parseVersioningConfiguration_max_versions
    (rawVersioningConfiguration : gmap string value) (n : Z) :
  rawVersioningConfiguration !! "max_versions" = Some (VInt n) ->
  - 2 ^ 63 <= n < 2 ^ 63 ->
  (forall v, rawVersioningConfiguration !! "unlimited" = Some v -> exists b, v = VBool b) ->
  exists vc,
    parseVersioningConfiguration rawVersioningConfiguration = Ok vc /\
    VersioningConfiguration.MaxVersions vc = (if 1 <? n then Some n else None) /\
    VersioningConfiguration.Unlimited vc =
      match rawVersioningConfiguration !! "unlimited" with
      | Some (VBool b) => Some b
      | _ => None
      end /\
    (n = 1 -> IntAtLeast 1 n = true /\ VersioningConfiguration.MaxVersions vc = None).
Proof.
  intros Hn Hrange Hu. unfold parseVersioningConfiguration. rewrite Hn.
  cbn [as_int Go.bind].
  assert (int64 n = n) as ->.
  { unfold int64. rewrite Z.mod_small by lia. lia. }
  destruct (rawVersioningConfiguration !! "unlimited") as [v|] eqn:Hv.
  - destruct (Hu v eq_refl) as [b ->].
    destruct (1 <? n) eqn:H1; cbn; eexists; (split; [reflexivity|]);
      cbn; (split; [reflexivity|]); (split; [reflexivity|]);
      intros ->; try discriminate H1; done.
  - destruct (1 <? n) eqn:H1; cbn; eexists; (split; [reflexivity|]);
      cbn; (split; [reflexivity|]); (split; [reflexivity|]);
      intros ->; try discriminate H1; done.
Qed.

Lemma parseVersioningConfiguration_max_versions_witness :
  one_version_block !! "max_versions" = Some (VInt 1) /\
  - 2 ^ 63 <= 1 < 2 ^ 63 /\
  exists vc,
    Dataset.parseVersioningConfiguration one_version_block = Ok vc /\
    Dataset.VersioningConfiguration.MaxVersions vc = None /\
    Dataset.VersioningConfiguration.Unlimited vc = Some false.
Proof.
  split; [reflexivity|]. split; [lia|].
  assert (forall v, one_version_block !! "unlimited" = Some v -> exists b, v = VBool b)
    as Hu.
  { intros v Hv. vm_compute in Hv. injection Hv as <-. by exists false. }
  destruct (parseVersioningConfiguration_max_versions one_version_block 1
              eq_refl ltac:(lia) Hu) as (vc & Hvc & _ & Hun & Hone).
  exists vc. split; [exact Hvc|]. split; [exact (proj2 (Hone eq_refl))|exact Hun].
Defined.

(** X19. A dataset create calls [CreateDataset] once and never
    retries or sleeps.  When the call fails its error is returned and
    the resource data is as it was; when it succeeds the identity is
    the configured ["name"] and the dataset of that name is read back
    by the one describe call that ends the run. *)
Theorem dataset_create {W E : Type}
    (conn : datasetconn W E) (s : State W Dataset.Call) (f : Fields) :
  returned (datasetFields s) = Some f ->
  let params :=
    {| CreateDatasetInput.DatasetName := Some (f_name f);
       CreateDatasetInput.Actions := f_actions f;
       CreateDatasetInput.ContentDeliveryRules := f_contentDeliveryRules f;
       CreateDatasetInput.Triggers := f_triggers f;
       CreateDatasetInput.RetentionPeriod := f_retentionPeriod f;
       CreateDatasetInput.VersioningConfiguration := f_versioningConfiguration f |} in
  let r := resourceAwsIotAnalyticsDatasetCreate conn s in
  index (rd_attrs (st_d s)) "name" = VString (f_name f) /\
  sleeps (emitted s r) = [] /\
  (forall e w1,
     CreateDataset conn params (st_world s) = (Some e, w1) ->
     returned r = Some (Some e) /\
     emitted s r = [EvCall (CallCreateDataset params)] /\
     st_d (final r) = st_d s) /\
  (forall w1,
     CreateDataset conn params (st_world s) = (None, w1) ->
     rd_id (st_d (final r)) = f_name f /\
     emitted s r =
       [EvCall (CallCreateDataset params);
        EvCall (CallDescribeDataset
                  {| DescribeDatasetInput.DatasetName := Some (f_name f) |})]).
Proof.
  intros Hf params r.
  assert (index (rd_attrs (st_d s)) "name" = VString (f_name f)) as Hname.
  { revert Hf. unfold datasetFields, Machine.bind at 1, Get at 1.
    unfold Machine.bind at 1, lift at 1.
    destruct (index (rd_attrs (st_d s)) "name"); cbn [as_string]; try discriminate.
    unfold Machine.bind, Get, lift, ret.
    repeat (match goal with
            | |- context [match ?g with Ok _ => _ | Panic _ => _ end] =>
                destruct g; cbn [returned]; try discriminate
            | |- context [if ?b then _ else _] =>
                destruct b; cbn [returned]; try discriminate
            end); by intros [= <-]. }
  split; [exact Hname|].
  destruct (datasetFields_run s) as [Hrun _]. rewrite Hf in Hrun.
  set (s2 w1 := {| st_d := st_d s; st_world := w1;
                   st_log := st_log s ++ [EvCall (CallCreateDataset params)] |}
                : State W Dataset.Call).
  assert (r = match CreateDataset conn params (st_world s) with
              | (Some e, w1) => Ret (Some e) (s2 w1)
              | (None, w1) =>
                  resourceAwsIotAnalyticsDatasetRead conn
                    {| st_d := {| rd_id := f_name f; rd_attrs := rd_attrs (st_d s);
                                  rd_schema := rd_schema (st_d s) |};
                       st_world := w1;
                       st_log := st_log s ++ [EvCall (CallCreateDataset params)] |}
              end) as Hr.
  { subst r. unfold resourceAwsIotAnalyticsDatasetCreate.
    unfold Machine.bind at 1. rewrite Hrun.
    unfold Machine.bind, invoke, SetId, ret. unfold Go.String. fold params.
    by destruct (CreateDataset conn params (st_world s)) as [[e|] w1]. }
  destruct (CreateDataset conn params (st_world s)) as [[e|] w1] eqn:Hc.
  - assert (emitted s r = [EvCall (CallCreateDataset params)]) as Hem.
    { rewrite Hr. unfold emitted. cbn [final s2 st_log]. by rewrite drop_app_length. }
    split; [by rewrite Hem|]. split; [|intros ? [=]].
    intros e' w1' [= <- <-]. split; [by rewrite Hr|]. split; [exact Hem|].
    by rewrite Hr.
  - match type of Hr with _ = resourceAwsIotAnalyticsDatasetRead _ ?s1 =>
      destruct (dataset_read_run conn s1) as [Hid Hlog] end.
    rewrite <- Hr in Hid, Hlog. cbn [st_d st_log rd_id] in Hid, Hlog.
    rewrite <- app_assoc in Hlog. apply emitted_app in Hlog.
    split; [by rewrite Hlog|]. split; [intros ? ? [=]|].
    intros w1' _. split; [exact Hid | exact Hlog].
Qed.

Lemma dataset_create_witness :
  returned (datasetFields readings) = Some readings_fields /\
  (returned (resourceAwsIotAnalyticsDatasetCreate
               (dataset_service false (Some forever)) readings)
     = Some (Some "LimitExceeded") /\
   st_d (final (resourceAwsIotAnalyticsDatasetCreate
                  (dataset_service false (Some forever)) readings))
     = st_d readings) /\
  (rd_id (st_d (final (resourceAwsIotAnalyticsDatasetCreate
                         (dataset_service true (Some forever)) readings)))
     = "readings" /\
   emitted readings
     (resourceAwsIotAnalyticsDatasetCreate (dataset_service true (Some forever)) readings)
   = [EvCall (CallCreateDataset
        {| CreateDatasetInput.DatasetName := Some "readings";
           CreateDatasetInput.Actions := [Some readings_query];
           CreateDatasetInput.ContentDeliveryRules := [];
           CreateDatasetInput.Triggers := [];
           CreateDatasetInput.RetentionPeriod := None;
           CreateDatasetInput.VersioningConfiguration := None |});
      EvCall (CallDescribeDataset
        {| DescribeDatasetInput.DatasetName := Some "readings" |})]).
Proof.
  split; [reflexivity|].
  pose proof (dataset_create (dataset_service false (Some forever)) readings
                readings_fields eq_refl) as (_ & _ & Hfail & _).
  pose proof (dataset_create (dataset_service true (Some forever)) readings
                readings_fields eq_refl) as (_ & _ & _ & Hok).
  destruct (Hfail "LimitExceeded" 0 eq_refl) as (Hret & _ & Hd).
  split; [split; [exact Hret | exact Hd]|].
  exact (Hok 0 eq_refl).
Defined.

(** The flatteners of the dataset panic on nil pointers only. *)
Lemma flattenEach_panic {A} (flatten : option A -> go (gmap string value))
    (xs : list (option A)) (raws : list (gmap string value)) (k : panic_kind) :
  (forall x k, flatten x = Panic k -> k = NilDereference) ->
  flattenEach flatten xs raws = Panic k -> k = NilDereference.
Proof.
  intros Hf. revert raws. induction xs as [|x xs IH]; intros raws; cbn; [done|].
  destruct (flatten x) as [raw|k'] eqn:Hx; cbn.
  - apply IH.
  - intros [= <-]. by apply (Hf x).
Qed.

Lemma flattenQueryFilter_panic (x : option QueryFilter.t) (k : panic_kind) :
  flattenQueryFilter x = Panic k -> k = NilDereference.
Proof.
  unfold flattenQueryFilter. destruct x as [[[dt|]]|]; cbn; congruence.
Qed.

Lemma flattenDatasetAction_panic (x : option DatasetAction.t) (k : panic_kind) :
  flattenDatasetAction x = Panic k -> k = NilDereference.
Proof.
  unfold flattenDatasetAction, flattenSqlQueryAction.
  destruct x as [[name [[q fs]|]]|]; cbn; try congruence.
  destruct (flattenEach flattenQueryFilter fs []) as [raws|k'] eqn:Hfs; cbn;
    [congruence|].
  intros [= <-]. apply (flattenEach_panic _ _ _ _ flattenQueryFilter_panic Hfs).
Qed.

Lemma flattenContentDeliveryRule_panic
    (x : option DatasetContentDeliveryRule.t) (k : panic_kind) :
  flattenContentDeliveryRule x = Panic k -> k = NilDereference.
Proof.
  unfold flattenContentDeliveryRule, flattenDestination, flattenIotEventsDestination,
    flattenS3Destination.
  destruct x as [[[[[io|] [[b ky r [g|]]|]]|] [en|]]|]; cbn; congruence.
Qed.

Lemma flattenTrigger_panic (x : option DatasetTrigger.t) (k : panic_kind) :
  flattenTrigger x = Panic k -> k = NilDereference.
Proof. unfold flattenTrigger. destruct x as [[[sch|]]|]; cbn; congruence. Qed.

(** X20. When the describe call reports a dataset without retention
    period, read panics on the nil pointer.  A dataset without
    versioning configuration is read without harm: given a retention
    period, and actions, rules and triggers that can be flattened, read
    returns nil, keeps the identity, issues the describe call and
    nothing else, and hands [d.Set] six attributes, in this order:
    ["name"], the flattened ["action"] list, the flattened
    ["content_delivery_rule"] list, ["retention_period"] as a list of
    one map, the flattened ["trigger"] list and
    ["versioning_configuration"], for which a missing configuration is
    handed over as the empty list.  The attribute bag afterwards is what
    the schema makes of these six writes, whatever the schema does with
    them. *)
Theorem dataset_read_nil {W E : Type}
    (conn : datasetconn W E) (s : State W Dataset.Call)
    (o : DescribeDatasetOutput.t) (ds : Dataset_.t) (w1 : W) :
  DescribeDataset conn
    {| DescribeDatasetInput.DatasetName := Some (rd_id (st_d s)) |} (st_world s)
    = ((Some o, None), w1) ->
  DescribeDatasetOutput.Dataset o = Some ds ->
  let r := resourceAwsIotAnalyticsDatasetRead conn s in
  let d := st_d s in
  (Dataset_.RetentionPeriod ds = None -> exists s', r = Crash NilDereference s') /\
  (forall rp rawActions rawRules rawTriggers,
     Dataset_.RetentionPeriod ds = Some rp ->
     flattenEach flattenDatasetAction (Dataset_.Actions ds) [] = Ok rawActions ->
     flattenEach flattenContentDeliveryRule (Dataset_.ContentDeliveryRules ds) []
       = Ok rawRules ->
     flattenEach flattenTrigger (Dataset_.Triggers ds) [] = Ok rawTriggers ->
     returned r = Some None /\
     rd_id (st_d (final r)) = rd_id d /\
     st_world (final r) = w1 /\
     emitted s r =
       [EvCall (CallDescribeDataset
          {| DescribeDatasetInput.DatasetName := Some (rd_id d) |})] /\
     exists (m : gmap string value) (vc : list value),
       flattenRetentionPeriod (Some rp) = Ok m /\
       vc = wrapMapInList (flattenVersioningConfiguration
                             (Dataset_.VersioningConfiguration ds)) /\
       (Dataset_.VersioningConfiguration ds = None -> vc = []) /\
       rd_attrs (st_d (final r)) =
         rd_schema d "versioning_configuration" (VList vc)
           (rd_schema d "trigger" (VList (VMap <$> rawTriggers))
              (rd_schema d "retention_period" (VList [VMap m])
                 (rd_schema d "content_delivery_rule" (VList (VMap <$> rawRules))
                    (rd_schema d "action" (VList (VMap <$> rawActions))
                       (rd_schema d "name" (VStringPtr (Dataset_.Name ds))
                          (rd_attrs d))))))).
Proof.
  intros Hd Hds r d. subst d r.
  unfold resourceAwsIotAnalyticsDatasetRead, GreengrassLifecycle.SetMaps.
  unfold Machine.bind, Machine.Id, invoke, lift, Set_, ret. unfold Go.String.
  rewrite Hd. cbn [deref]. rewrite Hds.
  cbn [deref st_d st_world st_log rd_id rd_attrs rd_schema].
  split.
  - intros Hrp. rewrite Hrp.
    destruct (flattenEach flattenDatasetAction _ _) as [ra|k] eqn:Ha; cbn.
    2: { apply (flattenEach_panic _ _ _ _ flattenDatasetAction_panic) in Ha as ->.
         by eexists. }
    destruct (flattenEach flattenContentDeliveryRule _ _) as [rr|k] eqn:Hr; cbn.
    2: { apply (flattenEach_panic _ _ _ _ flattenContentDeliveryRule_panic) in Hr as ->.
         by eexists. }
    by eexists.
  - intros rp ra rr rt Hrp Ha Hr Ht. rewrite Hrp, Ha, Hr, Ht.
    unfold flattenRetentionPeriod, emitted. cbn [deref Go.bind].
    cbn [final returned st_d st_world st_log rd_id rd_attrs rd_schema].
    split; [reflexivity|]. split; [reflexivity|]. split; [reflexivity|].
    split; [by rewrite drop_app_length|].
    eexists. eexists. split; [reflexivity|]. split; [reflexivity|].
    split; [|reflexivity].
    by intros ->.
Qed.

Lemma dataset_read_nil_witness :
  DescribeDataset (dataset_service true None)
    {| DescribeDatasetInput.DatasetName := Some (rd_id (st_d readings)) |}
    (st_world readings)
    = DescribeDataset (dataset_service true None)
        {| DescribeDatasetInput.DatasetName := Some "" |} 0 /\
  (exists s',
     resourceAwsIotAnalyticsDatasetRead (dataset_service true None) readings
     = Crash NilDereference s') /\
  returned (resourceAwsIotAnalyticsDatasetRead
              (dataset_service true (Some forever)) readings) = Some None /\
  emitted readings (resourceAwsIotAnalyticsDatasetRead
                      (dataset_service true (Some forever)) readings)
    = [EvCall (CallDescribeDataset
         {| DescribeDatasetInput.DatasetName := Some "" |})].
Proof.
  split; [reflexivity|].
  pose proof (dataset_read_nil (dataset_service true None) readings _ _ 0
                eq_refl eq_refl) as [Hnil _].
  pose proof (dataset_read_nil (dataset_service true (Some forever)) readings _ _ 0
                eq_refl eq_refl) as [_ Hok].
  split; [exact (Hnil eq_refl)|].
  destruct (Hok forever _ _ _ eq_refl eq_refl eq_refl eq_refl)
    as (Hret & _ & _ & Hcalls & _).
  split; [exact Hret | exact Hcalls].
Defined.

Lemma parseEach_acc {A} (parse : gmap string value -> go A) (raws : list value)
    (xs : list (option A)) :
  parseEach parse raws xs =
  match parseEach parse raws [] with
  | Ok ys => Ok (xs ++ ys)
  | Panic k => Panic k
  end.
Proof.
  revert xs. induction raws as [|raw raws IH]; intros xs; cbn [parseEach].
  - by rewrite app_nil_r.
  - destruct (as_map raw) as [m|k]; cbn [Go.bind]; [|reflexivity].
    destruct (parse m) as [x|k]; cbn [Go.bind]; [|reflexivity].
    rewrite (IH (xs ++ [Some x])), (IH ([] ++ [Some x])).
    destruct (parseEach parse raws []); [|reflexivity].
    by rewrite <- app_assoc.
Qed.

(** A parsing loop returns one element for each raw one, in order. *)
Lemma parseEach_Forall2 {A} (parse : gmap string value -> go A) (raws : list value)
    (xs : list (option A)) :
  parseEach parse raws [] = Ok xs <->
  Forall2 (fun raw x => exists m y, raw = VMap m /\ parse m = Ok y /\ x = Some y)
    raws xs.
Proof.
  revert xs. induction raws as [|raw raws IH]; intros xs; cbn [parseEach].
  - split; [intros [= <-]; constructor | by intros ->%Forall2_nil_inv_l].
  - split.
    + destruct (as_map raw) as [m|k] eqn:Hm; cbn [Go.bind]; [|done].
      destruct (parse m) as [y|k] eqn:Hy; cbn [Go.bind]; [|done].
      rewrite parseEach_acc.
      destruct (parseEach parse raws []) as [ys|k] eqn:Hys; [|done].
      intros [= <-]. constructor; [|by apply IH].
      exists m, y. destruct raw; try discriminate Hm. by injection Hm as ->.
    + intros (x & ys & (m & y & -> & Hy & ->) & Hys & ->)%Forall2_cons_inv_l.
      cbn [as_map Go.bind]. rewrite Hy. cbn [Go.bind].
      apply IH in Hys. by rewrite parseEach_acc, Hys.
Qed.

(** X21. When a dataset create or update has read its configuration,
    the request it sends carries the configured ["name"], and one
    action, one content delivery rule and one trigger for each
    configured one, in the order of the sets' lists, each parsed from
    its map. *)
Theorem dataset_request_lists {W : Type} (s : State W Dataset.Call) (f : Fields)
    (rawActions rawRules rawTriggers : list value) :
  returned (datasetFields s) = Some f ->
  index (rd_attrs (st_d s)) "action" = VSet rawActions ->
  index (rd_attrs (st_d s)) "content_delivery_rule" = VSet rawRules ->
  index (rd_attrs (st_d s)) "trigger" = VSet rawTriggers ->
  index (rd_attrs (st_d s)) "name" = VString (f_name f) /\
  Forall2 (fun raw x => exists m y, raw = VMap m /\ parseDatasetAction m = Ok y /\
                                    x = Some y)
    rawActions (f_actions f) /\
  Forall2 (fun raw x => exists m y, raw = VMap m /\ parseContentDeliveryRule m = Ok y /\
                                    x = Some y)
    rawRules (f_contentDeliveryRules f) /\
  Forall2 (fun raw x => exists m y, raw = VMap m /\ parseTrigger m = Ok y /\
                                    x = Some y)
    rawTriggers (f_triggers f).
Proof.
  intros Hf Ha Hr Ht. revert Hf.
  unfold datasetFields, Machine.bind, Get, lift, ret.
  destruct (index (rd_attrs (st_d s)) "name"); cbn [as_string returned];
    try discriminate.
  rewrite Ha. cbn [as_set].
  destruct (parseEach parseDatasetAction rawActions []) as [acts|] eqn:Hacts;
    cbn [returned]; try discriminate.
  rewrite Hr. cbn [as_set].
  destruct (parseEach parseContentDeliveryRule rawRules []) as [rules|] eqn:Hrules;
    cbn [returned]; try discriminate.
  rewrite Ht. cbn [as_set].
  destruct (parseEach parseTrigger rawTriggers []) as [trigs|] eqn:Htrigs;
    cbn [returned]; try discriminate.
  apply parseEach_Forall2 in Hacts, Hrules, Htrigs.
  repeat (match goal with
          | |- context [match ?g with Ok _ => _ | Panic _ => _ end] =>
              destruct g; cbn [returned]; try discriminate
          | |- context [if ?b then _ else _] =>
              destruct b; cbn [returned]; try discriminate
          end); by intros [= <-].
Qed.

Lemma dataset_request_lists_witness :
  returned (datasetFields readings) = Some readings_fields /\
  index (rd_attrs (st_d readings)) "action" = VSet [VMap readings_action] /\
  Forall2 (fun raw x => exists m y, raw = VMap m /\ parseDatasetAction m = Ok y /\
                                    x = Some y)
    [VMap readings_action] (f_actions readings_fields).
Proof.
  do 2 (split; [reflexivity|]).
  exact (proj1 (proj2 (dataset_request_lists readings readings_fields
                         [VMap readings_action] [] []
                         eq_refl eq_refl eq_refl eq_refl))).
Defined.

(** X22. A dataset create or update whose configuration cannot be
    read panics before anything is done: no call is issued and the
    resource data is as it was.  That is so in particular for a content
    delivery rule without destination block, which the parser indexes
    without looking at its length. *)
Theorem dataset_bad_config {W E : Type}
    (conn : datasetconn W E) (s : State W Dataset.Call) :
  (returned (datasetFields s) = None ->
   (exists k, resourceAwsIotAnalyticsDatasetCreate conn s = Crash k s) /\
   (exists k, resourceAwsIotAnalyticsDatasetUpdate conn s = Crash k s)) /\
  (forall name rawActions actions rawRule rest,
     index (rd_attrs (st_d s)) "name" = VString name ->
     index (rd_attrs (st_d s)) "action" = VSet rawActions ->
     parseEach parseDatasetAction rawActions [] = Ok actions ->
     index (rd_attrs (st_d s)) "content_delivery_rule" = VSet (VMap rawRule :: rest) ->
     index rawRule "destination" = VSet [] ->
     resourceAwsIotAnalyticsDatasetCreate conn s = Crash IndexOutOfRange s /\
     resourceAwsIotAnalyticsDatasetUpdate conn s = Crash IndexOutOfRange s).
Proof.
  split.
  - intros Hnone. destruct (datasetFields_run s) as [_ Hrun].
    destruct (Hrun Hnone) as [k Hk].
    unfold resourceAwsIotAnalyticsDatasetCreate, resourceAwsIotAnalyticsDatasetUpdate.
    unfold Machine.bind at 1. unfold Machine.bind at 3. rewrite Hk.
    split; by exists k.
  - intros name rawActions actions rawRule rest Hn Ha Hacts Hr Hdest.
    assert (datasetFields s = Crash IndexOutOfRange s) as Hk.
    { unfold datasetFields, Machine.bind, Get, lift, ret.
      rewrite Hn. cbn [as_string]. rewrite Ha. cbn [as_set]. rewrite Hacts.
      rewrite Hr. cbn [as_set parseEach as_map Go.bind].
      unfold parseContentDeliveryRule. rewrite Hdest. reflexivity. }
    unfold resourceAwsIotAnalyticsDatasetCreate, resourceAwsIotAnalyticsDatasetUpdate.
    unfold Machine.bind at 1. unfold Machine.bind at 3. by rewrite Hk.
Qed.

Lemma dataset_bad_config_witness :
  returned (datasetFields undelivered) = None /\
  index (rd_attrs (st_d undelivered)) "content_delivery_rule"
    = VSet [VMap (<["destination" := VSet []]> ∅)] /\
  resourceAwsIotAnalyticsDatasetCreate (dataset_service true (Some forever)) undelivered
    = Crash IndexOutOfRange undelivered /\
  (exists k,
     resourceAwsIotAnalyticsDatasetUpdate (dataset_service true (Some forever))
       undelivered = Crash k undelivered).
Proof.
  do 2 (split; [reflexivity|]).
  pose proof (dataset_bad_config (dataset_service true (Some forever)) undelivered)
    as [Hany Hrule].
  split.
  - exact (proj1 (Hrule "readings" [VMap readings_action] [Some readings_query]
                    (<["destination" := VSet []]> ∅) []
                    eq_refl eq_refl eq_refl eq_refl eq_refl)).
  - exact (proj2 (Hany eq_refl)).
Defined.

(** X23. A dataset update calls [UpdateDataset] once, without retry
    or sleep, and never changes the identity: when the call fails its
    error is returned and the resource data is as it was; when it
    succeeds the dataset of the current identity is read back.  A
    dataset delete issues its one call for the current identity and
    returns what the service answers. *)
Theorem dataset_update_delete {W E : Type}
    (conn : datasetconn W E) (s : State W Dataset.Call) :
  (forall f,
     returned (datasetFields s) = Some f ->
     let params :=
       {| UpdateDatasetInput.DatasetName := Some (f_name f);
          UpdateDatasetInput.Actions := f_actions f;
          UpdateDatasetInput.ContentDeliveryRules := f_contentDeliveryRules f;
          UpdateDatasetInput.Triggers := f_triggers f;
          UpdateDatasetInput.RetentionPeriod := f_retentionPeriod f;
          UpdateDatasetInput.VersioningConfiguration := f_versioningConfiguration f |} in
     let r := resourceAwsIotAnalyticsDatasetUpdate conn s in
     rd_id (st_d (final r)) = rd_id (st_d s) /\
     sleeps (emitted s r) = [] /\
     (forall e w1,
        UpdateDataset conn params (st_world s) = (Some e, w1) ->
        returned r = Some (Some e) /\
        emitted s r = [EvCall (CallUpdateDataset params)] /\
        st_d (final r) = st_d s) /\
     (forall w1,
        UpdateDataset conn params (st_world s) = (None, w1) ->
        emitted s r =
          [EvCall (CallUpdateDataset params);
           EvCall (CallDescribeDataset
                     {| DescribeDatasetInput.DatasetName := Some (rd_id (st_d s)) |})])) /\
  (let params := {| DeleteDatasetInput.DatasetName := Some (rd_id (st_d s)) |} in
   let r := resourceAwsIotAnalyticsDatasetDelete conn s in
   returned r = Some (fst (DeleteDataset conn params (st_world s))) /\
   emitted s r = [EvCall (CallDeleteDataset params)] /\
   st_d (final r) = st_d s).
Proof.
  split.
  - intros f Hf params r.
    destruct (datasetFields_run s) as [Hrun _]. rewrite Hf in Hrun.
    set (s2 w1 := {| st_d := st_d s; st_world := w1;
                     st_log := st_log s ++ [EvCall (CallUpdateDataset params)] |}
                  : State W Dataset.Call).
    assert (r = match UpdateDataset conn params (st_world s) with
                | (Some e, w1) => Ret (Some e) (s2 w1)
                | (None, w1) => resourceAwsIotAnalyticsDatasetRead conn (s2 w1)
                end) as Hr.
    { subst r. unfold resourceAwsIotAnalyticsDatasetUpdate.
      unfold Machine.bind at 1. rewrite Hrun.
      unfold Machine.bind, invoke, ret. unfold Go.String. fold params.
      by destruct (UpdateDataset conn params (st_world s)) as [[e|] w1]. }
    destruct (UpdateDataset conn params (st_world s)) as [[e|] w1] eqn:Hc.
    + assert (emitted s r = [EvCall (CallUpdateDataset params)]) as Hem.
      { rewrite Hr. unfold emitted. cbn [final s2 st_log].
        by rewrite drop_app_length. }
      split; [by rewrite Hr|]. split; [by rewrite Hem|]. split; [|intros ? [=]].
      intros e' w1' [= <- <-]. split; [by rewrite Hr|]. split; [exact Hem|].
      by rewrite Hr.
    + destruct (dataset_read_run conn (s2 w1)) as [Hid Hlog].
      rewrite <- Hr in Hid, Hlog. cbn [s2 st_d st_log] in Hid, Hlog.
      rewrite <- app_assoc in Hlog. apply emitted_app in Hlog.
      split; [exact Hid|]. split; [by rewrite Hlog|]. split; [intros ? ? [=]|].
      intros w1' _. exact Hlog.
  - intros params r. subst r.
    unfold resourceAwsIotAnalyticsDatasetDelete, Machine.bind, Machine.Id, invoke,
      emitted.
    unfold Go.String. fold params.
    destruct (DeleteDataset conn params (st_world s)) as [err w'].
    cbn [final st_log returned st_d st_world fst snd].
    by rewrite drop_app_length.
Qed.

Lemma dataset_update_delete_witness :
  returned (datasetFields readings) = Some readings_fields /\
  returned (resourceAwsIotAnalyticsDatasetUpdate
              (dataset_service false (Some forever)) readings)
    = Some (Some "LimitExceeded") /\
  emitted readings
    (resourceAwsIotAnalyticsDatasetUpdate (dataset_service true (Some forever)) readings)
  = [EvCall (CallUpdateDataset
       {| UpdateDatasetInput.DatasetName := Some "readings";
          UpdateDatasetInput.Actions := [Some readings_query];
          UpdateDatasetInput.ContentDeliveryRules := [];
          UpdateDatasetInput.Triggers := [];
          UpdateDatasetInput.RetentionPeriod := None;
          UpdateDatasetInput.VersioningConfiguration := None |});
     EvCall (CallDescribeDataset
       {| DescribeDatasetInput.DatasetName := Some (rd_id (st_d readings)) |})] /\
  returned (resourceAwsIotAnalyticsDatasetDelete
              (dataset_service false (Some forever)) readings)
    = Some (Some "LimitExceeded").
Proof.
  split; [reflexivity|].
  pose proof (dataset_update_delete (dataset_service false (Some forever)) readings)
    as [Hfail Hdel].
  pose proof (dataset_update_delete (dataset_service true (Some forever)) readings)
    as [Hok _].
  destruct (Hfail readings_fields eq_refl) as (_ & _ & Hf & _).
  destruct (Hok readings_fields eq_refl) as (_ & _ & _ & Hs).
  split; [exact (proj1 (Hf "LimitExceeded" 0 eq_refl))|].
  split; [exact (Hs 0 eq_refl) | exact (proj1 Hdel)].
Defined.

(** ** The retry loop: success on a later attempt *)

(** X24. An operation that fails [n] times and then succeeds, with
    [n] below 6, makes the loop report success after exactly [n + 1]
    invocations, having slept the first [n] of the delays 1s, 2s, 5s,
    8s, 10s and nothing after the success. *)
Theorem retry_success_at {W C E : Type} `{Clock W}
    (c : C) (f : W -> option E * W) (s : State W C) (n : nat) :
  (n < 6)%nat ->
  map failed (attempts f retrySecondsList (st_world s)) = replicate n true ++ [false] ->
  let r := retry (invoke c f) retrySecondsList None s in
  returned r = Some None /\
  calls (emitted s r) = S n /\
  sleeps (emitted s r) = take n (map seconds [1; 2; 5; 8; 10]) /\
  waits 0 (emitted s r) = (0 :: take n (map seconds [1; 2; 5; 8; 10]), 0).
Proof.
  intros Hn Hp r. subst r. rewrite emitted_retry, returned_retry, Hp.
  split.
  - f_equal. apply last_pattern. rewrite Hp. by rewrite last_snoc.
  - do 6 (destruct n as [|n]; [repeat split|]). lia.
Qed.

Lemma retry_success_at_witness :
  (2 < 6)%nat /\
  map failed (attempts (ready_at (seconds 3)) retrySecondsList
                (st_world (fresh (C:=unit) ∅)))
    = replicate 2 true ++ [false] /\
  returned (retry (invoke tt (ready_at (seconds 3))) retrySecondsList None (fresh ∅))
    = Some None /\
  calls (emitted (fresh ∅)
           (retry (invoke tt (ready_at (seconds 3))) retrySecondsList None (fresh ∅)))
    = 3%nat /\
  sleeps (emitted (fresh ∅)
            (retry (invoke tt (ready_at (seconds 3))) retrySecondsList None (fresh ∅)))
    = take 2 (map seconds [1; 2; 5; 8; 10]) /\
  waits 0 (emitted (fresh ∅)
             (retry (invoke tt (ready_at (seconds 3))) retrySecondsList None (fresh ∅)))
    = (0 :: take 2 (map seconds [1; 2; 5; 8; 10]), 0).
Proof.
  split; [lia|]. split; [reflexivity|].
  apply (retry_success_at tt (ready_at (seconds 3)) (fresh ∅) 2); [lia | reflexivity].
Defined.

(** ** Further witnesses *)

Lemma parseCustomerManagedS3_domain_witness :
  (exists x, parseCustomerManagedS3 raw_customer_block = Ok x) /\
  parseCustomerManagedS3 raw_customer_block
    = Ok {| Bucket := Some "b"; KeyPrefix := None; RoleArn := Some "r" |}.
Proof.
  split; [|reflexivity].
  apply (proj1 (parseCustomerManagedS3_domain raw_customer_block)).
  exists "b", "r". repeat split.
  intros v Hv. vm_compute in Hv. injection Hv as <-. by eexists.
Defined.

Lemma parseRetentionPeriod_domain_witness :
  (exists rp, parseRetentionPeriod raw_retention_block = Ok rp) /\
  parseRetentionPeriod raw_retention_block
    = Ok {| NumberOfDays := None; Unlimited := Some false |}.
Proof.
  split; [|reflexivity].
  apply (proj1 (parseRetentionPeriod_domain raw_retention_block)).
  split; intros v Hv; vm_compute in Hv; injection Hv as <-; by eexists.
Defined.

Lemma greengrass_read_witness :
  emitted plain_edge
    (resourceAwsGreengrassGroupRead (greengrass_client greengrass_service) plain_edge)
    = [EvCall (CallGetGroup {| GetGroupInput.GroupId := Some "g-0" |})] /\
  returned (resourceAwsGreengrassLoggerDefinitionRead greengrass_refusing plain_edge)
    = Some (Some "AccessDenied").
Proof.
  pose proof (greengrass_read (greengrass_client greengrass_service) plain_edge)
    as [(_ & Hem & _) _].
  pose proof (greengrass_read greengrass_refusing plain_edge) as [_ (_ & _ & Herr)].
  split; [exact Hem|].
  exact (proj1 (Herr None "AccessDenied" 0 eq_refl)).
Defined.

Lemma delete_single_call_witness :
  returned (resourceAwsIotAnalyticsChannelDelete iot_service_forgetful renamed)
    = Some (Some "ResourceNotFoundException") /\
  emitted renamed (resourceAwsIotAnalyticsChannelDelete iot_service_forgetful renamed)
    = [EvCall (CallDelete OfChannel
         {| DeleteChannelInput.ChannelName := Some "telemetry-v1" |})].
Proof.
  pose proof (delete_single_call iot_service_forgetful OfChannel renamed)
    as (Hret & Hem & _).
  split; [exact Hret | exact Hem].
Defined.
